(** * x402-grid-ui: a shallow embedding of the payment-gated routes

    The development follows the TypeScript sources:

    - [src/lib/x402-config.ts]              -> [Module Config]
    - [src/lib/types.ts]                    -> [Module Types]
    - [src/lib/solana-payment.ts]           -> [Module SolanaPayment]
    - [src/app/api/render-ui/route.ts],
      [src/app/api/premium-ui/route.ts]     -> [Module Routes]
    - [src/app/api/verify-payment/route.ts] -> [Module VerifyPayment]
    - [src/lib/x402-client.ts]              -> [Module Client], [Module ClientInit],
                                               [Module Price]
    - [src/app/components/ui-renderer.tsx],
      [src/app/page.tsx]                    -> [Module Renderer], [Module Table],
                                               [Module Home]
    - [src/app/components/x402-payment-button.tsx]
                                            -> [Module Button],
                                               [Module ButtonHandlers]
    - [formatPublicKey] of [src/lib/solana-payment.ts]
                                            -> [Module Format]

    [Module JS] holds the pieces of JavaScript the sources rely on,
    [Module Eff] the monad the handlers run in, [Module World] the
    libraries and services they call, [Module RoutesSpec],
    [Module RoutesSpecMore] and [Module ButtonSpec] the vocabulary in
    which the executions of the routes and of the button are described,
    and [Module Scenario] and [Module ScenarioMore] concrete worlds to
    run the handlers on.  The properties follow from [Module EffFacts]
    on; [Module Checks] and [Module FurtherChecks] instantiate them.

    Conventions.  JavaScript numbers that the program uses as counts,
    lamports, indices and timestamps are integers and are modelled in [Z].
    Values read from a request body have the types the sources declare
    for them (a component type is a string, a config a [UIConfig]) or
    are absent.  A JavaScript object used as a map is a [gmap string _]
    of its own properties; reading a property with a computed key goes
    through [JS.get_property], which also sees what every object literal
    inherits from [Object.prototype].  An [async] function that may
    reject, and a call that may throw, returns a [JS.result].  Calls
    into the outside world (the x402 library, the Solana RPC node,
    [fetch], [Math.random]) are fields of environment records; the
    handlers are functions of them, and log the calls they make.
    Console output is not modelled.  The payment button looks at the
    name and the message of what it catches, so its computations carry
    errors of their own ([Button.JsError]); its React state is what the
    setter calls in its log add up to ([Button.state_after]). *)

From stdpp Require Import gmap strings list fin_maps pretty sorting.
From Stdlib Require Import ZArith Lia.

#[local] Set Warnings "-register-all,-clear-no-such-hyp".

(** ** JavaScript values and control flow *)

Module JS.

(** A thrown JavaScript exception, identified by its message. *)
Inductive Exn : Type := Thrown (msg : string).

(** The outcome of an expression that may throw (or of an awaited
    promise that may reject). *)
Inductive result (A : Type) : Type :=
| Ok (a : A)
| Throw (e : Exn).
Arguments Ok {A} a.
Arguments Throw {A} e.

Definition is_ok {A} (r : result A) : bool :=
  match r with Ok _ => true | Throw _ => false end.

(** Truthiness of [string | null | undefined]: the empty string is falsy. *)
Definition truthy_string (o : option string) : bool :=
  match o with
  | Some s => bool_decide (s ≠ "")
  | None => false
  end.

(** Truthiness of [number | undefined]: zero is falsy. *)
Definition truthy_number (o : option Z) : bool :=
  match o with
  | Some n => bool_decide (n ≠ 0%Z)
  | None => false
  end.

(** [a || d] on strings and on numbers. *)
Definition or_string (o : option string) (d : string) : string :=
  match o with
  | Some s => if bool_decide (s ≠ "") then s else d
  | None => d
  end.

Definition or_number (o : option Z) (d : Z) : Z :=
  match o with
  | Some n => if bool_decide (n ≠ 0%Z) then n else d
  | None => d
  end.

(** [String(v)] and a template-literal hole for [string | undefined]. *)
Definition to_string (o : option string) : string :=
  match o with Some s => s | None => "undefined" end.

(** The property names an ordinary object (one created by an object
    literal) inherits from [Object.prototype]. *)
Definition Object_prototype_keys : list string :=
  [ "constructor"; "__defineGetter__"; "__defineSetter__";
    "hasOwnProperty"; "__lookupGetter__"; "__lookupSetter__";
    "isPrototypeOf"; "propertyIsEnumerable"; "toString"; "valueOf";
    "__proto__"; "toLocaleString" ].

(** What [obj[key]] evaluates to: an own property, a member inherited
    from [Object.prototype] (a function, or the prototype object itself
    for ["__proto__"]), or [undefined]. *)
Inductive property (A : Type) : Type :=
| Own (a : A)
| Inherited (name : string)
| Undefined.
Arguments Own {A} a.
Arguments Inherited {A} name.
Arguments Undefined {A}.

Definition get_property {A} (own : gmap string A) (key : string) : property A :=
  match own !! key with
  | Some a => Own a
  | None =>
      if bool_decide (key ∈ Object_prototype_keys) then Inherited key
      else Undefined
  end.

(** A reference to an object: either one of ours, or an inherited
    built-in.  Both are truthy. *)
Inductive ref (A : Type) : Type :=
| Obj (a : A)
| Builtin (name : string).
Arguments Obj {A} a.
Arguments Builtin {A} name.

(** [obj[key] || fallback] where the own properties and the fallback are
    objects (always truthy). *)
Definition get_or {A} (own : gmap string A) (key : string) (fallback : A) : ref A :=
  match get_property own key with
  | Own a => Obj a
  | Inherited name => Builtin name
  | Undefined => Obj fallback
  end.

(** [Array.from({ length: len }, (_, i) => f i)].  A negative length
    counts as zero; the array constructor refuses a length above
    2^32 - 1 with a RangeError. *)
Definition max_array_length : Z := 4294967295.

Definition Array_from {A} (len : Z) (f : nat → A) : result (list A) :=
  if bool_decide (len ≤ max_array_length)%Z
  then Ok (f <$> seq 0 (Z.to_nat len))
  else Throw (Thrown "Invalid array length").

(** [arr.findIndex(p)]: the first index whose element satisfies [p],
    or -1. *)
Fixpoint findIndex {A} (p : A → bool) (l : list A) : Z :=
  match l with
  | [] => (-1)%Z
  | x :: l' =>
      if p x then 0%Z
      else let i := findIndex p l' in
           if bool_decide (i = (-1)%Z) then (-1)%Z else (i + 1)%Z
  end.

(** [arr[i]] for a number [i]: [undefined] out of range. *)
Definition index {A} (l : list A) (i : Z) : option A :=
  if bool_decide (0 ≤ i)%Z then l !! Z.to_nat i else None.

(** [s.startsWith(p)] *)
Definition startsWith (s p : string) : bool := String.prefix p s.

(** ASCII lower-casing, as the Fetch [Headers] class applies to names. *)
Definition lower_ascii (c : Ascii.ascii) : Ascii.ascii :=
  let n := Ascii.nat_of_ascii c in
  if (Nat.leb 65 n && Nat.leb n 90)%bool then Ascii.ascii_of_nat (n + 32) else c.

Fixpoint toLowerCase (s : string) : string :=
  match s with
  | EmptyString => EmptyString
  | String c s' => String (lower_ascii c) (toLowerCase s')
  end.

End JS.

Export JS.

(** ** Effects: state, exceptions and a log of calls *)

Module Eff.

Section Eff.
Variables (S E : Type).

(** A computation reads and writes a state [S], appends events [E] to
    a log, and returns or throws.  As in JavaScript, what was written
    before a throw stays written. *)
Definition M (A : Type) : Type := S → result A * S * list E.

Definition ret {A} (a : A) : M A := λ s, (Ok a, s, []).

Definition throw {A} (e : Exn) : M A := λ s, (Throw e, s, []).

Definition bind {A B} (m : M A) (k : A → M B) : M B :=
  λ s, match m s with
       | (Ok a, s1, l1) =>
           match k a s1 with (r, s2, l2) => (r, s2, l1 ++ l2) end
       | (Throw e, s1, l1) => (Throw e, s1, l1)
       end.

(** [try { m } catch (e) { h e }] *)
Definition try_catch {A} (m : M A) (h : Exn → M A) : M A :=
  λ s, match m s with
       | (Ok a, s1, l1) => (Ok a, s1, l1)
       | (Throw e, s1, l1) =>
           match h e s1 with (r, s2, l2) => (r, s2, l1 ++ l2) end
       end.

(** Record a call in the log. *)
Definition emit (e : E) : M unit := λ s, (Ok tt, s, [e]).

(** An awaited value delivered by the outside world. *)
Definition await {A} (r : result A) : M A := λ s, (r, s, []).

(** A call that reads and advances the state. *)
Definition step {A} (f : S → A * S) : M A :=
  λ s, let '(a, s') := f s in (Ok a, s', []).
End Eff.

Arguments ret {S E A} a.
Arguments throw {S E A} e.
Arguments bind {S E A B} m k.
Arguments try_catch {S E A} m h.
Arguments emit {S E} e.
Arguments await {S E A} r.
Arguments step {S E A} f.

Definition outcome {S E A} (x : result A * S * list E) : result A := x.1.1.
Definition final {S E A} (x : result A * S * list E) : S := x.1.2.
Definition trace {S E A} (x : result A * S * list E) : list E := x.2.

(** [m] neither reads nor writes the state: from every state it gives
    the same outcome and log, and leaves the state as it was. *)
Definition stateless {S E A} (m : M S E A) : Prop :=
  ∃ ρ l, ∀ s, m s = (ρ, s, l).

End Eff.

Export Eff.

Declare Scope eff_scope.
Delimit Scope eff_scope with eff.
Notation "x <- m ;; k" := (bind m (λ x, k))
  (at level 100, m at next level, right associativity) : eff_scope.
Notation "m ;;; k" := (bind m (λ _, k))
  (at level 100, right associativity) : eff_scope.

(** ** src/lib/x402-config.ts *)

Module Config.

(** The environment variables the configuration reads. *)
Record ProcessEnv : Type := {
  NEXT_PUBLIC_SOLANA_NETWORK : option string;
  NEXT_PUBLIC_SOLANA_RPC : option string;
  NEXT_PUBLIC_X402_FACILITATOR_URL : option string;
  NEXT_PUBLIC_BASE_URL : option string;
}.

Record X402Config : Type := {
  payTo : string;
  network : string;
  rpcEndpoint : string;
  facilitatorUrl : string;
  asset : string;
  baseUrl : string;
  prices : gmap string Z;
}.

Definition x402Config (env : ProcessEnv) : X402Config := {|
  payTo := "8MeWTYDip5SWVJf3wkvDKZw9BjSAWMXm5oAeELJ6HFM9";
  network := or_string (NEXT_PUBLIC_SOLANA_NETWORK env) "mainnet-beta";
  rpcEndpoint := or_string (NEXT_PUBLIC_SOLANA_RPC env) "https://api.mainnet-beta.solana.com";
  facilitatorUrl := or_string (NEXT_PUBLIC_X402_FACILITATOR_URL env) "https://facilitator.payai.network";
  asset := "SOL";
  baseUrl := or_string (NEXT_PUBLIC_BASE_URL env) "https://grid.wtf";
  prices :=
    <["https://grid.wtf/api/x402/v1/new-markets" := 500000%Z]>
    (<["/api/premium-ui" := 500000%Z]>
    (<["/api/render-ui" := 500000%Z]> ∅));
|}.

(** [x402Config.prices[k]] for a key [k] written in the source: the
    number stored under it ([undefined], rendered as [None], otherwise). *)
Definition price (cfg : X402Config) (k : string) : option Z := prices cfg !! k.

End Config.

Export Config.

(** ** src/lib/types.ts *)

Module Types.

(** JSON data that the program only passes along (the body of the
    library's 402 response, the records of the external markets API). *)
Inductive json : Type :=
| JNull
| JBool (b : bool)
| JNum (n : Z)
| JStr (s : string)
| JArr (items : list json)
| JObj (fields : list (string * json)).

(** [ComponentType] *)
Definition ComponentType : list string :=
  [ "grid"; "card"; "dashboard"; "advanced-grid"; "data-table";
    "analytics"; "markets" ].

Record CardAction : Type := { label : string; variant : string }.

(** [UIConfig = GridConfig | CardConfig | DashboardConfig]: an object
    whose fields are all optional. *)
Record UIConfig : Type := {
  columns : option Z;
  gap : option Z;
  itemCount : option Z;
  title : option string;
  content : option string;
  actions : option (list CardAction);
}.

Record GridItem : Type := {
  id : Z;
  item_title : string;
  description : string;
  color : string;
}.

Record GridLayout : Type := {
  layout_columns : Z;
  layout_gap : Z;
  items : list GridItem;
}.

Record Widget : Type := {
  widget_type : string;
  widget_label : string;
  value : option string;
  trend : option string;
  data : option (list Z);
}.

Record AdvancedGridItem : Type := {
  base : GridItem;
  image : option string;
  features : list string;
  rating : string;
}.

Record AdvancedGridLayout : Type := {
  adv_columns : Z;
  rows : string;
  adv_gap : Z;
  adv_items : list AdvancedGridItem;
}.

Record DataColumn : Type := {
  key : string;
  column_label : string;
  sortable : option bool;
  filterable : option bool;
}.

(** A row of the data table, [{ id, name, value, status }]; [status] is
    [undefined] when the index into the three labels is out of range. *)
Record DataRow : Type := {
  row_id : Z;
  row_name : string;
  row_value : Z;
  row_status : option string;
}.

Record AnalyticsWidget : Type := {
  metric_type : string;
  metric_label : string;
  metric_value : string;
  change : string;
}.

Record AnalyticsChart : Type := {
  chart_type : string;
  chart_label : string;
  chart_data : list json;
}.

Record AnalyticsSection : Type := {
  section_title : string;
  widgets : option (list AnalyticsWidget);
  charts : option (list AnalyticsChart);
}.

(** [UIData]: the union of the seven interfaces; the literal in each
    interface's [type] field is [type_of]. *)
Inductive UIData : Type :=
| GridUI (layout : GridLayout)
| CardUI (title content : string) (actions : list CardAction)
| DashboardUI (widgets : list Widget)
| AdvancedGridUI (layout : AdvancedGridLayout) (animations : bool)
    (interactions : list string)
| DataTableUI (columns : list DataColumn) (data : list DataRow)
    (features : list string)
| AnalyticsDashboardUI (sections : list AnalyticsSection)
| MarketsUI (markets : list json) (meta : json).

Definition type_of (u : UIData) : string :=
  match u with
  | GridUI _ => "grid"
  | CardUI _ _ _ => "card"
  | DashboardUI _ => "dashboard"
  | AdvancedGridUI _ _ _ => "advanced-grid"
  | DataTableUI _ _ _ => "data-table"
  | AnalyticsDashboardUI _ => "analytics-dashboard"
  | MarketsUI _ _ => "markets"
  end.

(** The seven [type] literals of [UIData], in declaration order. *)
Definition UIData_types : list string :=
  [ "grid"; "card"; "dashboard"; "advanced-grid"; "data-table";
    "analytics-dashboard"; "markets" ].

(** [PaymentProof] *)
Record PaymentProof : Type := {
  signature : string;
  publicKey : string;
  timestamp : Z;
}.

End Types.

Export Types.

(** ** The outside world, as the routes see it *)

Module World.

(** *** @solana/web3.js *)

(** A public key is its 32 bytes; [key.equals(other)] compares them. *)
Record PublicKey : Type := { key_bytes : list Z }.

#[global] Instance PublicKey_eq_dec : EqDecision PublicKey.
Proof. solve_decision. Defined.

Definition equals (a b : PublicKey) : bool := bool_decide (a = b).

(** [TransactionError]: an object describing why a transaction failed. *)
Inductive TransactionError : Type := TxError (reason : string).

Record ConfirmedTransactionMeta : Type := {
  err : option TransactionError;
  preBalances : list Z;
  postBalances : list Z;
}.

(** What [connection.getTransaction] resolves to when the transaction is
    found.  [staticAccountKeys] is the outcome of
    [tx.transaction.message.getAccountKeys().staticAccountKeys]: the
    library throws there when the message has unresolved address table
    lookups. *)
Record TransactionResponse : Type := {
  meta : option ConfirmedTransactionMeta;
  staticAccountKeys : result (list PublicKey);
}.

(** The part of the library the routes use, bound to the configured RPC
    endpoint.  (Loading the library and creating the [Connection] are
    taken to succeed in the two UI routes, where both happen inside the
    try block of the custom check; the verify-payment route creates its
    connection where a throw is answered 500, and calls
    [new_Connection].) *)
Record Web3 : Type := {
  (** [connection.getTransaction(signature, ...)]: rejects on an RPC
      error, resolves to [null] when the transaction is unknown. *)
  getTransaction : string → result (option TransactionResponse);
  (** [new PublicKey(text)]: throws unless [text] is the base-58 form of
      32 bytes. *)
  new_PublicKey : string → result PublicKey;
  (** [new Connection(endpoint, 'confirmed')]: throws when the library
      cannot make a connection of [endpoint] (one that is not an http
      or https URL). *)
  new_Connection : string → result unit;
}.

(** *** x402-solana/server *)

(** The argument of [createPaymentRequirements]. *)
Record RouteConfig : Type := {
  price_amount : string;
  price_asset_address : string;
  price_asset_decimals : Z;
  config_network : string;
  config_description : string;
  config_resource : string;
}.

Record VerificationResult : Type := {
  isValid : bool;
  invalidReason : option string;
}.

Record Response402 : Type := {
  status402 : Z;
  body402 : gmap string json;
}.

(** The [X402PaymentHandler] object the routes create at module level.
    The payment requirements it builds are opaque to the routes. *)
Record X402PaymentHandler : Type := {
  extractPayment : gmap string string → option string;
  createPaymentRequirements : RouteConfig → result json;
  create402Response : json → Response402;
  verifyPayment : string → json → result VerificationResult;
  settlePayment : string → json → result unit;
}.

(** *** Math.random

    The generator's state [G] is advanced by every draw.  A draw is a
    double in [0, 1); the two floating-point expressions the templates
    apply to it are taken from the engine. *)
Record MathRandom : Type := {
  G : Type;
  Rand : Type;
  random : G → Rand * G;
  (** [(4 + r).toFixed(1)] *)
  rating_of : Rand → string;
  (** [Math.floor(r * n)] *)
  floor_mul : Rand → Z → Z;
}.

(** The calls a route makes, in the order it makes them. *)
Inductive Call : Type :=
| ExtractPayment
| ReqJson
| CreatePaymentRequirements (description : string)
| Create402Response
| VerifyPayment (header : string)
| GetTransaction (signature : string)
| Generate (componentType : string)
| Random
| SettlePayment (header : string).

#[global] Instance Call_eq_dec : EqDecision Call.
Proof. solve_decision. Defined.

End World.

Export World.

(** ** src/lib/solana-payment.ts *)

Module SolanaPayment.

Section WithWorld.
Context {S : Type} (web3 : Web3).

Local Open Scope eff_scope.

(** [verifyPaymentTransaction(signature, connection, _expectedAmount,
    _expectedRecipient)].  The connection is [web3]; [_expectedAmount] is
    whatever the caller read from the price table.  Where the source
    says "Additional verification logic can be added here to check the
    amount and recipient", nothing happens. *)
Definition verifyPaymentTransaction (signature : string)
    (_expectedAmount : property Z) (_expectedRecipient : string) : M S Call bool :=
  try_catch
    (emit (GetTransaction signature) ;;;
     transaction <- await (getTransaction web3 signature) ;;
     match transaction with
     | None => ret false
     | Some transaction =>
         match meta transaction with
         | None => ret false
         | Some m =>
             match err m with
             | Some _ => ret false
             | None => ret true
             end
         end
     end)
    (λ _, ret false).

End WithWorld.

(** What the two expectations stand for: that the transaction moved
    [amount] lamports to [recipient], i.e. that [recipient] is one of
    its accounts and that account's balance grew by [amount]. *)
Definition balance_change (tx : TransactionResponse) (i : nat) : option Z :=
  m ← meta tx;
  pre ← preBalances m !! i;
  post ← postBalances m !! i;
  Some (post - pre)%Z.

Definition transfers (tx : TransactionResponse) (recipient : PublicKey) (amount : Z) : Prop :=
  ∃ keys i, staticAccountKeys tx = Ok keys ∧ keys !! i = Some recipient ∧
            balance_change tx i = Some amount.

End SolanaPayment.

Export SolanaPayment.

(** ** src/app/api/render-ui/route.ts and src/app/api/premium-ui/route.ts *)

Module Routes.

(** The parsed request body, [{ componentType, config }]; a field is
    [None] when the body does not have it. *)
Record RequestBody : Type := {
  componentType : option string;
  config : option UIConfig;
}.

(** A request: its headers (names in lower case, as [Headers] keeps
    them) and what [req.json()] resolves to.  [Ok None] is the JSON text
    [null], which cannot be destructured. *)
Record NextRequest : Type := {
  headers : gmap string string;
  json_body : result (option RequestBody);
}.

(** [req.headers.get(name)] *)
Definition headers_get (h : gmap string string) (name : string) : option string :=
  h !! toLowerCase name.

(** A value stored in a response body. *)
Inductive body_value : Type :=
| VBool (b : bool)
| VNum (n : Z)
| VStr (s : string)
| VJson (j : json)
| VUI (u : ref UIData).

Record NextResponse : Type := {
  status : Z;
  response_headers : gmap string string;
  body : gmap string body_value;
}.

(** *** generateUI (render-ui/route.ts) *)

Definition grid_item (i : nat) : GridItem := {|
  id := Z.of_nat i + 1;
  item_title := "Grid Item " +:+ pretty (Z.of_nat i + 1)%Z;
  description := "This is a dynamically rendered grid item";
  color := "hsl(" +:+ pretty ((Z.of_nat i * 60) `mod` 360)%Z +:+ ", 70%, 50%)";
|}.

Definition default_actions : list CardAction :=
  [ {| label := "Action 1"; variant := "primary" |};
    {| label := "Action 2"; variant := "secondary" |} ].

Definition dashboard_widgets : list Widget :=
  [ {| widget_type := "stat"; widget_label := "Total Users";
       value := Some "1,234"; trend := Some "+12%"; data := None |};
    {| widget_type := "stat"; widget_label := "Revenue";
       value := Some "$45.6K"; trend := Some "+8%"; data := None |};
    {| widget_type := "stat"; widget_label := "Conversions";
       value := Some "89%"; trend := Some "+3%"; data := None |};
    {| widget_type := "chart"; widget_label := "Activity";
       value := None; trend := None;
       data := Some [30; 40; 35; 50; 49; 60; 70]%Z |} ].

(** The three templates are built on every call, whatever is asked for. *)
Definition uiTemplates (cfg : option UIConfig) (grid_items : list GridItem)
  : gmap string UIData :=
  <["dashboard" := DashboardUI dashboard_widgets]>
  (<["card" := CardUI (or_string (cfg ≫= title) "Dynamic Card")
                 (or_string (cfg ≫= content)
                    "This is a dynamically rendered card component")
                 (default default_actions (cfg ≫= actions))]>
  (<["grid" := GridUI {| layout_columns := or_number (cfg ≫= columns) 3;
                         layout_gap := or_number (cfg ≫= gap) 4;
                         items := grid_items |}]> ∅)).

Definition grid_template (cfg : option UIConfig) (grid_items : list GridItem) : UIData :=
  GridUI {| layout_columns := or_number (cfg ≫= columns) 3;
            layout_gap := or_number (cfg ≫= gap) 4;
            items := grid_items |}.

Definition generateUI (componentType : string) (cfg : option UIConfig)
  : result (ref UIData) :=
  match Array_from (or_number (cfg ≫= itemCount) 6) grid_item with
  | Throw e => Throw e
  | Ok grid_items =>
      Ok (get_or (uiTemplates cfg grid_items) componentType
                 (grid_template cfg grid_items))
  end.

(** *** generatePremiumUI (premium-ui/route.ts) *)

Section Premium.
Context (math : MathRandom).

Local Open Scope eff_scope.

Local Abbreviation M' := (M (G math) Call).

(** [Math.random()] *)
Definition Math_random : M' (Rand math) :=
  emit Random ;;; step (random math).

(** [Array.from({ length: len }, (_, i) => f i)] for a callback with
    effects: the callback runs for i = 0, 1, ... in turn. *)
Fixpoint for_each {A} (f : nat → M' A) (indices : list nat) : M' (list A) :=
  match indices with
  | [] => ret []
  | i :: rest => x <- f i ;; xs <- for_each f rest ;; ret (x :: xs)
  end.

Definition Array_from_M {A} (len : Z) (f : nat → M' A) : M' (list A) :=
  if bool_decide (len ≤ max_array_length)%Z
  then for_each f (seq 0 (Z.to_nat len))
  else throw (Thrown "Invalid array length").

Definition premium_item (i : nat) : M' AdvancedGridItem :=
  r <- Math_random ;;
  ret {| base := {| id := Z.of_nat i + 1;
                    item_title := "Premium Item " +:+ pretty (Z.of_nat i + 1)%Z;
                    description := "Premium UI with advanced features";
                    color := "hsl(" +:+ pretty ((Z.of_nat i * 30) `mod` 360)%Z
                               +:+ ", 80%, 60%)" |};
         image := Some ("https://picsum.photos/seed/"
                          +:+ pretty (Z.of_nat i + 1)%Z +:+ "/400/300");
         features := ["Feature A"; "Feature B"; "Feature C"];
         rating := rating_of math r |}.

Definition table_row (i : nat) : M' DataRow :=
  r1 <- Math_random ;;
  r2 <- Math_random ;;
  ret {| row_id := Z.of_nat i + 1;
         row_name := "Record " +:+ pretty (Z.of_nat i + 1)%Z;
         row_value := floor_mul math r1 10000;
         row_status := index ["Active"; "Pending"; "Inactive"] (floor_mul math r2 3) |}.

Definition table_columns : list DataColumn :=
  [ {| key := "id"; column_label := "ID"; sortable := Some true; filterable := None |};
    {| key := "name"; column_label := "Name"; sortable := Some true; filterable := None |};
    {| key := "value"; column_label := "Value"; sortable := Some true; filterable := None |};
    {| key := "status"; column_label := "Status"; sortable := None; filterable := Some true |} ].

Definition analytics_sections : list AnalyticsSection :=
  [ {| section_title := "Key Metrics";
       widgets := Some
         [ {| metric_type := "metric"; metric_label := "Total Revenue";
              metric_value := "$123,456"; change := "+23.5%" |};
           {| metric_type := "metric"; metric_label := "Active Users";
              metric_value := "8,765"; change := "+12.3%" |};
           {| metric_type := "metric"; metric_label := "Conversion Rate";
              metric_value := "3.45%"; change := "+0.8%" |};
           {| metric_type := "metric"; metric_label := "Avg. Order Value";
              metric_value := "$89.23"; change := "+5.2%" |} ];
       charts := None |};
    {| section_title := "Performance Charts";
       widgets := None;
       charts := Some
         [ {| chart_type := "line"; chart_label := "Revenue Trend"; chart_data := [] |};
           {| chart_type := "bar"; chart_label := "User Growth"; chart_data := [] |};
           {| chart_type := "pie"; chart_label := "Traffic Sources"; chart_data := [] |} ] |} ].

Definition advanced_grid_template (cfg : option UIConfig)
    (grid_items : list AdvancedGridItem) : UIData :=
  AdvancedGridUI {| adv_columns := or_number (cfg ≫= columns) 4;
                    rows := "auto";
                    adv_gap := 6;
                    adv_items := grid_items |}
                 true ["hover"; "click"; "drag"].

Definition premiumTemplates (cfg : option UIConfig)
    (grid_items : list AdvancedGridItem) (table : list DataRow)
  : gmap string UIData :=
  <["analytics" := AnalyticsDashboardUI analytics_sections]>
  (<["data-table" := DataTableUI table_columns table
                       ["sorting"; "filtering"; "pagination"; "export"]]>
  (<["advanced-grid" := advanced_grid_template cfg grid_items]> ∅)).

Definition generatePremiumUI (componentType : string) (cfg : option UIConfig)
  : M' (ref UIData) :=
  grid_items <- Array_from_M (or_number (cfg ≫= itemCount) 12) premium_item ;;
  table <- Array_from_M 20 table_row ;;
  ret (get_or (premiumTemplates cfg grid_items table) componentType
              (advanced_grid_template cfg grid_items)).

End Premium.

(** *** POST

    The two route files differ only in the price key and resource path,
    the description they give the payment requirements, the generator
    they call and the success body; [Route] names which file is meant. *)

Inductive Route : Type := RenderUI | PremiumUI.

Definition path (r : Route) : string :=
  match r with
  | RenderUI => "/api/render-ui"
  | PremiumUI => "/api/premium-ui"
  end.

Definition description_prefix (r : Route) : string :=
  match r with
  | RenderUI => "Basic UI Component Render - "
  | PremiumUI => "Premium UI Component Render - "
  end.

Definition success_body (r : Route) (ui : ref UIData) : gmap string body_value :=
  match r with
  | RenderUI =>
      <["message" := VStr "UI rendered successfully"]>
      (<["ui" := VUI ui]> (<["success" := VBool true]> ∅))
  | PremiumUI =>
      <["message" := VStr "Premium UI rendered successfully"]>
      (<["tier" := VStr "premium"]>
      (<["ui" := VUI ui]> (<["success" := VBool true]> ∅)))
  end.

Definition error_body (message : string) : gmap string body_value :=
  <["error" := VStr message]> ∅.

(** [x!] and the narrowing of a truthy [string | null]. *)
Definition non_null (o : option string) : string := default "" o.

(** [amountTransferred >= expectedAmount * 0.95], with
    [amountTransferred] the difference of two array reads ([NaN], here
    [None], when either is out of range; no comparison with [NaN] holds).
    The threshold is compared exactly: for the configured prices the
    double [expectedAmount * 0.95] is the integer 475000. *)
Definition amount_suffices (amountTransferred : option Z) (expectedAmount : Z) : bool :=
  match amountTransferred with
  | Some a => bool_decide (95 * expectedAmount ≤ 100 * a)%Z
  | None => false
  end.

Section Handler.
Context (math : MathRandom) (env : ProcessEnv)
        (x402 : X402PaymentHandler) (web3 : Web3).

Local Open Scope eff_scope.

Local Abbreviation M' := (M (G math) Call).

Definition expectedPrice (r : Route) : Z := prices (x402Config env) !!! path r.

Definition generate (r : Route) (componentType : option string)
    (cfg : option UIConfig) : M' (ref UIData) :=
  emit (Generate (to_string componentType)) ;;;
  match r with
  | RenderUI => await (generateUI (to_string componentType) cfg)
  | PremiumUI => generatePremiumUI math (to_string componentType) cfg
  end.

(** The [else if (hasCustomPayment)] branch: the manual check of the
    transaction named by [X-Payment-Signature]. *)
Definition verifyCustomPayment (r : Route)
    (customSignature customPublicKey : option string) : M' bool :=
  try_catch
    (emit (GetTransaction (non_null customSignature)) ;;;
     tx <- await (getTransaction web3 (non_null customSignature)) ;;
     match tx with
     | None => ret false
     | Some tx =>
         if bool_decide (is_Some (meta tx ≫= err)) then ret false
         else
           senderPubkey <- await (new_PublicKey web3 (non_null customPublicKey)) ;;
           recipientPubkey <- await (new_PublicKey web3 (payTo (x402Config env))) ;;
           accountKeys <- await (staticAccountKeys tx) ;;
           let recipientIndex :=
             findIndex (λ key, equals key recipientPubkey) accountKeys in
           match meta tx with
           | Some m =>
               if bool_decide (recipientIndex ≠ (-1)%Z) then
                 let amountTransferred :=
                   post ← index (postBalances m) recipientIndex;
                   pre ← index (preBalances m) recipientIndex;
                   Some (post - pre)%Z in
                 let expectedAmount := expectedPrice r in
                 if amount_suffices amountTransferred expectedAmount
                 then ret true
                 else ret false
               else ret false
           | None => ret false
           end
     end)
    (λ _, ret false).

(** [hasCustomPayment]: all three custom headers are present and not
    empty. *)
Definition hasCustomPayment (req : NextRequest) : bool :=
  truthy_string (headers_get (headers req) "X-Payment-Signature")
  && truthy_string (headers_get (headers req) "X-Payment-PublicKey")
  && truthy_string (headers_get (headers req) "X-Payment-Timestamp").

(** The argument the route passes to [createPaymentRequirements]. *)
Definition routeConfig (r : Route) (componentType : option string) : RouteConfig :=
  let baseUrl := baseUrl (x402Config env) in
  let resourceUrl :=
    if startsWith baseUrl "http" then baseUrl else "https://" +:+ baseUrl in
  {| price_amount := pretty (expectedPrice r);
     price_asset_address := "So11111111111111111111111111111111111111112";
     price_asset_decimals := 9;
     config_network := "solana";
     config_description := description_prefix r +:+ to_string componentType;
     config_resource := resourceUrl +:+ path r |}.

(** The body of the 402 response: the library's body, then the five
    fields the client reads, which win over library fields of the same
    name. *)
Definition clientResponse (r : Route) (response : Response402) : gmap string body_value :=
  <["payTo" := VStr (payTo (x402Config env))]>
  (<["asset" := VStr "SOL"]>
  (<["network" := VStr "solana"]>
  (<["price" := VNum (expectedPrice r)]>
  (<["paymentRequired" := VBool true]>
  (VJson <$> body402 response))))).

(** Step 4, [// 4. Verify payment]: exactly one of the two paths runs. *)
Definition verify (r : Route) (req : NextRequest) (paymentRequirements : json) : M' bool :=
  let paymentHeader := extractPayment x402 (headers req) in
  if truthy_string paymentHeader then
    emit (VerifyPayment (non_null paymentHeader)) ;;;
    verificationResult <-
      await (verifyPayment x402 (non_null paymentHeader) paymentRequirements) ;;
    ret (isValid verificationResult)
  else if hasCustomPayment req then
    verifyCustomPayment r (headers_get (headers req) "X-Payment-Signature")
                          (headers_get (headers req) "X-Payment-PublicKey")
  else ret false.

Definition POST_try (r : Route) (req : NextRequest) : M' NextResponse :=
  (* 1. Extract payment header (try x402 format first, then custom headers) *)
  emit ExtractPayment ;;;
  let paymentHeader := extractPayment x402 (headers req) in
  (* 2. Parse request body *)
  emit ReqJson ;;;
  parsed <- await (json_body req) ;;
  body <- match parsed with
          | Some b => ret b
          | None => throw (Thrown "Cannot destructure 'body' as it is null.")
          end ;;
  let componentType := componentType body in
  let config := config body in
  (* 3. Create payment requirements *)
  emit (CreatePaymentRequirements (config_description (routeConfig r componentType))) ;;;
  paymentRequirements <-
    await (createPaymentRequirements x402 (routeConfig r componentType)) ;;
  if negb (truthy_string paymentHeader) && negb (hasCustomPayment req) then
    (* Return 402 with payment requirements *)
    emit Create402Response ;;;
    let response := create402Response x402 paymentRequirements in
    ret {| status := status402 response;
           response_headers :=
             <["X-Payment-Required" := "true"]>
             (<["X-X402-Protected" := "true"]> ∅);
           body := clientResponse r response |}
  else
    (* 4. Verify payment *)
    verified <- verify r req paymentRequirements ;;
    if negb verified then
      ret {| status := 402;
             response_headers := ∅;
             body := error_body "Invalid payment - verification failed" |}
    else
      (* 5. Process business logic *)
      uiResponse <- generate r componentType config ;;
      (* 6. Settle payment (only if using x402 standard format) *)
      (if truthy_string paymentHeader then
         emit (SettlePayment (non_null paymentHeader)) ;;;
         await (settlePayment x402 (non_null paymentHeader) paymentRequirements)
       else ret tt) ;;;
      (* 7. Return response with payment confirmation *)
      ret {| status := 200;
             response_headers :=
               <["X-Payment-Verified" := "true"]>
               (<["X-X402-Protected" := "true"]> ∅);
             body := success_body r uiResponse |}.

Definition POST (r : Route) (req : NextRequest) : M' NextResponse :=
  try_catch (POST_try r req)
    (λ _, ret {| status := 500;
                 response_headers := ∅;
                 body := error_body "Internal server error" |}).

End Handler.

End Routes.

Export Routes.

(** ** The executions of the two routes, described *)

Module RoutesSpec.

Section Spec.
Context (math : MathRandom) (env : ProcessEnv)
        (x402 : X402PaymentHandler) (web3 : Web3).

Local Abbreviation verify := (Routes.verify math env x402 web3).
Local Abbreviation generate := (Routes.generate math).
Local Abbreviation Run := (result NextResponse * G math * list Call)%type.

(** The four responses of the handler. *)
Definition internal_error : NextResponse :=
  {| status := 500; response_headers := ∅;
     body := error_body "Internal server error" |}.

Definition payment_required (r : Route) (reqs : json) : NextResponse :=
  {| status := status402 (create402Response x402 reqs);
     response_headers :=
       <["X-Payment-Required" := "true"]> (<["X-X402-Protected" := "true"]> ∅);
     body := clientResponse env r (create402Response x402 reqs) |}.

Definition invalid_payment : NextResponse :=
  {| status := 402; response_headers := ∅;
     body := error_body "Invalid payment - verification failed" |}.

Definition rendered (r : Route) (ui : ref UIData) : NextResponse :=
  {| status := 200;
     response_headers :=
       <["X-Payment-Verified" := "true"]> (<["X-X402-Protected" := "true"]> ∅);
     body := success_body r ui |}.

(** Neither form of payment proof is present. *)
Definition unpaid (req : Routes.NextRequest) : bool :=
  negb (truthy_string (extractPayment x402 (headers req)))
  && negb (hasCustomPayment req).

(** The calls every execution that gets as far as the payment check has
    made by then. *)
Definition preamble (r : Route) (b : Routes.RequestBody) : list Call :=
  [ ExtractPayment; ReqJson;
    CreatePaymentRequirements (config_description (routeConfig env r (componentType b))) ].

(** Every way an execution of [POST] can go. *)
Inductive Execution (r : Route) (req : Routes.NextRequest) (g : G math) : Run → Prop :=
| BodyUnreadable e :
    Routes.json_body req = Throw e →
    Execution r req g (Ok internal_error, g, [ExtractPayment; ReqJson])
| BodyNull :
    Routes.json_body req = Ok None →
    Execution r req g (Ok internal_error, g, [ExtractPayment; ReqJson])
| NoRequirements b e :
    Routes.json_body req = Ok (Some b) →
    createPaymentRequirements x402 (routeConfig env r (componentType b)) = Throw e →
    Execution r req g (Ok internal_error, g, preamble r b)
| Unpaid b reqs :
    Routes.json_body req = Ok (Some b) →
    createPaymentRequirements x402 (routeConfig env r (componentType b)) = Ok reqs →
    unpaid req = true →
    Execution r req g (Ok (payment_required r reqs), g, preamble r b ++ [Create402Response])
| VerifyThrows b reqs e g1 l1 :
    Routes.json_body req = Ok (Some b) →
    createPaymentRequirements x402 (routeConfig env r (componentType b)) = Ok reqs →
    unpaid req = false →
    verify r req reqs g = (Throw e, g1, l1) →
    Execution r req g (Ok internal_error, g1, preamble r b ++ l1)
| Rejected b reqs g1 l1 :
    Routes.json_body req = Ok (Some b) →
    createPaymentRequirements x402 (routeConfig env r (componentType b)) = Ok reqs →
    unpaid req = false →
    verify r req reqs g = (Ok false, g1, l1) →
    Execution r req g (Ok invalid_payment, g1, preamble r b ++ l1)
| GenerateThrows b reqs g1 l1 e g2 l2 :
    Routes.json_body req = Ok (Some b) →
    createPaymentRequirements x402 (routeConfig env r (componentType b)) = Ok reqs →
    unpaid req = false →
    verify r req reqs g = (Ok true, g1, l1) →
    generate r (componentType b) (config b) g1 = (Throw e, g2, l2) →
    Execution r req g (Ok internal_error, g2, preamble r b ++ l1 ++ l2)
| SettleThrows b reqs g1 l1 ui g2 l2 e :
    Routes.json_body req = Ok (Some b) →
    createPaymentRequirements x402 (routeConfig env r (componentType b)) = Ok reqs →
    unpaid req = false →
    verify r req reqs g = (Ok true, g1, l1) →
    generate r (componentType b) (config b) g1 = (Ok ui, g2, l2) →
    truthy_string (extractPayment x402 (headers req)) = true →
    settlePayment x402 (non_null (extractPayment x402 (headers req))) reqs = Throw e →
    Execution r req g
      (Ok internal_error, g2,
       preamble r b ++ l1 ++ l2
         ++ [SettlePayment (non_null (extractPayment x402 (headers req)))])
| Served b reqs g1 l1 ui g2 l2 :
    Routes.json_body req = Ok (Some b) →
    createPaymentRequirements x402 (routeConfig env r (componentType b)) = Ok reqs →
    unpaid req = false →
    verify r req reqs g = (Ok true, g1, l1) →
    generate r (componentType b) (config b) g1 = (Ok ui, g2, l2) →
    (truthy_string (extractPayment x402 (headers req)) = true →
     settlePayment x402 (non_null (extractPayment x402 (headers req))) reqs = Ok tt) →
    Execution r req g
      (Ok (rendered r ui), g2,
       preamble r b ++ l1 ++ l2
         ++ (if truthy_string (extractPayment x402 (headers req))
             then [SettlePayment (non_null (extractPayment x402 (headers req)))]
             else [])).

(** When the manual check of a transaction accepts: the transaction is
    found and carries no error, both keys parse, the account keys can be
    read, the treasury is among them, and at its first position the
    balance grew by at least 95% of the price. *)
Definition CustomPaymentAccepted (r : Route) (sig pk : option string) : Prop :=
  ∃ tx m sender recipient keys (i : nat) post pre,
    getTransaction web3 (non_null sig) = Ok (Some tx) ∧
    meta tx = Some m ∧ err m = None ∧
    new_PublicKey web3 (non_null pk) = Ok sender ∧
    new_PublicKey web3 (payTo (x402Config env)) = Ok recipient ∧
    staticAccountKeys tx = Ok keys ∧
    keys !! i = Some recipient ∧
    (∀ j, (j < i)%nat → keys !! j ≠ Some recipient) ∧
    postBalances m !! i = Some post ∧
    preBalances m !! i = Some pre ∧
    (95 * expectedPrice env r ≤ 100 * (post - pre))%Z.

(** The arithmetic at the heart of the manual check. *)
Definition treasury_paid (keys : list PublicKey) (recipient : PublicKey)
    (m : ConfirmedTransactionMeta) (price : Z) : bool :=
  let recipientIndex := findIndex (λ key, equals key recipient) keys in
  if bool_decide (recipientIndex ≠ (-1)%Z) then
    amount_suffices
      (post ← index (postBalances m) recipientIndex;
       pre ← index (preBalances m) recipientIndex;
       Some (post - pre)%Z) price
  else false.

(** A call that belongs to the verification step, and the path it
    belongs to. *)
Definition is_verification (c : Call) : bool :=
  match c with
  | VerifyPayment _ | GetTransaction _ => true
  | _ => false
  end.

(** The step of the handler a call belongs to: 1 extract the payment
    header, 2 parse the body, 3 build the payment requirements, 4 answer
    402 or verify (by either path), 5 and 6 generate the template (the
    call, then its draws), 7 settle. *)
Definition phase (c : Call) : nat :=
  match c with
  | ExtractPayment => 1
  | ReqJson => 2
  | CreatePaymentRequirements _ => 3
  | Create402Response | VerifyPayment _ | GetTransaction _ => 4
  | Generate _ => 5
  | Random => 6
  | SettlePayment _ => 7
  end.

(** [a] may come before [b]: it belongs to an earlier step, or both are
    draws of the one template generation. *)
Definition precedes (a b : Call) : Prop :=
  (phase a < phase b)%nat ∨ (a = Random ∧ b = Random).

(** The request was verified: the handler reached step 4 and the path
    it took said yes. *)
Definition Verified (r : Route) (req : Routes.NextRequest) (g : G math) : Prop :=
  ∃ b reqs g1 l1,
    Routes.json_body req = Ok (Some b) ∧
    createPaymentRequirements x402 (routeConfig env r (componentType b)) = Ok reqs ∧
    unpaid req = false ∧
    verify r req reqs g = (Ok true, g1, l1).

(** The verification call of a paid request. *)
Definition verification_call (req : Routes.NextRequest) : Call :=
  if truthy_string (extractPayment x402 (headers req))
  then VerifyPayment (non_null (extractPayment x402 (headers req)))
  else GetTransaction (non_null (headers_get (headers req) "X-Payment-Signature")).

(** The acceptance condition of the custom path as the specification
    words it: the transaction is found, has no on-chain error, the
    treasury is among its static account keys, and the treasury's
    balance grew there by at least 95% of the price. *)
Definition StatedAcceptance (r : Route) (sig : string) : Prop :=
  ∃ tx m recipient keys (i : nat) post pre,
    getTransaction web3 sig = Ok (Some tx) ∧
    meta tx = Some m ∧ err m = None ∧
    new_PublicKey web3 (payTo (x402Config env)) = Ok recipient ∧
    staticAccountKeys tx = Ok keys ∧
    keys !! i = Some recipient ∧
    postBalances m !! i = Some post ∧
    preBalances m !! i = Some pre ∧
    (95 * expectedPrice env r ≤ 100 * (post - pre))%Z.

End Spec.

Arguments BodyUnreadable {math env x402 web3} r req g e.
Arguments BodyNull {math env x402 web3} r req g.
Arguments NoRequirements {math env x402 web3} r req g b e.
Arguments Unpaid {math env x402 web3} r req g b reqs.
Arguments VerifyThrows {math env x402 web3} r req g b reqs e g1 l1.
Arguments Rejected {math env x402 web3} r req g b reqs g1 l1.
Arguments GenerateThrows {math env x402 web3} r req g b reqs g1 l1 e g2 l2.
Arguments SettleThrows {math env x402 web3} r req g b reqs g1 l1 ui g2 l2 e.
Arguments Served {math env x402 web3} r req g b reqs g1 l1 ui g2 l2.

(** The value in the first row of a data table response. *)
Definition first_row_value (ρ : result NextResponse) : option Z :=
  match ρ with
  | Ok resp =>
      match body resp !! "ui" with
      | Some (VUI (Obj (DataTableUI _ (row :: _) _))) => Some (row_value row)
      | _ => None
      end
  | Throw _ => None
  end.

End RoutesSpec.

Export RoutesSpec.

(** ** src/app/api/verify-payment/route.ts *)

Module VerifyPayment.

(** The parsed request body, [{ signature, publicKey, endpoint }]. *)
Record RequestBody : Type := {
  signature : option string;
  publicKey : option string;
  endpoint : option string;
}.

Record NextRequest : Type := {
  json_body : result (option RequestBody);
}.

(** Truthiness of [x402Config.prices[endpoint]]: an inherited member is
    a function or an object. *)
Definition truthy_price (p : property Z) : bool :=
  match p with
  | Own n => bool_decide (n ≠ 0%Z)
  | Inherited _ => true
  | Undefined => false
  end.

(** The 400 response. *)
Definition bad_request (message : string) : NextResponse :=
  {| status := 400; response_headers := ∅; body := error_body message |}.

Section Handler.
Context {S : Type} (env : ProcessEnv) (web3 : Web3) (now : Z).

Local Open Scope eff_scope.

Definition POST (request : NextRequest) : M S Call NextResponse :=
  try_catch
    (emit ReqJson ;;;
     parsed <- await (json_body request) ;;
     body <- match parsed with
             | Some b => ret b
             | None => throw (Thrown "Cannot destructure 'body' as it is null.")
             end ;;
     if negb (truthy_string (signature body))
        || negb (truthy_string (publicKey body))
        || negb (truthy_string (endpoint body))
     then
       ret {| status := 400;
              response_headers := ∅;
              body := error_body "Missing required fields" |}
     else
       (* Get expected price for the endpoint *)
       let expectedPrice :=
         get_property (prices (x402Config env)) (non_null (endpoint body)) in
       if negb (truthy_price expectedPrice) then
         ret {| status := 400;
                response_headers := ∅;
                body := error_body "Invalid endpoint" |}
       else
         (* Connect to Solana network *)
         await (new_Connection web3 (rpcEndpoint (x402Config env))) ;;;
         (* Verify the transaction *)
         isValid <- verifyPaymentTransaction web3 (non_null (signature body))
                      expectedPrice (payTo (x402Config env)) ;;
         if isValid then
           ret {| status := 200;
                  response_headers := ∅;
                  body :=
                    <["timestamp" := VNum now]>
                    (<["signature" := VStr (non_null (signature body))]>
                    (<["message" := VStr "Payment verified successfully"]>
                    (<["verified" := VBool true]> ∅))) |}
         else
           ret {| status := 402;
                  response_headers := ∅;
                  body :=
                    <["error" := VStr "Payment verification failed"]>
                    (<["verified" := VBool false]> ∅) |})
    (λ _, ret {| status := 500;
                 response_headers := ∅;
                 body := error_body "Verification failed" |}).

End Handler.

End VerifyPayment.

(** ** src/lib/x402-client.ts *)

Module Client.

(** [RequestInit], with [headers] given as a plain object. *)
Record RequestInit : Type := {
  method : option string;
  init_headers : option (gmap string string);
  init_body : option string;
}.

(** A [Response]: its status and what [response.json()] resolves to. *)
Record Response : Type := {
  status : Z;
  json : result Types.json;
}.

(** The calls [fetchWithPayment] makes. *)
Inductive ClientCall : Type :=
| Fetch (url : string) (init : option RequestInit)
| ResponseJson
| OnPaymentRequired (paymentDetails : Types.json).

(** The error of a 402 that nobody paid. *)
Definition no_handler_error : Exn :=
  Thrown "Payment required but no payment handler provided".

Section WithNetwork.
(** [W] is the state of everything beyond the client (the server, the
    wallet): [fetch] and the payment handler read and change it. *)
Context {W : Type}
        (fetch : string → option RequestInit → W → result Response * W).

Local Open Scope eff_scope.

Definition call_fetch (url : string) (init : option RequestInit)
  : M W ClientCall Response :=
  λ w, let '(r, w') := fetch url init w in (r, w', [Fetch url init]).

Definition call_handler
    (handler : Types.json → W → result (option PaymentProof) * W)
    (paymentDetails : Types.json) : M W ClientCall (option PaymentProof) :=
  λ w, let '(r, w') := handler paymentDetails w in
       (r, w', [OnPaymentRequired paymentDetails]).

(** The [init] of the retry:
    [{ ...options, headers: { ...options?.headers, <the three headers> } }] *)
Definition with_payment_headers (options : option RequestInit)
    (proof : PaymentProof) : RequestInit := {|
  method := options ≫= method;
  init_headers := Some
    (<["X-Payment-Timestamp" := pretty (timestamp proof)]>
    (<["X-Payment-PublicKey" := Types.publicKey proof]>
    (<["X-Payment-Signature" := Types.signature proof]>
    (default ∅ (options ≫= init_headers)))));
  init_body := options ≫= init_body;
|}.

Definition fetchWithPayment (url : string) (options : option RequestInit)
    (onPaymentRequired :
       option (Types.json → W → result (option PaymentProof) * W))
  : M W ClientCall Response :=
  response <- call_fetch url options ;;
  if bool_decide (status response = 402%Z) then
    emit ResponseJson ;;;
    paymentDetails <- await (json response) ;;
    match onPaymentRequired with
    | Some handler =>
        proof <- call_handler handler paymentDetails ;;
        match proof with
        | Some proof =>
            (* Retry request with payment proof *)
            call_fetch url (Some (with_payment_headers options proof))
        | None => throw no_handler_error
        end
    | None => throw no_handler_error
    end
  else ret response.

End WithNetwork.

End Client.

(** ** src/app/components/ui-renderer.tsx, and the pages that feed it *)

Module Renderer.

(** What arrives in the [ui] field of a response: one of the seven
    shapes, or some other object with whatever [type] it carries. *)
Inductive Payload : Type :=
| Shaped (u : UIData)
| Other (type : option string).

Definition payload_type (p : Payload) : option string :=
  match p with
  | Shaped u => Some (type_of u)
  | Other t => t
  end.

(** [UIResponse]; [ui] is [None] when the field is missing or null. *)
Record UIResponse : Type := {
  success : bool;
  ui : option Payload;
  tier : option string;
  message : string;
}.

Inductive Component : Type :=
| GridRenderer
| CardRenderer
| DashboardRenderer
| AdvancedGridRenderer
| DataTableRenderer
| AnalyticsDashboardRenderer
| MarketsRenderer.

#[global] Instance Component_eq_dec : EqDecision Component.
Proof. solve_decision. Defined.

(** The React elements [UIRenderer] returns. *)
Inductive Element : Type :=
| Null
| Fragment (children : list Element)
| Render (c : Component) (data : Payload)
| SignatureLink (signature : option string)
| Div (text : string).

(** The [switch (ui.type)] of [UIRenderer]. *)
Definition renderer_for (type : option string) : option Component :=
  match type with
  | None => None
  | Some t =>
      if bool_decide (t = "grid") then Some GridRenderer
      else if bool_decide (t = "card") then Some CardRenderer
      else if bool_decide (t = "dashboard") then Some DashboardRenderer
      else if bool_decide (t = "advanced-grid") then Some AdvancedGridRenderer
      else if bool_decide (t = "data-table") then Some DataTableRenderer
      else if bool_decide (t = "analytics-dashboard") then Some AnalyticsDashboardRenderer
      else if bool_decide (t = "markets") then Some MarketsRenderer
      else None
  end.

Definition UIRenderer (uiData : option UIResponse) (signature : option string) : Element :=
  match uiData with
  | None => Null
  | Some uiData =>
      match ui uiData with
      | None => Null
      | Some ui =>
          match renderer_for (payload_type ui) with
          | Some c => Fragment [Render c ui; SignatureLink signature]
          | None => Div "Unsupported UI type"
          end
      end
  end.

(** The renderer each of the seven interfaces is written for (the type
    of the renderer's [data] prop). *)
Definition renderer_of_shape (u : UIData) : Component :=
  match u with
  | GridUI _ => GridRenderer
  | CardUI _ _ _ => CardRenderer
  | DashboardUI _ => DashboardRenderer
  | AdvancedGridUI _ _ _ => AdvancedGridRenderer
  | DataTableUI _ _ _ => DataTableRenderer
  | AnalyticsDashboardUI _ => AnalyticsDashboardRenderer
  | MarketsUI _ _ => MarketsRenderer
  end.

(** The services the home page offers: [(endpoint, componentType)]. *)
Definition services : list (string * string) :=
  [ ("/api/render-ui", "grid");
    ("/api/render-ui", "card");
    ("/api/render-ui", "dashboard");
    ("/api/premium-ui", "advanced-grid");
    ("/api/premium-ui", "data-table");
    ("/api/premium-ui", "analytics");
    ("https://grid.wtf/api/x402/v1/new-markets", "markets") ].

(** The [type] of the shape a service delivers: for the two routes, the
    template stored under the component type; for the external markets
    endpoint, the payment button wraps the answer as
    [{ type: 'markets', markets, meta }]. *)
Definition offered_type (service : string * string) : option string :=
  let '(endpoint, componentType) := service in
  if bool_decide (endpoint = "/api/render-ui") then
    type_of <$> uiTemplates None [] !! componentType
  else if bool_decide (endpoint = "/api/premium-ui") then
    type_of <$> premiumTemplates None [] [] !! componentType
  else Some (type_of (MarketsUI [] JNull)).

End Renderer.

(** ** Concrete worlds

    Small instances of the environment records, on which the handlers
    can be run. *)

Module Scenario.

(** No environment variable is set: the configuration takes its defaults. *)
Definition no_env : ProcessEnv := {|
  NEXT_PUBLIC_SOLANA_NETWORK := None;
  NEXT_PUBLIC_SOLANA_RPC := None;
  NEXT_PUBLIC_X402_FACILITATOR_URL := None;
  NEXT_PUBLIC_BASE_URL := None;
|}.

(** An engine whose generator state is a counter [k] and whose [k]-th
    draw is the double [(k mod 10) / 10], with the two expressions
    computed exactly. *)
Definition counter_random : MathRandom := {|
  G := nat;
  Rand := nat;
  random := λ k, (k `mod` 10, S k);
  rating_of := λ d, "4." +:+ pretty d;
  floor_mul := λ d n, (Z.of_nat d * n / 10)%Z;
|}.

(** A payment library whose facilitator answers: the payment header is
    the [X-PAYMENT] header, the requirements echo the route
    configuration, and exactly the header ["paid"] verifies. *)
Definition answering_x402 : X402PaymentHandler := {|
  extractPayment := λ h, h !! "x-payment";
  createPaymentRequirements := λ rc,
    Ok (JObj [ ("maxAmountRequired", JStr (price_amount rc));
               ("resource", JStr (config_resource rc));
               ("description", JStr (config_description rc)) ]);
  create402Response := λ reqs,
    {| status402 := 402;
       body402 := <["accepts" := JArr [reqs]]> (<["x402Version" := JNum 1]> ∅) |};
  verifyPayment := λ h _,
    Ok {| isValid := bool_decide (h = "paid");
          invalidReason := if bool_decide (h = "paid") then None
                           else Some "invalid_payload" |};
  settlePayment := λ _ _, Ok tt;
|}.

(** The same library while its facilitator cannot be reached. *)
Definition unreachable_x402 : X402PaymentHandler := {|
  extractPayment := extractPayment answering_x402;
  createPaymentRequirements := λ _, Throw (Thrown "fetch failed");
  create402Response := create402Response answering_x402;
  verifyPayment := λ _ _, Throw (Thrown "fetch failed");
  settlePayment := λ _ _, Throw (Thrown "fetch failed");
|}.

(** The same library while only its verification endpoint fails: the
    requirements are built, and [verifyPayment] rejects. *)
Definition failing_verification_x402 : X402PaymentHandler := {|
  extractPayment := extractPayment answering_x402;
  createPaymentRequirements := createPaymentRequirements answering_x402;
  create402Response := create402Response answering_x402;
  verifyPayment := λ _ _, Throw (Thrown "fetch failed");
  settlePayment := settlePayment answering_x402;
|}.

(** The treasury key: the 32 bytes that
    [8MeWTYDip5SWVJf3wkvDKZw9BjSAWMXm5oAeELJ6HFM9] encodes. *)
Definition treasury : PublicKey := {| key_bytes :=
  [109; 75; 213; 192; 171; 105; 179; 158; 20; 125; 170; 150; 205; 247; 6; 214;
   172; 36; 69; 39; 186; 227; 108; 15; 7; 239; 213; 208; 205; 213; 118; 56]%Z |}.

(** The payer, [So11111111111111111111111111111111111111112], and the
    system program, [11111111111111111111111111111111]. *)
Definition payer : PublicKey := {| key_bytes :=
  [6; 155; 136; 87; 254; 171; 129; 132; 251; 104; 127; 99; 70; 24; 192; 53;
   218; 196; 57; 220; 26; 235; 59; 85; 152; 160; 240; 0; 0; 0; 0; 1]%Z |}.

Definition system_program : PublicKey := {| key_bytes := replicate 32 0%Z |}.

(** A bystander: [Vote111111111111111111111111111111111111111]. *)
Definition bystander : PublicKey := {| key_bytes :=
  [7; 97; 72; 29; 53; 116; 116; 187; 124; 77; 118; 36; 235; 211; 189; 179;
   216; 53; 94; 115; 209; 16; 67; 252; 13; 163; 83; 128; 0; 0; 0; 0]%Z |}.

(** A successful transfer of [amount] lamports from [payer] to [to_],
    with a fee of 5000 lamports. *)
Definition transfer (to_ : PublicKey) (amount : Z) : TransactionResponse := {|
  meta := Some {| err := None;
                  preBalances := [10000000; 2000000; 1]%Z;
                  postBalances := [10000000 - amount - 5000; 2000000 + amount; 1]%Z |};
  staticAccountKeys := Ok [payer; to_; system_program];
|}.

(** A node that knows four transactions and fails on a fifth, a key
    parser that knows the treasury, the payer and the system program,
    and a connection constructor that takes http and https URLs. *)
Definition ledger : Web3 := {|
  getTransaction := λ sig,
    if bool_decide (sig = "sig-full") then Ok (Some (transfer treasury 500000))
    else if bool_decide (sig = "sig-tolerated") then Ok (Some (transfer treasury 475000))
    else if bool_decide (sig = "sig-short") then Ok (Some (transfer treasury 474999))
    else if bool_decide (sig = "sig-elsewhere") then Ok (Some (transfer bystander 500000))
    else if bool_decide (sig = "sig-timeout") then Throw (Thrown "failed to get transaction")
    else Ok None;
  new_PublicKey := λ text,
    if bool_decide (text = "8MeWTYDip5SWVJf3wkvDKZw9BjSAWMXm5oAeELJ6HFM9") then Ok treasury
    else if bool_decide (text = "So11111111111111111111111111111111111111112") then Ok payer
    else if bool_decide (text = "11111111111111111111111111111111") then Ok system_program
    else Throw (Thrown "Invalid public key input");
  new_Connection := λ endpoint,
    if startsWith endpoint "http:" || startsWith endpoint "https:" then Ok tt
    else Throw (Thrown "Endpoint URL must start with `http:` or `https:`.");
|}.

Definition body_of (componentType : string) : result (option Routes.RequestBody) :=
  Ok (Some {| componentType := Some componentType; config := None |}).

(** A request with no payment header at all. *)
Definition unpaid_request : Routes.NextRequest := {|
  headers := <["content-type" := "application/json"]> ∅;
  Routes.json_body := body_of "grid";
|}.

(** The same request with a body that is not JSON. *)
Definition unpaid_garbled_request : Routes.NextRequest := {|
  headers := <["content-type" := "application/json"]> ∅;
  Routes.json_body := Throw (Thrown "Unexpected end of JSON input");
|}.

(** A request carrying the custom triple. *)
Definition custom_request (sig pk componentType : string) : Routes.NextRequest := {|
  headers :=
    <["x-payment-timestamp" := "1730000000000"]>
    (<["x-payment-publickey" := pk]>
    (<["x-payment-signature" := sig]>
    (<["content-type" := "application/json"]> ∅)));
  Routes.json_body := body_of componentType;
|}.

(** A request carrying two of the three custom headers, and one whose
    body is moreover the JSON text [null]. *)
Definition partial_request : Routes.NextRequest := {|
  headers :=
    <["x-payment-publickey" := "So11111111111111111111111111111111111111112"]>
    (<["x-payment-signature" := "sig-full"]> ∅);
  Routes.json_body := body_of "grid";
|}.

Definition partial_null_request : Routes.NextRequest := {|
  headers := headers partial_request;
  Routes.json_body := Ok None;
|}.

(** A request carrying the standard header, with or without the triple. *)
Definition standard_request (h : string) : Routes.NextRequest := {|
  headers := <["x-payment" := h]> ∅;
  Routes.json_body := body_of "card";
|}.

Definition both_request (h sig : string) : Routes.NextRequest := {|
  headers := <["x-payment" := h]> (headers (custom_request sig "" "card"));
  Routes.json_body := body_of "card";
|}.

Definition payer_address : string := "So11111111111111111111111111111111111111112".

Definition grid_body : Routes.RequestBody :=
  {| componentType := Some "grid"; config := None |}.

Definition grid_requirements : json :=
  JObj [ ("maxAmountRequired", JStr "500000");
         ("resource", JStr "https://grid.wtf/api/render-ui");
         ("description", JStr "Basic UI Component Render - grid") ].

Definition card_requirements : json :=
  JObj [ ("maxAmountRequired", JStr "500000");
         ("resource", JStr "https://grid.wtf/api/render-ui");
         ("description", JStr "Basic UI Component Render - card") ].

(** A request to verify a payment for an endpoint. *)
Definition verify_request (sig ep : string) : VerifyPayment.NextRequest := {|
  VerifyPayment.json_body :=
    Ok (Some {| VerifyPayment.signature := Some sig;
                VerifyPayment.publicKey := Some payer_address;
                VerifyPayment.endpoint := Some ep |});
|}.

(** The response a fetch ended with, if it ended with one. *)
Definition outcome_of_fetch {W} (x : result Client.Response * W * list Client.ClientCall)
  : option Client.Response :=
  match outcome x with Ok response => Some response | Throw _ => None end.

(** A server that answers 402 with its terms until the request carries
    a payment signature, and counts the requests it has seen; a wallet
    that pays. *)
Definition payment_terms : json :=
  JObj [ ("paymentRequired", JBool true); ("price", JNum 500000);
         ("network", JStr "solana"); ("asset", JStr "SOL");
         ("payTo", JStr "8MeWTYDip5SWVJf3wkvDKZw9BjSAWMXm5oAeELJ6HFM9") ].

Definition gated_server (url : string) (init : option Client.RequestInit) (seen : nat)
  : result Client.Response * nat :=
  match (init ≫= Client.init_headers) ≫= (λ h, h !! "X-Payment-Signature") with
  | Some _ =>
      (Ok {| Client.status := 200; Client.json := Ok (JObj [("success", JBool true)]) |},
       S seen)
  | None =>
      (Ok {| Client.status := 402; Client.json := Ok payment_terms |}, S seen)
  end.

Definition paying_wallet (paymentDetails : json) (seen : nat)
  : result (option PaymentProof) * nat :=
  (Ok (Some {| Types.signature := "sig-full";
               Types.publicKey := payer_address;
               timestamp := 1730000000000 |}), seen).

Definition post_grid : Client.RequestInit := {|
  Client.method := Some "POST";
  Client.init_headers := Some (<["Content-Type" := "application/json"]> ∅);
  Client.init_body := Some "{}";
|}.

End Scenario.

(** ** More vocabulary for the routes *)

Module RoutesSpecMore.

(** The generator's state after [n] draws. *)
Definition advance (math : MathRandom) (n : nat) (g : G math) : G math :=
  Nat.iter n (λ s, (random math s).2) g.

(** The three labels a table row's status is picked from. *)
Definition status_labels : list string := ["Active"; "Pending"; "Inactive"].

(** What a table row is made of: its value and its status come from
    two draws. *)
Definition drawn_row (math : MathRandom) (row : DataRow) : Prop :=
  ∃ g1 g2,
    row_value row = floor_mul math (random math g1).1 10000 ∧
    row_status row = index status_labels (floor_mul math (random math g2).1 3).

(** The component types that have a template of their own in a route,
    each with the [type] of that template, and the number of items the
    route's grid has when the config gives none. *)
Definition templates (r : Route) : list (string * string) :=
  match r with
  | RenderUI => [("grid", "grid"); ("card", "card"); ("dashboard", "dashboard")]
  | PremiumUI => [("advanced-grid", "advanced-grid"); ("data-table", "data-table");
                  ("analytics", "analytics-dashboard")]
  end.

Definition default_item_count (r : Route) : Z :=
  match r with RenderUI => 6%Z | PremiumUI => 12%Z end.

End RoutesSpecMore.

Export RoutesSpecMore.

(** ** The retry of [fetchWithPayment], whatever form [options.headers] has *)

Module ClientInit.

(** [HeadersInit]: a plain object, a [Headers] instance (which keeps
    its entries in an internal list), or an array of string arrays. *)
Inductive HeadersInit : Type :=
| PlainObject (fields : gmap string string)
| HeadersInstance (entries : list (string * string))
| PairArray (pairs : list (list string)).

Record RequestInit : Type := {
  method : option string;
  headers : option HeadersInit;
  body : option string;
}.

(** A property of the object that [headers:] of the retry is given: a
    string, or the array found at an index of a spread array. *)
Inductive Field : Type :=
| FString (s : string)
| FArray (items : list string).

(** The own enumerable properties of an array: its elements under their
    indices, from [i] on. *)
Fixpoint indexed (i : nat) (items : list (list string)) : gmap string Field :=
  match items with
  | [] => ∅
  | item :: items' => <[pretty i := FArray item]> (indexed (S i) items')
  end.

(** [{ ...headers }] copies the own enumerable properties: those of a
    plain object are its fields, a [Headers] instance has none, an array
    has its indices; of [undefined] nothing is copied. *)
Definition spread (headers : option HeadersInit) : gmap string Field :=
  match headers with
  | None => ∅
  | Some (PlainObject fields) => FString <$> fields
  | Some (HeadersInstance _) => ∅
  | Some (PairArray pairs) => indexed 0 pairs
  end.

(** The [init] of the retry; its [headers] are always a plain object. *)
Record RetryInit : Type := {
  retry_method : option string;
  retry_headers : gmap string Field;
  retry_body : option string;
}.

Section Engine.
(** [proof.timestamp.toString()] is taken from the engine. *)
Context (toString : Z → string).

(** [{ ...options, headers: { ...options?.headers, <the three headers> } }] *)
Definition retry_init (options : option RequestInit) (proof : PaymentProof)
  : RetryInit := {|
  retry_method := options ≫= method;
  retry_headers :=
    <["X-Payment-Timestamp" := FString (toString (timestamp proof))]>
    (<["X-Payment-PublicKey" := FString (Types.publicKey proof)]>
    (<["X-Payment-Signature" := FString (Types.signature proof)]>
    (spread (options ≫= headers))));
  retry_body := options ≫= body;
|}.

End Engine.

(** The options of [Client], whose headers are a plain object. *)
Definition of_plain (options : Client.RequestInit) : RequestInit := {|
  method := Client.method options;
  headers := PlainObject <$> Client.init_headers options;
  body := Client.init_body options;
|}.

Definition payment_names : list string :=
  ["X-Payment-Signature"; "X-Payment-PublicKey"; "X-Payment-Timestamp"].

End ClientInit.

(** ** Display helpers (solana-payment.ts) *)

Module Format.

(** [s.slice(start, end)] for integer arguments, on ASCII text: an index
    below zero counts from the end, and both ends are clamped to the
    string; [end] left out is the length. *)
Definition clamp (len i : Z) : Z :=
  if bool_decide (i < 0)%Z then Z.max (len + i) 0 else Z.min i len.

Definition slice (s : string) (start : Z) (end_ : option Z) : string :=
  let len := Z.of_nat (String.length s) in
  let from := clamp len start in
  let to := match end_ with Some e => clamp len e | None => len end in
  String.substring (Z.to_nat from) (Z.to_nat (to - from)) s.

(** [formatPublicKey(publicKey, chars = 4)] *)
Definition formatPublicKey (publicKey : string) (chars : option Z) : string :=
  let chars := default 4%Z chars in
  slice publicKey 0 (Some chars) +:+ "..." +:+ slice publicKey (- chars) None.

End Format.

(** ** Prices on display (x402-client.ts) *)

Module Price.

(** Is the string one or more zeros?  Is it that, after a dot or
    without one: does [/\.?0+$/] match it from its start? *)
Definition is_zero (c : Ascii.ascii) : bool := bool_decide (String c "" = "0").
Definition is_dot (c : Ascii.ascii) : bool := bool_decide (String c "" = ".").

Fixpoint zeros (s : string) : bool :=
  match s with
  | EmptyString => false
  | String c EmptyString => is_zero c
  | String c s' => is_zero c && zeros s'
  end.

Definition dot_zeros (s : string) : bool :=
  zeros s
  || match s with
     | String c s' => is_dot c && zeros s'
     | EmptyString => false
     end.

(** [s.replace(/\.?0+$/, '')]: the string is cut at the first position
    from which the pattern matches up to the end. *)
Fixpoint cut_zeros (s : string) : string :=
  if dot_zeros s then ""
  else match s with
       | EmptyString => ""
       | String c s' => String c (cut_zeros s')
       end.

Fixpoint no_dot (s : string) : bool :=
  match s with
  | EmptyString => true
  | String c s' => negb (is_dot c) && no_dot s'
  end.

Section Engine.
(** [(price / Math.pow(10, decimals)).toFixed(decimals)] is floating
    point arithmetic and is taken from the engine. *)
Context (toFixed : Z → Z → string).

(** [formatPrice(price, decimals = 9)] *)
Definition formatPrice (price : Z) (decimals : option Z) : string :=
  cut_zeros (toFixed price (default 9%Z decimals)).

End Engine.

End Price.

(** ** The data table on screen (ui-renderer.tsx) *)

Module Table.

(** What a table cell shows: [row[col.key]] for the four keys a row
    has; any other key of a column gives [undefined], which is shown as
    nothing. *)
Inductive Cell : Type :=
| Number (n : Z)
| Text (s : string)
| Nothing.

Definition cell (row : DataRow) (key : string) : Cell :=
  if bool_decide (key = "id") then Number (row_id row)
  else if bool_decide (key = "name") then Text (row_name row)
  else if bool_decide (key = "value") then Number (row_value row)
  else if bool_decide (key = "status") then
    match row_status row with Some s => Text s | None => Nothing end
  else Nothing.

(** [DataTableRenderer]: the header cells, and the body,
    [data.data.slice(0, 10).map(row => data.columns.map(col => row[col.key]))]. *)
Definition DataTableRenderer (columns : list DataColumn) (data : list DataRow)
  : list string * list (list Cell) :=
  (column_label <$> columns,
   (λ row, (λ col, cell row (key col)) <$> columns) <$> take 10 data).

End Table.

(** ** The payment button (x402-payment-button.tsx) *)

Module Button.

(** A thrown value, as far as the component looks at it: its [name] and
    its [message], each a string or absent.  (Thrown values are taken to
    be objects; an [Error] has both.) *)
Record JsError : Type := {
  name : option string;
  message : option string;
}.

#[global] Instance JsError_eq_dec : EqDecision JsError.
Proof. solve_decision. Defined.

(** [new Error(msg)] and the [TypeError] the engine throws. *)
Definition new_Error (msg : string) : JsError :=
  {| name := Some "Error"; message := Some msg |}.

Definition new_TypeError (msg : string) : JsError :=
  {| name := Some "TypeError"; message := Some msg |}.

(** How an expression, or an awaited promise, ends. *)
Inductive outcome (A : Type) : Type :=
| Done (a : A)
| Raised (e : JsError).
Arguments Done {A} a.
Arguments Raised {A} e.

(** [s.includes(sub)] *)
Fixpoint includes (s sub : string) : bool :=
  String.prefix sub s
  || match s with
     | EmptyString => false
     | String _ s' => includes s' sub
     end.

(** [s.trim() === ''], on ASCII text: tab, line feed, vertical tab,
    form feed, carriage return and space are white space. *)
Definition is_space (c : Ascii.ascii) : bool :=
  let n := Ascii.nat_of_ascii c in
  (Nat.leb 9 n && Nat.leb n 13) || Nat.eqb n 32.

Fixpoint blank (s : string) : bool :=
  match s with
  | EmptyString => true
  | String c s' => is_space c && blank s'
  end.

(** Parsed JSON: [v[k]] for one of the names the component reads
    ([payTo], [price], [markets], [meta]: none of them is a member of a
    prototype).  Of a repeated name the last occurrence counts, as for
    [JSON.parse]; [undefined] is [None]. *)
Definition own (fields : list (string * json)) (k : string) : option json :=
  foldl (λ found field, if bool_decide (field.1 = k) then Some field.2 else found)
        None fields.

Definition prop (v : json) (k : string) : option json :=
  match v with
  | JObj fields => own fields k
  | _ => None
  end.

(** The same read where the value may be [null]. *)
Definition get (v : json) (k : string) : outcome (option json) :=
  match v with
  | JNull =>
      Raised (new_TypeError ("Cannot read properties of null (reading '" +:+ k +:+ "')"))
  | _ => Done (prop v k)
  end.

Definition truthy (v : option json) : bool :=
  match v with
  | None | Some JNull => false
  | Some (JBool b) => b
  | Some (JNum n) => bool_decide (n ≠ 0%Z)
  | Some (JStr s) => bool_decide (s ≠ "")
  | Some (JArr _) | Some (JObj _) => true
  end.

(** The test of lines 193 to 196: does the error come from the wallet
    refusing? *)
Definition message_includes (e : JsError) (sub : string) : bool :=
  match message e with
  | Some m => includes m sub
  | None => false
  end.

Definition wallet_refused (e : JsError) : bool :=
  bool_decide (name e = Some "WalletSendTransactionError")
  || message_includes e "User rejected"
  || message_includes e "Plugin Closed"
  || message_includes e "User cancelled".

Definition cancelled : JsError :=
  new_Error "Transaction cancelled. Please try again and approve the transaction in your wallet.".

Definition not_configured : JsError :=
  new_Error "Payment recipient address is not configured. Please set NEXT_PUBLIC_X402_WALLET_ADDRESS environment variable.".

Definition invalid_recipient (payTo : string) : JsError :=
  new_Error ("Invalid payment recipient address: " +:+ payTo
             +:+ ". Please check NEXT_PUBLIC_X402_WALLET_ADDRESS environment variable.").

(** The [init] of a fetch: [body] is the object whose JSON text is
    sent. *)
Record Request : Type := {
  method : string;
  headers : gmap string string;
  body : option Routes.RequestBody;
}.

(** A [Response]: its status and what [response.json()] resolves to. *)
Record Response : Type := {
  status : Z;
  json : outcome Types.json;
}.

(** [response.ok] *)
Definition ok (response : Response) : bool :=
  bool_decide (200 ≤ status response ≤ 299)%Z.

(** The one instruction of the payment transaction,
    [SystemProgram.transfer({ fromPubkey, toPubkey, lamports })]. *)
Record Transfer : Type := {
  fromPubkey : PublicKey;
  toPubkey : PublicKey;
  lamports : option Types.json;
}.

(** What [onSuccess] is called with: the parsed body as it came, or the
    markets answer wrapped as
    [{ success: true, ui: { type: 'markets', markets, meta },
       tier: 'premium', message: 'Markets data loaded successfully' }]. *)
Inductive Delivered : Type :=
| AsReceived (data : Types.json)
| MarketsResponse (markets meta : option Types.json).

(** What the component does that can be observed, in order: the state
    setters it calls and the calls it makes. *)
Inductive Event : Type :=
| Alert (text : string)
| SetLoading (loading : bool)
| SetStatus (status : string)
| SetPaymentRequired (paymentDetails : Types.json)
| SetLastSignature (signature : string)
| Fetch (url : string) (init : Request)
| ResponseJson
| SendTransaction (transaction : Transfer)
| ConfirmTransaction (signature : string)
| OnSuccess (data : Delivered) (signature : option string)
| OnError (error : JsError).

(** The props, the values of the two hooks, and the platform; [W] is the
    state of everything outside the component (the parent component,
    the server, the wallet, the chain, the clock). *)
Record Env (W : Type) : Type := {
  (* props *)
  endpoint : string;
  componentType : string;
  config : option UIConfig;
  onSuccess : Delivered → option string → W → outcome unit * W;
  onError : option (JsError → W → outcome unit * W);
  (* useWallet() *)
  publicKey : option PublicKey;
  connected : bool;
  sendTransaction : Transfer → W → outcome string * W;
  (* useConnection() *)
  (** [connection.confirmTransaction(signature, 'confirmed')] resolves
      to the transaction's error, [null] if it has none; it rejects when
      the confirmation cannot be obtained. *)
  confirmTransaction : string → W → outcome (option TransactionError) * W;
  (* web3.js *)
  new_PublicKey : string → outcome PublicKey;
  toString : PublicKey → string;
  (** [new Transaction().add(SystemProgram.transfer(params))] throws
      when the library cannot encode the lamports. *)
  transfer_refused : Transfer → option JsError;
  (* the platform *)
  fetch : string → Request → W → outcome Response * W;
  Date_now : W → Z;
}.
Arguments endpoint {W} _.
Arguments componentType {W} _.
Arguments config {W} _.
Arguments onSuccess {W} _.
Arguments onError {W} _.
Arguments publicKey {W} _.
Arguments connected {W} _.
Arguments sendTransaction {W} _.
Arguments confirmTransaction {W} _.
Arguments new_PublicKey {W} _.
Arguments toString {W} _.
Arguments transfer_refused {W} _.
Arguments fetch {W} _.
Arguments Date_now {W} _.

(** *** The four pieces of React state and what is rendered from them *)

Record UIState : Type := {
  loading : bool;
  ui_status : string;
  paymentRequired : Types.json;
  lastSignature : string;
}.

(** The arguments of the four [useState] calls. *)
Definition initial : UIState :=
  {| loading := false; ui_status := ""; paymentRequired := JNull; lastSignature := "" |}.

Definition set_state (ui : UIState) (e : Event) : UIState :=
  match e with
  | SetLoading b =>
      {| loading := b; ui_status := ui_status ui;
         paymentRequired := paymentRequired ui; lastSignature := lastSignature ui |}
  | SetStatus s =>
      {| loading := loading ui; ui_status := s;
         paymentRequired := paymentRequired ui; lastSignature := lastSignature ui |}
  | SetPaymentRequired d =>
      {| loading := loading ui; ui_status := ui_status ui;
         paymentRequired := d; lastSignature := lastSignature ui |}
  | SetLastSignature s =>
      {| loading := loading ui; ui_status := ui_status ui;
         paymentRequired := paymentRequired ui; lastSignature := s |}
  | _ => ui
  end.

(** The state once the setters among [events] have been applied. *)
Definition state_after (ui : UIState) (events : list Event) : UIState :=
  foldl set_state ui events.

(** What the component returns (lines 204 to 282), as the list of the
    blocks it shows. *)
Inductive Block : Type :=
| ConnectPrompt
| PayButton (disabled : bool)
| StatusNote (text : string)
| PaymentRequiredNote (paymentDetails : Types.json)
| ConfirmedNote (signature : string).

Definition render (is_connected : bool) (ui : UIState) : list Block :=
  if negb is_connected then [ConnectPrompt]
  else
    [PayButton (loading ui)]
    ++ (if bool_decide (ui_status ui ≠ "") && loading ui
        then [StatusNote (ui_status ui)] else [])
    ++ (if truthy (Some (paymentRequired ui)) && negb (loading ui)
        then [PaymentRequiredNote (paymentRequired ui)] else [])
    ++ (if bool_decide (lastSignature ui ≠ "")
        then [ConfirmedNote (lastSignature ui)] else []).

(** *** The two handlers *)

Section Component.
Context {W : Type} (env : Env W).

(** A computation of the component: it reads and changes the outside
    world, appends to the log of events, and returns or throws. *)
Definition B (A : Type) : Type := W → outcome A * W * list Event.

Definition ret {A} (a : A) : B A := λ w, (Done a, w, []).

Definition throw {A} (e : JsError) : B A := λ w, (Raised e, w, []).

Definition bind {A A'} (m : B A) (k : A → B A') : B A' :=
  λ w, match m w with
       | (Done a, w1, l1) =>
           match k a w1 with (r, w2, l2) => (r, w2, l1 ++ l2) end
       | (Raised e, w1, l1) => (Raised e, w1, l1)
       end.

(** [try { m } catch (error) { h error }] *)
Definition try_catch {A} (m : B A) (h : JsError → B A) : B A :=
  λ w, match m w with
       | (Done a, w1, l1) => (Done a, w1, l1)
       | (Raised e, w1, l1) =>
           match h e w1 with (r, w2, l2) => (r, w2, l1 ++ l2) end
       end.

(** [try { m } finally { f }]: [f] runs however [m] ends, and what [m]
    ended with stands unless [f] throws. *)
Definition try_finally {A} (m : B A) (f : B unit) : B A :=
  λ w, match m w with
       | (r, w1, l1) =>
           match f w1 with
           | (Done _, w2, l2) => (r, w2, l1 ++ l2)
           | (Raised e, w2, l2) => (Raised e, w2, l1 ++ l2)
           end
       end.

Definition emit (e : Event) : B unit := λ w, (Done tt, w, [e]).

(** The outcome of an expression that leaves the world alone. *)
Definition eval {A} (r : outcome A) : B A := λ w, (r, w, []).

(** A logged call into the world. *)
Definition call {A} (e : Event) (f : W → outcome A * W) : B A :=
  λ w, let '(r, w') := f w in (r, w', [e]).

(** A read of the world. *)
Definition read {A} (f : W → A) : B A := λ w, (Done (f w), w, []).

End Component.

End Button.

Declare Scope button_scope.
Delimit Scope button_scope with button.
Notation "x <- m ;; k" := (Button.bind m (λ x, k))
  (at level 100, m at next level, right associativity) : button_scope.
Notation "m ;;; k" := (Button.bind m (λ _, k))
  (at level 100, right associativity) : button_scope.

Module ButtonHandlers.

Import Button.

Section Component.
Context {W : Type} (env : Env W).

Local Open Scope button_scope.

(** Lines 48 and 51 (and again 149 and 150). *)
Definition isExternalEndpoint : bool :=
  startsWith (endpoint env) "http://" || startsWith (endpoint env) "https://".

Definition request_method : string :=
  if isExternalEndpoint then "GET" else "POST".

(** [...(method === 'POST' ? { body: JSON.stringify({ componentType, config }) } : {})] *)
Definition request_body : option Routes.RequestBody :=
  if bool_decide (request_method = "POST")
  then Some {| Routes.componentType := Some (componentType env);
               Routes.config := config env |}
  else None.

Definition first_request : Request := {|
  method := request_method;
  headers := <["Content-Type" := "application/json"]> ∅;
  body := request_body;
|}.

Definition paid_request (signature : string) (payer : PublicKey) (now : Z) : Request := {|
  method := request_method;
  headers :=
    <["X-Payment-Timestamp" := pretty now]>
    (<["X-Payment-PublicKey" := toString env payer]>
    (<["X-Payment-Signature" := signature]>
    (<["Content-Type" := "application/json"]> ∅)));
  body := request_body;
|}.

(** Lines 72 to 90 and 165 to 183: hand the parsed body to [onSuccess],
    wrapped if it is a markets answer of an external endpoint. *)
Definition deliver (data : Types.json) (signature : option string) : B (W := W) unit :=
  is_markets <- (if isExternalEndpoint
                 then markets <- eval (get data "markets") ;; ret (truthy markets)
                 else ret false) ;;
  let uiResponse :=
    if is_markets then MarketsResponse (prop data "markets") (prop data "meta")
    else AsReceived data in
  call (OnSuccess uiResponse signature) (onSuccess env uiResponse signature).

Definition processPayment (paymentDetails : Types.json) : B (W := W) string :=
  match publicKey env with
  | Some payer =>
      if negb (connected env) then throw (new_Error "Wallet not connected")
      else
        (* Validate payTo address *)
        payTo <- eval (get paymentDetails "payTo") ;;
        unusable <- (if negb (truthy payTo) then ret true
                     else match payTo with
                          | Some (JStr s) => ret (blank s)
                          | _ => throw (new_TypeError "paymentDetails.payTo.trim is not a function")
                          end) ;;
        if (unusable : bool) then throw not_configured
        else
          let payTo := match payTo with Some (JStr s) => s | _ => "" end in
          try_catch
            ((* Create payment transaction using SOL *)
             recipientPubkey <-
               try_catch (eval (new_PublicKey env payTo))
                         (λ _, throw (invalid_recipient payTo)) ;;
             (* Price is already in lamports (smallest unit for SOL) *)
             let amountInLamports := prop paymentDetails "price" in
             let transaction :=
               {| fromPubkey := payer; toPubkey := recipientPubkey;
                  lamports := amountInLamports |} in
             match transfer_refused env transaction with
             | Some e => throw e
             | None => ret tt
             end ;;;
             (* Send transaction *)
             emit (SetStatus "Waiting for wallet approval...") ;;;
             signature <- call (SendTransaction transaction)
                               (sendTransaction env transaction) ;;
             emit (SetStatus "Confirming transaction...") ;;;
             (* Wait for confirmation *)
             call (ConfirmTransaction signature) (confirmTransaction env signature) ;;;
             (* Retry the request with payment proof *)
             now <- read (Date_now env) ;;
             retryResponse <-
               call (Fetch (endpoint env) (paid_request signature payer now))
                    (fetch env (endpoint env) (paid_request signature payer now)) ;;
             if ok retryResponse then
               emit ResponseJson ;;;
               data <- eval (json retryResponse) ;;
               deliver data (Some signature) ;;;
               emit (SetPaymentRequired JNull) ;;;
               ret signature
             else throw (new_Error "Failed to fetch after payment"))
            (λ error,
               (* Handle specific wallet errors *)
               if wallet_refused error then throw cancelled else throw error)
  | None => throw (new_Error "Wallet not connected")
  end.

Definition handleRequest : B (W := W) unit :=
  if negb (connected env) || negb (bool_decide (is_Some (publicKey env))) then
    emit (Alert "Please connect your wallet first")
  else
    emit (SetLoading true) ;;;
    emit (SetStatus "Requesting service...") ;;;
    try_finally
      (try_catch
         ((* First, try to fetch without payment *)
          response <- call (Fetch (endpoint env) first_request)
                           (fetch env (endpoint env) first_request) ;;
          if bool_decide (status response = 402%Z) then
            (* Payment required *)
            emit ResponseJson ;;;
            paymentDetails <- eval (json response) ;;
            emit (SetPaymentRequired paymentDetails) ;;;
            (* Process payment *)
            signature <- processPayment paymentDetails ;;
            emit (SetLastSignature signature)
          else if ok response then
            (* Success (payment already made or free) *)
            emit ResponseJson ;;;
            data <- eval (json response) ;;
            deliver data None
          else throw (new_Error "Request failed"))
         (λ error,
            (* Clear payment required state on error so user can retry *)
            emit (SetPaymentRequired JNull) ;;;
            emit (SetStatus "") ;;;
            match onError env with
            | Some handler => call (OnError error) (handler error)
            | None => ret tt
            end))
      (emit (SetLoading false)).

End Component.

End ButtonHandlers.

(** *** Vocabulary for the button's runs *)

Module ButtonSpec.

Import Button.

Definition result_of {W A} (x : outcome A * W * list Event) : outcome A := x.1.1.
Definition world_of {W A} (x : outcome A * W * list Event) : W := x.1.2.
Definition events_of {W A} (x : outcome A * W * list Event) : list Event := x.2.

Definition is_fetch (e : Event) : bool :=
  match e with Fetch _ _ => true | _ => false end.
Definition is_payment (e : Event) : bool :=
  match e with SendTransaction _ => true | _ => false end.
Definition is_success (e : Event) : bool :=
  match e with OnSuccess _ _ => true | _ => false end.
Definition is_error (e : Event) : bool :=
  match e with OnError _ => true | _ => false end.

Definition count (f : Event → bool) (events : list Event) : nat :=
  length (List.filter f events).

Definition is_payment_required_note (b : Block) : bool :=
  match b with PaymentRequiredNote _ => true | _ => false end.

(** Is the note of lines 253 to 263 due in this state, and is it due in
    none of the states that the setters among [events] lead through? *)
Definition note_due (ui : UIState) : bool :=
  truthy (Some (paymentRequired ui)) && negb (loading ui).

Fixpoint never_due (ui : UIState) (events : list Event) : bool :=
  negb (note_due ui)
  && match events with
     | [] => true
     | e :: rest => never_due (set_state ui e) rest
     end.

(** The same surroundings, except that every confirmation that resolves
    reports no error. *)
Definition confirming_without_error {W} (env : Env W) : Env W := {|
  endpoint := endpoint env;
  componentType := componentType env;
  config := config env;
  onSuccess := onSuccess env;
  onError := onError env;
  publicKey := publicKey env;
  connected := connected env;
  sendTransaction := sendTransaction env;
  confirmTransaction := λ signature w,
    let '(r, w') := confirmTransaction env signature w in
    (match r with Done _ => Done None | Raised e => Raised e end, w');
  new_PublicKey := new_PublicKey env;
  toString := toString env;
  transfer_refused := transfer_refused env;
  fetch := fetch env;
  Date_now := Date_now env;
|}.

End ButtonSpec.

(** ** The home page (page.tsx) *)

Module Home.

Import Button.

Record State : Type := {
  selectedService : option (string * string * string);
  renderedUI : option Delivered;
  error : option string;
  transactionSignature : option string;
}.

Definition initial : State :=
  {| selectedService := None; renderedUI := None; error := None;
     transactionSignature := None |}.

Definition handleServiceSelect (endpoint componentType title : string) (s : State)
  : State :=
  {| selectedService := Some (endpoint, componentType, title);
     renderedUI := None;
     error := None;
     transactionSignature := None |}.

Definition handleSuccess (data : Delivered) (signature : option string) (s : State)
  : State :=
  {| selectedService := selectedService s;
     renderedUI := Some data;
     transactionSignature := signature;
     error := None |}.

Definition cancelled_text : string :=
  "❌ Transaction was cancelled. Click the button again to retry.".
Definition connect_text : string :=
  "⚠️ Please connect your wallet to continue.".
Definition funds_text : string :=
  "💰 Insufficient funds. Please add SOL to your wallet.".

(** Provide user-friendly error messages.  A thrown value without a
    message makes [errorMessage.includes] throw. *)
Definition friendly (errorMessage : string) : string :=
  if includes errorMessage "Transaction cancelled"
     || includes errorMessage "Plugin Closed"
     || includes errorMessage "User rejected"
  then cancelled_text
  else if includes errorMessage "Wallet not connected" then connect_text
  else if includes errorMessage "insufficient funds" then funds_text
  else errorMessage.

Definition handleError (e : JsError) (s : State) : outcome unit * State :=
  match message e with
  | None =>
      (Raised (new_TypeError "Cannot read properties of undefined (reading 'includes')"), s)
  | Some errorMessage =>
      (Done tt,
       {| selectedService := selectedService s;
          renderedUI := None;
          error := Some (friendly errorMessage);
          transactionSignature := transactionSignature s |})
  end.

(** [{error && ...}] and [{renderedUI && ...}] *)
Definition shows_error (s : State) : bool := truthy_string (error s).

Definition shows_ui (s : State) : bool :=
  match renderedUI s with
  | Some (AsReceived data) => truthy (Some data)
  | Some (MarketsResponse _ _) => true
  | None => false
  end.

(** The button as the page mounts it for the selected service, over a
    platform [base] whose own callbacks are not used: the page's state
    is kept beside the platform's. *)
Definition beside {W A} (f : W → A * W) : State * W → A * (State * W) :=
  λ hw, let '(a, w') := f hw.2 in (a, (hw.1, w')).

Definition no_config : UIConfig :=
  {| columns := None; gap := None; itemCount := None;
     title := None; content := None; actions := None |}.

Definition button {W} (endpoint componentType : string) (base : Env W)
  : Env (State * W) := {|
  Button.endpoint := endpoint;
  Button.componentType := componentType;
  Button.config := Some no_config;
  Button.onSuccess := λ data signature hw,
    (Done tt, (handleSuccess data signature hw.1, hw.2));
  Button.onError := Some (λ e hw,
    let '(r, h') := handleError e hw.1 in (r, (h', hw.2)));
  Button.publicKey := Button.publicKey base;
  Button.connected := Button.connected base;
  Button.sendTransaction := λ t, beside (Button.sendTransaction base t);
  Button.confirmTransaction := λ sig, beside (Button.confirmTransaction base sig);
  Button.new_PublicKey := Button.new_PublicKey base;
  Button.toString := Button.toString base;
  Button.transfer_refused := Button.transfer_refused base;
  Button.fetch := λ url init, beside (Button.fetch base url init);
  Button.Date_now := λ hw, Button.Date_now base hw.2;
|}.

End Home.

(** ** More concrete worlds *)

Module ScenarioMore.

Import Scenario.

Definition eight_items : UIConfig :=
  {| columns := None; gap := None; itemCount := Some 8%Z;
     title := None; content := None; actions := None |}.

(** A paid request for a card, with an item count of 2^32 in its config. *)
Definition oversized_config : UIConfig :=
  {| columns := None; gap := None; itemCount := Some 4294967296%Z;
     title := None; content := None; actions := None |}.

Definition oversized_body : Routes.RequestBody :=
  {| componentType := Some "card"; config := Some oversized_config |}.

Definition oversized_request : Routes.NextRequest := {|
  headers := headers (custom_request "sig-full" payer_address "card");
  Routes.json_body := Ok (Some oversized_body);
|}.

(** A request to verify a payment, naming a public key and an endpoint. *)
Definition verify_request_from (sig pk ep : string) : VerifyPayment.NextRequest := {|
  VerifyPayment.json_body :=
    Ok (Some {| VerifyPayment.signature := Some sig;
                VerifyPayment.publicKey := Some pk;
                VerifyPayment.endpoint := Some ep |});
|}.

(** A payment handler of the client helper that gives up. *)
Definition closing_wallet (paymentDetails : json) (seen : nat)
  : result (option PaymentProof) * nat :=
  (Throw (Thrown "wallet closed"), seen).

(** An engine whose fixed-point text is exact for a price that is a
    natural number: the digits of the quotient, then, if any decimals
    are asked for, a dot and the remainder in that many digits. *)
Definition padded (width : nat) (digits : string) : string :=
  Nat.iter (width - String.length digits) (String.append "0") digits.

Definition exact_fixed (price decimals : Z) : string :=
  pretty (price / 10 ^ decimals)%Z
  +:+ (if bool_decide (decimals = 0%Z) then ""
       else "." +:+ padded (Z.to_nat decimals) (pretty (price `mod` 10 ^ decimals)%Z)).

(** The surroundings of a payment button for a grid: the server answers
    402 with its terms until the request carries a payment signature and
    counts the requests it has seen; the wallet approves the transaction
    or refuses it; the callbacks do nothing. *)
Definition rendered_grid : json :=
  JObj [ ("success", JBool true); ("ui", JObj [("type", JStr "grid")]);
         ("message", JStr "UI rendered successfully") ].

Definition gated (url : string) (init : Button.Request) (seen : nat)
  : Button.outcome Button.Response * nat :=
  match Button.headers init !! "X-Payment-Signature" with
  | Some _ =>
      (Button.Done {| Button.status := 200; Button.json := Button.Done rendered_grid |},
       S seen)
  | None =>
      (Button.Done {| Button.status := 402; Button.json := Button.Done payment_terms |},
       S seen)
  end.

Definition parse_key (text : string) : Button.outcome PublicKey :=
  match World.new_PublicKey ledger text with
  | Ok key => Button.Done key
  | Throw (Thrown msg) => Button.Raised (Button.new_Error msg)
  end.

Definition user_rejected : Button.JsError :=
  {| Button.name := Some "WalletSendTransactionError";
     Button.message := Some "User rejected the request." |}.

Definition shop (approves : bool) : Button.Env nat := {|
  Button.endpoint := "/api/render-ui";
  Button.componentType := "grid";
  Button.config := None;
  Button.onSuccess := λ _ _ seen, (Button.Done tt, seen);
  Button.onError := Some (λ _ seen, (Button.Done tt, seen));
  Button.publicKey := Some payer;
  Button.connected := true;
  Button.sendTransaction := λ _ seen,
    if approves then (Button.Done "sig-full", seen)
    else (Button.Raised user_rejected, seen);
  Button.confirmTransaction := λ _ seen, (Button.Done None, seen);
  Button.new_PublicKey := parse_key;
  Button.toString := λ _, payer_address;
  Button.transfer_refused := λ _, None;
  Button.fetch := gated;
  Button.Date_now := λ _, 1730000000000%Z;
|}.

(** The transaction the button builds from the server's terms. *)
Definition payment : Button.Transfer :=
  {| Button.fromPubkey := payer; Button.toPubkey := treasury;
     Button.lamports := Some (JNum 500000) |}.

End ScenarioMore.

(** * Properties *)

(** ** Computations that do not touch the state *)

Module EffFacts.

Section Stateless.
Context {S E : Type}.

Local Abbreviation stateless := (Eff.stateless (S := S) (E := E)).

Lemma stateless_ret {A} (a : A) : stateless (ret a).
Proof. by exists (Ok a), []. Qed.

Lemma stateless_throw {A} e : stateless (throw (A := A) e).
Proof. by exists (Throw e), []. Qed.

Lemma stateless_emit e : stateless (emit e).
Proof. by exists (Ok tt), [e]. Qed.

Lemma stateless_await {A} (r : result A) : stateless (await r).
Proof. by exists r, []. Qed.

Lemma stateless_bind {A B} (m : M S E A) (k : A → M S E B) :
  stateless m → (∀ a, stateless (k a)) → stateless (bind m k).
Proof.
  intros (ρ & l & Hm) Hk. destruct ρ as [a|e].
  - destruct (Hk a) as (ρ' & l' & Hka). exists ρ', (l ++ l').
    intros s. unfold bind. by rewrite Hm, Hka.
  - exists (Throw e), l. intros s. unfold bind. by rewrite Hm.
Qed.

Lemma stateless_try_catch {A} (m : M S E A) (h : Exn → M S E A) :
  stateless m → (∀ e, stateless (h e)) → stateless (try_catch m h).
Proof.
  intros (ρ & l & Hm) Hh. destruct ρ as [a|e].
  - exists (Ok a), l. intros s. unfold try_catch. by rewrite Hm.
  - destruct (Hh e) as (ρ' & l' & Hhe). exists ρ', (l ++ l').
    intros s. unfold try_catch. by rewrite Hm, Hhe.
Qed.

Lemma stateless_run {A} (m : M S E A) s s' :
  stateless m → m s' = (outcome (m s), s', trace (m s)).
Proof. intros (ρ & l & Hm). by rewrite !Hm. Qed.

Lemma stateless_final {A} (m : M S E A) s : stateless m → final (m s) = s.
Proof. intros (ρ & l & Hm). by rewrite Hm. Qed.

End Stateless.

(** Split a computation along its binds and its case distinctions. *)
Ltac stateless :=
  repeat first
    [ apply stateless_ret | apply stateless_throw | apply stateless_emit
    | apply stateless_await
    | apply stateless_bind; [ | intros ? ]
    | apply stateless_try_catch; [ | intros ? ]
    | progress cbv zeta
    | case_match ].

End EffFacts.

Import EffFacts.

(** ** Facts about the JavaScript primitives *)

Module JSFacts.

Lemma findIndex_ge {A} (p : A → bool) l : (-1 ≤ findIndex p l)%Z.
Proof.
  induction l as [|x l IH]; simpl; [lia|].
  destruct (p x); [lia|]. case_bool_decide; lia.
Qed.

(** [findIndex] finds the first element that satisfies the predicate. *)
Lemma findIndex_first {A} (p : A → bool) l i x :
  l !! i = Some x → p x = true →
  (∀ j y, (j < i)%nat → l !! j = Some y → p y = false) →
  findIndex p l = Z.of_nat i.
Proof.
  revert i. induction l as [|z l IH]; intros i Hi Hp Hfirst; [done|].
  destruct i as [|i]; simpl in *.
  - simplify_eq. by rewrite Hp.
  - rewrite (Hfirst 0%nat z) by (done || lia).
    rewrite (IH i Hi Hp).
    + case_bool_decide; lia.
    + intros j y Hj Hy. apply (Hfirst (S j) y); [lia|done].
Qed.

Lemma findIndex_found {A} (p : A → bool) l :
  findIndex p l ≠ (-1)%Z →
  ∃ i x, findIndex p l = Z.of_nat i ∧ l !! i = Some x ∧ p x = true ∧
         ∀ j y, (j < i)%nat → l !! j = Some y → p y = false.
Proof.
  induction l as [|z l IH]; simpl; [done|].
  destruct (p z) eqn:Hz.
  - intros _. exists 0%nat, z. repeat split; [done..|]. intros; lia.
  - case_bool_decide as Hrec; [done|]. intros _.
    destruct (IH Hrec) as (i & x & Hi & Hx & Hp & Hfirst).
    exists (S i), x. repeat split; [lia|done..|].
    intros [|j] y Hj Hy; simpl in *; [by simplify_eq|].
    apply (Hfirst j y); [lia|done].
Qed.

Lemma findIndex_missing {A} (p : A → bool) l :
  findIndex p l = (-1)%Z ↔ ∀ x, x ∈ l → p x = false.
Proof.
  induction l as [|z l IH]; simpl.
  - split; [|done]. intros _ x Hx. by apply elem_of_nil in Hx.
  - destruct (p z) eqn:Hz.
    + split; [done|]. intros Hall. specialize (Hall z). rewrite Hz in Hall.
      by discriminate Hall; left.
    + pose proof (findIndex_ge p l) as Hge. case_bool_decide as Hrec.
      * split; [|done]. intros _ x [->|Hx]%elem_of_cons; [done|].
        by apply IH.
      * split; [lia|]. intros Hall. destruct Hrec. apply IH.
        intros x Hx. apply Hall. by right.
Qed.

Lemma index_of_nat {A} (l : list A) (i : nat) : index l (Z.of_nat i) = l !! i.
Proof.
  unfold index. rewrite bool_decide_eq_true_2 by lia. by rewrite Nat2Z.id.
Qed.

(** A key that is neither stored nor inherited falls back. *)
Lemma get_or_fallback {A} (own : gmap string A) k d :
  own !! k = None → k ∉ Object_prototype_keys → get_or own k d = Obj d.
Proof.
  intros Hown Hproto. unfold get_or, get_property. rewrite Hown.
  by rewrite bool_decide_eq_false_2.
Qed.

Lemma get_or_own {A} (own : gmap string A) k d a :
  own !! k = Some a → get_or own k d = Obj a.
Proof. intros Hown. unfold get_or, get_property. by rewrite Hown. Qed.

Lemma get_or_inherited {A} (own : gmap string A) k d :
  own !! k = None → k ∈ Object_prototype_keys → get_or own k d = Builtin k.
Proof.
  intros Hown Hproto. unfold get_or, get_property. rewrite Hown.
  by rewrite bool_decide_eq_true_2.
Qed.

End JSFacts.

Import JSFacts.

Module RoutesFacts.

(** Decide whether a call occurs in a log of known shape. *)
Ltac absent :=
  solve [ repeat first [ rewrite elem_of_app | rewrite elem_of_cons
                       | rewrite elem_of_replicate | rewrite elem_of_nil ];
          intuition (try discriminate; try congruence) ].

Section Facts.
Context (math : MathRandom) (env : ProcessEnv)
        (x402 : X402PaymentHandler) (web3 : Web3).

Local Abbreviation POST := (Routes.POST math env x402 web3).
Local Abbreviation verify := (Routes.verify math env x402 web3).
Local Abbreviation generate := (Routes.generate math).
Local Abbreviation payment_required := (RoutesSpec.payment_required env x402).
Local Abbreviation unpaid := (RoutesSpec.unpaid x402).
Local Abbreviation preamble := (RoutesSpec.preamble env).
Local Abbreviation Execution := (RoutesSpec.Execution math env x402 web3).
Local Abbreviation CustomPaymentAccepted := (RoutesSpec.CustomPaymentAccepted env web3).
Local Abbreviation Verified := (RoutesSpec.Verified math env x402 web3).
Local Abbreviation verification_call := (RoutesSpec.verification_call x402).

(** *** The verification step *)

Lemma verifyCustomPayment_stateless r sig pk :
  stateless (verifyCustomPayment math env web3 r sig pk).
Proof. unfold verifyCustomPayment. stateless. Qed.

Lemma verify_stateless r req reqs : stateless (verify r req reqs).
Proof.
  unfold Routes.verify.
  destruct (truthy_string _); [ stateless | ].
  destruct (hasCustomPayment _); [ | stateless ].
  apply verifyCustomPayment_stateless.
Qed.

Lemma generate_RenderUI_stateless ct cfg : stateless (generate RenderUI ct cfg).
Proof. unfold Routes.generate. stateless. Qed.

Lemma expectedPrice_value r : expectedPrice env r = 500000%Z.
Proof. by destruct r. Qed.

Lemma equals_true (a b : PublicKey) : equals a b = true ↔ a = b.
Proof. unfold equals. by rewrite bool_decide_eq_true. Qed.

Lemma equals_false (a b : PublicKey) : equals a b = false ↔ a ≠ b.
Proof. unfold equals. by rewrite bool_decide_eq_false. Qed.

Lemma treasury_paid_true keys recipient m price :
  treasury_paid keys recipient m price = true ↔
  ∃ (i : nat) post pre,
    keys !! i = Some recipient ∧
    (∀ j, (j < i)%nat → keys !! j ≠ Some recipient) ∧
    postBalances m !! i = Some post ∧
    preBalances m !! i = Some pre ∧
    (95 * price ≤ 100 * (post - pre))%Z.
Proof.
  unfold treasury_paid. split.
  - case_bool_decide as Hindex; [|done].
    destruct (findIndex_found _ _ Hindex) as (i & x & Hi & Hx & Heq & Hfirst).
    apply equals_true in Heq as ->. rewrite Hi, !index_of_nat.
    destruct (postBalances m !! i) as [post|] eqn:Hpost; [|done].
    destruct (preBalances m !! i) as [pre|] eqn:Hpre; [|done].
    simpl. rewrite bool_decide_eq_true. intros Hamount.
    exists i, post, pre. repeat split; [done| |done..].
    intros j Hj Hjx. specialize (Hfirst j recipient Hj Hjx).
    by rewrite equals_false in Hfirst.
  - intros (i & post & pre & Hi & Hfirst & Hpost & Hpre & Hamount).
    rewrite (findIndex_first _ keys i recipient); [| done | by apply equals_true |].
    + rewrite bool_decide_eq_true_2 by lia.
      rewrite !index_of_nat, Hpost, Hpre. simpl.
      by rewrite bool_decide_eq_true.
    + intros j y Hj Hy. apply equals_false. intros ->. by apply (Hfirst j).
Qed.

Ltac clash :=
  repeat match goal with
         | H1 : ?a = _, H2 : ?a = _ |- _ => rewrite H1 in H2; simplify_eq/=
         end.

Ltac refuse :=
  exists false; split; [reflexivity|]; split; [done|];
  intros (? & ? & ? & ? & ? & ? & ? & ? & ? & ? & ? & ? & ? & ? & ? & ? & ? & ? & ?);
  simplify_eq/=; clash.

Lemma verifyCustomPayment_run r sig pk g :
  ∃ ok, verifyCustomPayment math env web3 r sig pk g
          = (Ok ok, g, [GetTransaction (non_null sig)])
        ∧ (ok = true ↔ CustomPaymentAccepted r sig pk).
Proof.
  unfold verifyCustomPayment, try_catch, bind, emit, await, ret. simpl.
  destruct (getTransaction web3 (non_null sig)) as [[tx|]|e] eqn:Htx; simpl;
    [ | refuse.. ].
  destruct (meta tx) as [m|] eqn:Hmeta; simpl.
  2:{ destruct (new_PublicKey web3 (non_null pk)); simpl; [|refuse].
      destruct (new_PublicKey web3 _); simpl; [|refuse].
      destruct (staticAccountKeys tx); simpl; refuse. }
  destruct (err m) as [failure|] eqn:Herr; simpl; [refuse|].
  destruct (new_PublicKey web3 (non_null pk)) as [sender|] eqn:Hsender; simpl; [|refuse].
  change "8MeWTYDip5SWVJf3wkvDKZw9BjSAWMXm5oAeELJ6HFM9" with (payTo (x402Config env)).
  destruct (new_PublicKey web3 (payTo _)) as [recipient|] eqn:Hrecipient; simpl; [|refuse].
  destruct (staticAccountKeys tx) as [keys|] eqn:Hkeys; simpl; [|refuse].
  exists (treasury_paid keys recipient m (expectedPrice env r)). split.
  - unfold treasury_paid. simpl.
    destruct (bool_decide (findIndex _ _ ≠ _)); simpl; [|done].
    by destruct (amount_suffices _ _).
  - rewrite treasury_paid_true. split.
    + intros (i & post & pre & ? & ? & ? & ? & ?).
      by exists tx, m, sender, recipient, keys, i, post, pre.
    + intros (tx' & m' & sender' & recipient' & keys' & i & post & pre & H).
      destruct H as (? & ? & ? & ? & ? & ? & ? & ? & ? & ? & ?).
      simplify_eq/=. clash. by exists i, post, pre.
Qed.

Lemma verify_standard r req reqs g :
  truthy_string (extractPayment x402 (headers req)) = true →
  verify r req reqs g =
    (match verifyPayment x402 (non_null (extractPayment x402 (headers req))) reqs with
     | Ok verificationResult => Ok (isValid verificationResult)
     | Throw e => Throw e
     end, g, [VerifyPayment (non_null (extractPayment x402 (headers req)))]).
Proof.
  intros Hheader. unfold Routes.verify. rewrite Hheader.
  unfold bind, emit, await, ret. simpl.
  by destruct (verifyPayment x402 _ reqs).
Qed.

Lemma verify_custom r req reqs g :
  truthy_string (extractPayment x402 (headers req)) = false →
  hasCustomPayment req = true →
  verify r req reqs g =
    verifyCustomPayment math env web3 r
      (headers_get (headers req) "X-Payment-Signature")
      (headers_get (headers req) "X-Payment-PublicKey") g.
Proof. intros Hheader Hcustom. unfold Routes.verify. by rewrite Hheader, Hcustom. Qed.

Lemma unpaid_false req :
  unpaid req = false ↔
  truthy_string (extractPayment x402 (headers req)) = true ∨
  hasCustomPayment req = true.
Proof.
  unfold RoutesSpec.unpaid.
  destruct (truthy_string _), (hasCustomPayment req); simpl;
    intuition discriminate.
Qed.

(** Exactly one of the two paths runs, and the state is left alone. *)
Lemma verify_one_path r req reqs g :
  unpaid req = false →
  ∃ ρ c, verify r req reqs g = (ρ, g, [c]) ∧
         c = (if truthy_string (extractPayment x402 (headers req))
              then VerifyPayment (non_null (extractPayment x402 (headers req)))
              else GetTransaction
                     (non_null (headers_get (headers req) "X-Payment-Signature"))).
Proof.
  intros [Hheader|Hcustom]%unpaid_false.
  - rewrite verify_standard, Hheader by done. eauto.
  - destruct (truthy_string _) eqn:Hheader.
    + rewrite verify_standard by done. eauto.
    + rewrite verify_custom by done.
      destruct (verifyCustomPayment_run r
                  (headers_get (headers req) "X-Payment-Signature")
                  (headers_get (headers req) "X-Payment-PublicKey") g)
        as (ok & -> & _). eauto.
Qed.

(** *** Template generation *)

Lemma for_each_premium_item idx g :
  ∃ grid_items g',
    for_each math (premium_item math) idx g
      = (Ok grid_items, g', replicate (length idx) Random).
Proof.
  revert g. induction idx as [|i idx IH]; intros g; simpl.
  - by exists [], g.
  - unfold bind at 1. unfold premium_item at 1, Math_random.
    unfold bind, emit, step, ret. simpl.
    destruct (random math g) as [r g1]. simpl.
    destruct (IH g1) as (grid_items & g' & ->). simpl.
    rewrite app_nil_r. eauto.
Qed.

Lemma for_each_table_row idx g :
  ∃ table g',
    for_each math (table_row math) idx g
      = (Ok table, g', replicate (2 * length idx) Random).
Proof.
  revert g. induction idx as [|i idx IH]; intros g; simpl.
  - by exists [], g.
  - unfold bind at 1. unfold table_row at 1, Math_random.
    unfold bind, emit, step, ret. simpl.
    destruct (random math g) as [r1 g1]. simpl.
    destruct (random math g1) as [r2 g2]. simpl.
    destruct (IH g2) as (table & g' & ->). simpl.
    rewrite app_nil_r, Nat.add_0_r, Nat.add_succ_r. simpl. eauto.
Qed.

(** [generatePremiumUI] either refuses the item count before drawing
    anything, or draws once per grid item and twice per table row and
    returns. *)
Lemma generatePremiumUI_run ct cfg g :
  (generatePremiumUI math ct cfg g = (Throw (Thrown "Invalid array length"), g, [])
   ∧ (max_array_length < or_number (cfg ≫= itemCount) 12)%Z)
  ∨ ∃ ui g',
      generatePremiumUI math ct cfg g
        = (Ok ui, g',
           replicate (Z.to_nat (or_number (cfg ≫= itemCount) 12) + 40) Random).
Proof.
  unfold generatePremiumUI, Array_from_M.
  case_bool_decide as Hlen.
  - right. unfold bind at 1.
    destruct (for_each_premium_item
                (seq 0 (Z.to_nat (or_number (cfg ≫= itemCount) 12))) g)
      as (grid_items & g1 & ->).
    rewrite bool_decide_eq_true_2 by (unfold max_array_length; lia).
    unfold bind at 1.
    destruct (for_each_table_row (seq 0 (Z.to_nat 20)) g1) as (table & g2 & ->).
    unfold ret. rewrite !length_seq, app_nil_r, <- replicate_add.
    eexists _, g2. do 3 f_equal.
  - left. split; [done | lia].
Qed.

Lemma generate_run r ct cfg g :
  ∃ ρ g' n,
    generate r ct cfg g = (ρ, g', Generate (to_string ct) :: replicate n Random)
    ∧ (r = RenderUI → g' = g ∧ n = 0%nat).
Proof.
  unfold Routes.generate, bind, emit. simpl. destruct r.
  - unfold await. exists (generateUI (to_string ct) cfg), g, 0%nat. by simpl.
  - destruct (generatePremiumUI_run (to_string ct) cfg g)
      as [[-> _]|(ui & g' & ->)].
    + by exists (Throw (Thrown "Invalid array length")), g, 0%nat.
    + by eexists (Ok ui), g', _.
Qed.

Ltac tidy := simpl; rewrite ?app_nil_r, <- ?app_assoc; simpl.

Lemma POST_execution r req g : Execution r req g (POST r req g).
Proof.
  unfold Routes.POST, POST_try, try_catch, bind, emit, await, ret, throw.
  simpl.
  destruct (Routes.json_body req) as [[b|]|e] eqn:Hbody; simpl;
    [ | by apply BodyNull | by apply (BodyUnreadable r req g e) ].
  destruct (createPaymentRequirements x402 _) as [reqs|e] eqn:Hreqs; simpl;
    [ | by apply (NoRequirements r req g b e) ].
  fold (unpaid req).
  destruct (unpaid req) eqn:Hunpaid; simpl.
  { by apply (Unpaid r req g b reqs). }
  destruct (verify r req reqs g) as [[[[]|e] g1] l1] eqn:Hverify; tidy;
    [ | by apply (Rejected r req g b reqs g1 l1)
      | by apply (VerifyThrows r req g b reqs e g1 l1) ].
  destruct (generate r (componentType b) (config b) g1) as [[[ui|e] g2] l2] eqn:Hgen;
    tidy; [ | by apply (GenerateThrows r req g b reqs g1 l1 e g2 l2) ].
  pose proof (Served r req g b reqs g1 l1 ui g2 l2 Hbody Hreqs Hunpaid Hverify Hgen) as H.
  destruct (truthy_string (extractPayment x402 (headers req))) eqn:Hheader; tidy.
  - destruct (settlePayment x402 _ reqs) as [[]|e] eqn:Hsettle; tidy.
    + by apply H.
    + by apply (SettleThrows r req g b reqs g1 l1 ui g2 l2 e).
  - rewrite ?app_nil_r in H. by apply H.
Qed.

Ltac cases_of_POST r req g :=
  destruct (POST_execution r req g) as
    [ e Hbody | Hbody | b e Hbody Hreqs | b reqs Hbody Hreqs Hunpaid
    | b reqs e g1 l1 Hbody Hreqs Hunpaid Hv
    | b reqs g1 l1 Hbody Hreqs Hunpaid Hv
    | b reqs g1 l1 e g2 l2 Hbody Hreqs Hunpaid Hv Hg
    | b reqs g1 l1 ui g2 l2 e Hbody Hreqs Hunpaid Hv Hg Hh Hs
    | b reqs g1 l1 ui g2 l2 Hbody Hreqs Hunpaid Hv Hg Hs ].

(** Replace the run of [generate] in a hypothesis by its shape. *)
Ltac resolve_generate :=
  match goal with
  | Hg : Routes.generate _ ?r ?ct ?cfg ?g0 = _ |- _ =>
      let n := fresh "n" in
      let Hgen := fresh "Hgen" in
      let Hrender := fresh "Hrender" in
      destruct (generate_run r ct cfg g0) as (? & ? & n & Hgen & Hrender);
      rewrite Hgen in Hg; simplify_eq
  end.

(** *** Running the handler forwards *)

Ltac run_POST :=
  unfold Routes.POST, POST_try, try_catch, bind, emit, await, ret, throw; simpl.

Lemma POST_body_unreadable r req g e :
  Routes.json_body req = Throw e →
  POST r req g = (Ok internal_error, g, [ExtractPayment; ReqJson]).
Proof. intros Hbody. run_POST. by rewrite Hbody. Qed.

Lemma POST_body_null r req g :
  Routes.json_body req = Ok None →
  POST r req g = (Ok internal_error, g, [ExtractPayment; ReqJson]).
Proof. intros Hbody. run_POST. by rewrite Hbody. Qed.

Lemma POST_no_requirements r req g b e :
  Routes.json_body req = Ok (Some b) →
  createPaymentRequirements x402 (routeConfig env r (componentType b)) = Throw e →
  POST r req g = (Ok internal_error, g, preamble r b).
Proof. intros Hbody Hreqs. run_POST. rewrite Hbody. simpl. by rewrite Hreqs. Qed.

Lemma POST_unpaid r req g b reqs :
  Routes.json_body req = Ok (Some b) →
  createPaymentRequirements x402 (routeConfig env r (componentType b)) = Ok reqs →
  unpaid req = true →
  POST r req g = (Ok (payment_required r reqs), g, preamble r b ++ [Create402Response]).
Proof.
  intros Hbody Hreqs Hunpaid. run_POST. rewrite Hbody. simpl. rewrite Hreqs. simpl.
  fold (unpaid req). by rewrite Hunpaid.
Qed.

Lemma POST_rejected r req g b reqs g1 l1 :
  Routes.json_body req = Ok (Some b) →
  createPaymentRequirements x402 (routeConfig env r (componentType b)) = Ok reqs →
  unpaid req = false →
  verify r req reqs g = (Ok false, g1, l1) →
  POST r req g = (Ok invalid_payment, g1, preamble r b ++ l1).
Proof.
  intros Hbody Hreqs Hunpaid Hverify. run_POST. rewrite Hbody. simpl.
  rewrite Hreqs. simpl. fold (unpaid req). rewrite Hunpaid, Hverify. simpl.
  by rewrite app_nil_r.
Qed.

Lemma POST_verify_throws r req g b reqs e g1 l1 :
  Routes.json_body req = Ok (Some b) →
  createPaymentRequirements x402 (routeConfig env r (componentType b)) = Ok reqs →
  unpaid req = false →
  verify r req reqs g = (Throw e, g1, l1) →
  POST r req g = (Ok internal_error, g1, preamble r b ++ l1).
Proof.
  intros Hbody Hreqs Hunpaid Hverify. run_POST. rewrite Hbody. simpl.
  rewrite Hreqs. simpl. fold (unpaid req). rewrite Hunpaid, Hverify. simpl.
  by rewrite app_nil_r.
Qed.

(** What the body of the 402 response holds under the five names the
    client reads, whatever the library put there. *)
Lemma clientResponse_fields r response :
  clientResponse env r response !! "paymentRequired" = Some (VBool true) ∧
  clientResponse env r response !! "price" = Some (VNum 500000) ∧
  clientResponse env r response !! "network" = Some (VStr "solana") ∧
  clientResponse env r response !! "asset" = Some (VStr "SOL") ∧
  clientResponse env r response !! "payTo"
    = Some (VStr "8MeWTYDip5SWVJf3wkvDKZw9BjSAWMXm5oAeELJ6HFM9").
Proof.
  unfold clientResponse. rewrite expectedPrice_value.
  repeat split; by simplify_map_eq.
Qed.

(** It holds no UI payload: the library's fields are plain JSON. *)
Lemma clientResponse_no_ui r response k u :
  clientResponse env r response !! k ≠ Some (VUI u).
Proof.
  unfold clientResponse.
  repeat (rewrite lookup_insert; case_decide; [done|]).
  rewrite lookup_fmap. by destruct (body402 response !! k).
Qed.

Lemma error_body_no_ui msg k u : error_body msg !! k ≠ Some (VUI u).
Proof.
  unfold error_body. rewrite lookup_insert. case_decide; [done|].
  by rewrite lookup_empty.
Qed.

Lemma preamble_no_generate r b k : Generate k ∉ preamble r b.
Proof. unfold RoutesSpec.preamble. absent. Qed.

(** *** The unpaid request *)

(** C1 (amended).  A POST to either route that carries neither a truthy
    standard payment header nor the complete custom triple is answered
    with the payment terms instead of a UI, provided the handler gets as
    far as the payment check: the body parses to something other than
    [null] and the library builds the payment requirements.  The answer
    carries the status of the library's 402 response (402 when the
    library says 402), the five fields [paymentRequired: true], the
    route's price, [network: 'solana'], [asset: 'SOL'] and the [payTo]
    address, no UI payload, and no template was generated. *)
Theorem unpaid_request_gets_payment_terms r req g b reqs :
  truthy_string (extractPayment x402 (headers req)) = false →
  hasCustomPayment req = false →
  Routes.json_body req = Ok (Some b) →
  createPaymentRequirements x402 (routeConfig env r (componentType b)) = Ok reqs →
  status402 (create402Response x402 reqs) = 402%Z →
  ∃ resp,
    POST r req g = (Ok resp, g, preamble r b ++ [Create402Response]) ∧
    status resp = 402%Z ∧
    body resp !! "paymentRequired" = Some (VBool true) ∧
    body resp !! "price" = Some (VNum (prices (x402Config env) !!! path r)) ∧
    body resp !! "price" = Some (VNum 500000) ∧
    body resp !! "network" = Some (VStr "solana") ∧
    body resp !! "asset" = Some (VStr "SOL") ∧
    body resp !! "payTo" = Some (VStr (payTo (x402Config env))) ∧
    (∀ k u, body resp !! k ≠ Some (VUI u)) ∧
    (∀ k, Generate k ∉ trace (POST r req g)).
Proof.
  intros Hheader Hcustom Hbody Hreqs Hstatus.
  assert (unpaid req = true) as Hunpaid by (unfold RoutesSpec.unpaid; by rewrite Hheader, Hcustom).
  exists (payment_required r reqs).
  rewrite (POST_unpaid r req g b reqs) by done.
  destruct (clientResponse_fields r (create402Response x402 reqs))
    as (? & Hprice & ? & ? & ?).
  repeat split; try done.
  - by rewrite <- (expectedPrice_value r) in Hprice.
  - intros k u. apply clientResponse_no_ui.
  - intros k. unfold trace. simpl. absent.
Qed.

(** *** The custom header triple *)


(** *** The two forms of payment proof *)

Lemma truthy_string_true o : truthy_string o = true ↔ ∃ s, o = Some s ∧ s ≠ "".
Proof.
  destruct o as [s|]; simpl; [|naive_solver].
  rewrite bool_decide_eq_true. naive_solver.
Qed.

(** C4 (amended).  Payment proof is looked for in exactly two forms, the
    standard header and the complete custom triple.  The triple counts
    only when all three headers are present and not empty; a request
    with fewer and without a standard header is unpaid and, *once its
    body has parsed and the requirements are built*, gets the payment
    terms (with the library's 402 status).  When a standard header is
    present the standard path runs, no transaction is looked up, and
    the custom headers have no influence on the execution. *)
Theorem payment_proof_forms r req g :
  (hasCustomPayment req = true ↔
     ∃ s p t,
       headers_get (headers req) "X-Payment-Signature" = Some s ∧ s ≠ "" ∧
       headers_get (headers req) "X-Payment-PublicKey" = Some p ∧ p ≠ "" ∧
       headers_get (headers req) "X-Payment-Timestamp" = Some t ∧ t ≠ "") ∧
  (unpaid req = false ↔
     truthy_string (extractPayment x402 (headers req)) = true ∨
     hasCustomPayment req = true) ∧
  (∀ b reqs,
     truthy_string (extractPayment x402 (headers req)) = false →
     hasCustomPayment req = false →
     Routes.json_body req = Ok (Some b) →
     createPaymentRequirements x402 (routeConfig env r (componentType b)) = Ok reqs →
     POST r req g
       = (Ok (payment_required r reqs), g, preamble r b ++ [Create402Response])
     ∧ status (payment_required r reqs) = status402 (create402Response x402 reqs)) ∧
  (truthy_string (extractPayment x402 (headers req)) = true →
     (∀ reqs, ∃ ρ,
        verify r req reqs g
          = (ρ, g, [VerifyPayment (non_null (extractPayment x402 (headers req)))])) ∧
     (∀ sig, GetTransaction sig ∉ trace (POST r req g)) ∧
     (∀ req',
        extractPayment x402 (headers req') = extractPayment x402 (headers req) →
        Routes.json_body req' = Routes.json_body req →
        POST r req' g = POST r req g)).
Proof.
  split; [|split; [|split]].
  - unfold hasCustomPayment. rewrite !andb_true_iff, !truthy_string_true.
    naive_solver.
  - apply unpaid_false.
  - intros b reqs Hheader Hcustom Hbody Hreqs. split; [|done].
    apply POST_unpaid; try done. unfold RoutesSpec.unpaid. by rewrite Hheader, Hcustom.
  - intros Hheader. split; [|split].
    + intros reqs. rewrite verify_standard by done. eauto.
    + intros sig. cases_of_POST r req g; unfold trace, RoutesSpec.preamble; simpl; try absent.
      all: rewrite verify_standard in Hv by done; simplify_eq.
      all: try resolve_generate.
      all: try rewrite Hheader.
      all: absent.
    + intros req' Hsame Hbody.
      assert (verify r req' = verify r req) as Hverify.
      { unfold Routes.verify. rewrite Hsame, Hheader. done. }
      unfold Routes.POST, POST_try.
      fold (verify r req') (verify r req). rewrite Hverify, Hsame, Hbody, Hheader.
      done.
Qed.

(** *** The order of the steps *)

Lemma linear_cons a l :
  (∀ c, c ∈ l → (phase a < phase c)%nat) →
  StronglySorted precedes l → StronglySorted precedes (a :: l).
Proof.
  intros Hall Hl. constructor; [done|].
  apply Forall_forall. intros c Hc. left. by apply Hall.
Qed.

Lemma linear_draws n tail :
  (tail = [] ∨ ∃ h, tail = [SettlePayment h]) →
  StronglySorted precedes (replicate n Random ++ tail).
Proof.
  intros Htail. induction n as [|n IH]; simpl.
  - destruct Htail as [->|[h ->]]; repeat constructor.
  - constructor; [done|]. apply Forall_forall. intros c.
    rewrite elem_of_app, elem_of_replicate.
    intros [[-> _]|Hc]; [by right|]. left.
    destruct Htail as [->|[h ->]]; [by apply elem_of_nil in Hc|].
    apply list_elem_of_singleton in Hc as ->. simpl. lia.
Qed.

(** Show that a call comes before everything in a log of known shape. *)
Ltac earlier :=
  let c := fresh "c" in
  intros c;
  repeat first [ rewrite elem_of_app | rewrite elem_of_cons
               | rewrite elem_of_replicate | rewrite elem_of_nil ];
  intuition (subst; simpl; lia).

Lemma linear_tail vc k n tail :
  phase vc = 4%nat →
  (tail = [] ∨ ∃ h, tail = [SettlePayment h]) →
  StronglySorted precedes (vc :: Generate k :: replicate n Random ++ tail).
Proof.
  intros Hvc Htail.
  apply linear_cons.
  { rewrite Hvc. destruct Htail as [->|[h ->]]; earlier. }
  apply linear_cons; [|by apply linear_draws].
  destruct Htail as [->|[h ->]]; earlier.
Qed.

Lemma linear_preamble r b l :
  (∀ c, c ∈ l → (3 < phase c)%nat) →
  StronglySorted precedes l → StronglySorted precedes (preamble r b ++ l).
Proof.
  intros Hl Hsorted. unfold RoutesSpec.preamble. simpl.
  repeat (apply linear_cons;
          [ intros c; rewrite ?elem_of_cons;
            intros Hc; repeat destruct Hc as [->|Hc]; simpl; try lia;
            specialize (Hl c Hc); lia | ]).
  done.
Qed.

Lemma phase_verification_call req : phase (verification_call req) = 4%nat.
Proof. unfold RoutesSpec.verification_call. by destruct (truthy_string _). Qed.

Lemma is_verification_call req : is_verification (verification_call req) = true.
Proof. unfold RoutesSpec.verification_call. by destruct (truthy_string _). Qed.

(** Replace the run of [verify] in a hypothesis by its shape. *)
Ltac resolve_verify :=
  match goal with
  | Hu : unpaid ?req = false, Hv : Routes.verify _ _ _ _ ?r ?req ?reqs ?g0 = _ |- _ =>
      let Hpath := fresh "Hpath" in
      destruct (verify_one_path r req reqs g0 Hu) as (? & ? & Hpath & ->);
      fold (verification_call req) in *;
      rewrite Hpath in Hv; simplify_eq
  end.

Lemma filter_verification_draws n tail :
  (tail = [] ∨ ∃ h, tail = [SettlePayment h]) →
  filter is_verification (replicate n Random ++ tail) = [].
Proof.
  intros Htail. induction n as [|n IH]; simpl.
  - by destruct Htail as [->|[h ->]].
  - rewrite filter_cons_False; [done|]. by intros ?.
Qed.

Lemma filter_verification_preamble r b l :
  filter is_verification (preamble r b ++ l) = filter is_verification l.
Proof. unfold RoutesSpec.preamble. simpl. by rewrite !filter_cons_False by by intros ?. Qed.

Lemma POST_responds r req g : ∃ resp, outcome (POST r req g) = Ok resp.
Proof. cases_of_POST r req g; unfold outcome; simpl; eauto. Qed.

(** The shapes a log can have. *)
Lemma POST_trace r req g :
  trace (POST r req g) = [ExtractPayment; ReqJson]
  ∨ (∃ b, trace (POST r req g) = preamble r b)
  ∨ (∃ b, unpaid req = true ∧
          trace (POST r req g) = preamble r b ++ [Create402Response])
  ∨ (∃ b, unpaid req = false ∧
          trace (POST r req g) = preamble r b ++ [verification_call req])
  ∨ (∃ b k n tail, Verified r req g ∧
          (tail = [] ∨ ∃ h, tail = [SettlePayment h]) ∧
          trace (POST r req g)
            = preamble r b ++ verification_call req
                :: Generate k :: replicate n Random ++ tail).
Proof.
  cases_of_POST r req g; unfold trace; simpl; eauto.
  - right. right. left. by exists b.
  - resolve_verify. do 3 right. left. by exists b.
  - resolve_verify. do 3 right. left. by exists b.
  - assert (Verified r req g) by by exists b, reqs, g1, l1.
    resolve_verify. resolve_generate. do 4 right.
    exists b, (to_string (componentType b)), n, []. rewrite app_nil_r. eauto.
  - assert (Verified r req g) by by exists b, reqs, g1, l1.
    resolve_verify. resolve_generate. do 4 right.
    exists b, (to_string (componentType b)), n,
      [SettlePayment (non_null (extractPayment x402 (headers req)))].
    split; [done|]. by split; [eauto|].
  - assert (Verified r req g) by by exists b, reqs, g1, l1.
    resolve_verify. resolve_generate. do 4 right.
    exists b, (to_string (componentType b)), n,
      (if truthy_string (extractPayment x402 (headers req))
       then [SettlePayment (non_null (extractPayment x402 (headers req)))]
       else []).
    split; [done|]. by split; [destruct (truthy_string _); eauto|].
Qed.

Lemma POST_linear r req g : StronglySorted precedes (trace (POST r req g)).
Proof.
  destruct (POST_trace r req g)
    as [->|[[b ->]|[(b & _ & ->)|[(b & _ & ->)|(b & k & n & tail & _ & Htail & ->)]]]].
  - repeat (apply linear_cons; [earlier|]). constructor.
  - rewrite <- (app_nil_r (preamble r b)). apply linear_preamble; [earlier|constructor].
  - apply linear_preamble; [earlier | repeat constructor].
  - apply linear_preamble; [|repeat constructor].
    intros c [->|[]%elem_of_nil]%elem_of_cons. rewrite phase_verification_call. lia.
  - apply linear_preamble;
      [|apply linear_tail; [apply phase_verification_call|done]].
    pose proof (phase_verification_call req).
    destruct Htail as [->|[h ->]]; earlier.
Qed.

Lemma POST_one_verification r req g :
  filter is_verification (trace (POST r req g)) = []
  ∨ (unpaid req = false ∧
     filter is_verification (trace (POST r req g)) = [verification_call req]).
Proof.
  pose proof (is_verification_call req) as Hvc.
  destruct (POST_trace r req g)
    as [->|[[b ->]|[(b & _ & ->)|[(b & Hu & ->)|(b & k & n & tail & Hv & Htail & ->)]]]];
    [by left| left | left | |].
  - by rewrite <- (app_nil_r (preamble r b)), filter_verification_preamble.
  - by rewrite filter_verification_preamble.
  - right. split; [done|].
    rewrite filter_verification_preamble. by rewrite filter_cons_True by by rewrite Hvc.
  - right. destruct Hv as (? & ? & ? & ? & ? & ? & Hu & ?). split; [done|].
    rewrite filter_verification_preamble.
    rewrite filter_cons_True by by rewrite Hvc.
    rewrite filter_cons_False by by intros ?.
    by rewrite filter_verification_draws.
Qed.

Lemma POST_generate_verified r req g k :
  Generate k ∈ trace (POST r req g) → Verified r req g.
Proof.
  destruct (POST_trace r req g)
    as [->|[[b ->]|[(b & _ & ->)|[(b & Hu & ->)|(b & k' & n & tail & Hv & Htail & ->)]]]];
    [| | | |done]; intros Hk; exfalso; revert Hk; unfold RoutesSpec.preamble; simpl.
  1-3: absent.
  unfold RoutesSpec.verification_call. destruct (truthy_string _); absent.
Qed.

Lemma POST_generate_one_path r req g k :
  Generate k ∈ trace (POST r req g) →
  filter is_verification (trace (POST r req g)) = [verification_call req].
Proof.
  pose proof (is_verification_call req) as Hvc.
  destruct (POST_trace r req g)
    as [->|[[b ->]|[(b & _ & ->)|[(b & Hu & ->)|(b & k' & n & tail & Hv & Htail & ->)]]]].
  1-4: intros Hk; exfalso; revert Hk; unfold RoutesSpec.preamble; simpl.
  1-3: absent.
  - unfold RoutesSpec.verification_call. destruct (truthy_string _); absent.
  - intros _. rewrite filter_verification_preamble.
    rewrite filter_cons_True by by rewrite Hvc.
    rewrite filter_cons_False by by intros ?.
    by rewrite filter_verification_draws.
Qed.

Lemma POST_ui_verified r req g resp k u :
  outcome (POST r req g) = Ok resp → body resp !! k = Some (VUI u) → Verified r req g.
Proof.
  cases_of_POST r req g; unfold outcome; simpl; intros ? Hui; simplify_eq.
  1-3,5,7-8: by apply error_body_no_ui in Hui.
  - by apply clientResponse_no_ui in Hui.
  - by apply error_body_no_ui in Hui.
  - by exists b, reqs, g1, l1.
Qed.

(** A verified request whose template is generated and, if it came with
    the standard header, settled. *)
Lemma POST_served r req g b reqs g1 l1 ui g2 l2 :
  Routes.json_body req = Ok (Some b) →
  createPaymentRequirements x402 (routeConfig env r (componentType b)) = Ok reqs →
  unpaid req = false →
  verify r req reqs g = (Ok true, g1, l1) →
  generate r (componentType b) (config b) g1 = (Ok ui, g2, l2) →
  (truthy_string (extractPayment x402 (headers req)) = true →
   settlePayment x402 (non_null (extractPayment x402 (headers req))) reqs = Ok tt) →
  POST r req g
    = (Ok (rendered r ui), g2,
       preamble r b ++ l1 ++ l2
         ++ (if truthy_string (extractPayment x402 (headers req))
             then [SettlePayment (non_null (extractPayment x402 (headers req)))]
             else [])).
Proof.
  intros Hbody Hreqs Hunpaid Hverify Hgenerate Hsettle. run_POST.
  rewrite Hbody. simpl. rewrite Hreqs. simpl.
  fold (unpaid req). rewrite Hunpaid, Hverify. simpl. rewrite Hgenerate. simpl.
  destruct (truthy_string (extractPayment x402 (headers req))) eqn:Hheader; simpl.
  - rewrite Hsettle by done. unfold RoutesSpec.preamble. tidy. done.
  - unfold RoutesSpec.preamble. tidy. done.
Qed.

(** Only the standard path lets an error out of the verification. *)
Lemma verify_throws r req reqs g e g1 l1 :
  unpaid req = false →
  verify r req reqs g = (Throw e, g1, l1) →
  truthy_string (extractPayment x402 (headers req)) = true ∧
  verifyPayment x402 (non_null (extractPayment x402 (headers req))) reqs = Throw e ∧
  g1 = g ∧ l1 = [verification_call req].
Proof.
  intros Hunpaid Hverify.
  destruct (truthy_string (extractPayment x402 (headers req))) eqn:Hheader.
  - rewrite verify_standard in Hverify by done.
    unfold RoutesSpec.verification_call. rewrite Hheader.
    destruct (verifyPayment x402 _ reqs); by simplify_eq.
  - apply unpaid_false in Hunpaid as [Hunpaid|Hcustom]; [congruence|].
    rewrite verify_custom in Hverify by done.
    destruct (verifyCustomPayment_run r
                (headers_get (headers req) "X-Payment-Signature")
                (headers_get (headers req) "X-Payment-PublicKey") g)
      as (ok & Hrun & _).
    rewrite Hrun in Hverify. by simplify_eq.
Qed.

Lemma verify_without_header_answers r req reqs g :
  truthy_string (extractPayment x402 (headers req)) = false →
  ∃ verified, outcome (verify r req reqs g) = Ok verified.
Proof.
  intros Hheader. destruct (hasCustomPayment req) eqn:Hcustom.
  - rewrite verify_custom by done.
    destruct (verifyCustomPayment_run r
                (headers_get (headers req) "X-Payment-Signature")
                (headers_get (headers req) "X-Payment-PublicKey") g)
      as (ok & -> & _). by exists ok.
  - unfold Routes.verify. rewrite Hheader, Hcustom. by exists false.
Qed.

(** Each component type with a template of its own gets that template. *)
Lemma generate_template r ct t cfg g :
  (ct, t) ∈ templates r →
  (or_number (cfg ≫= itemCount) (default_item_count r) ≤ max_array_length)%Z →
  ∃ u g2 l2,
    generate r (Some ct) cfg g = (Ok (Obj u), g2, l2) ∧ type_of u = t.
Proof.
  intros Hct Hcount. unfold Routes.generate, bind, emit. simpl.
  destruct r; simpl in Hct, Hcount.
  - unfold await, generateUI, Array_from. rewrite bool_decide_eq_true_2 by done.
    repeat (apply elem_of_cons in Hct as [[= -> ->]|Hct]; [by eexists _, _, _|]).
    by apply elem_of_nil in Hct.
  - unfold generatePremiumUI, Array_from_M.
    rewrite bool_decide_eq_true_2 by done. unfold bind at 1.
    destruct (for_each_premium_item
                (seq 0 (Z.to_nat (or_number (cfg ≫= itemCount) 12))) g)
      as (grid_items & g1 & ->).
    rewrite bool_decide_eq_true_2 by (unfold max_array_length; lia).
    unfold bind at 1.
    destruct (for_each_table_row (seq 0 (Z.to_nat 20)) g1) as (table & g2 & ->).
    unfold ret. simpl.
    repeat (apply elem_of_cons in Hct as [[= -> ->]|Hct]; [by eexists _, _, _|]).
    by apply elem_of_nil in Hct.
Qed.


Lemma verify_any_state r req reqs g ρ g1 l1 :
  verify r req reqs g = (ρ, g1, l1) →
  g1 = g ∧ ∀ g', verify r req reqs g' = (ρ, g', l1).
Proof.
  intros Hv. destruct (verify_stateless r req reqs) as (ρ' & l' & Hall).
  rewrite Hall in Hv. simplify_eq. split; [done|]. intros g'. apply Hall.
Qed.

Lemma POST_RenderUI_stateless req : stateless (POST RenderUI req).
Proof.
  unfold Routes.POST, POST_try.
  repeat first
    [ apply verify_stateless | apply generate_RenderUI_stateless
    | apply stateless_ret | apply stateless_throw | apply stateless_emit
    | apply stateless_await
    | apply stateless_bind; [ | intros ? ]
    | apply stateless_try_catch; [ | intros ? ]
    | progress cbv zeta
    | case_match ].
Qed.

(** An execution that generates no template leaves the generator alone
    and does not depend on it. *)
Lemma POST_without_generation r req g :
  (∀ k, Generate k ∉ trace (POST r req g)) →
  final (POST r req g) = g ∧
  ∀ g', POST r req g' = (outcome (POST r req g), g', trace (POST r req g)).
Proof.
  cases_of_POST r req g; unfold outcome, final, trace; simpl; intros Hgen.
  - split; [done|]. intros g'. by apply (POST_body_unreadable r req g' e).
  - split; [done|]. intros g'. by apply POST_body_null.
  - split; [done|]. intros g'. by apply (POST_no_requirements r req g' b e).
  - split; [done|]. intros g'. by apply POST_unpaid.
  - apply verify_any_state in Hv as [-> Hv]. split; [done|]. intros g'.
    by apply (POST_verify_throws r req g' b reqs e).
  - apply verify_any_state in Hv as [-> Hv]. split; [done|]. intros g'.
    by apply (POST_rejected r req g' b reqs).
  - exfalso. resolve_generate. apply (Hgen (to_string (componentType b))). absent.
  - exfalso. resolve_generate. apply (Hgen (to_string (componentType b))). absent.
  - exfalso. resolve_generate. apply (Hgen (to_string (componentType b))). absent.
Qed.

(** C7 (amended).  The render-ui handler retains no state: from any
    state of the process it gives the same response and makes the same
    calls, and leaves the state as it found it, so its response to a
    request is the same whether or not any other request, to either
    route, was processed before.  The premium-ui handler has no state of
    its own either, but its template generation draws from
    [Math.random]: an execution of it that generates no template (the
    request is unpaid or not verified, or fails before) leaves the
    generator as it found it and does not depend on it. *)
Theorem state_between_requests req :
  stateless (POST RenderUI req) ∧
  (∀ g, final (POST RenderUI req g) = g) ∧
  (∀ r' req' g,
     outcome (POST RenderUI req (final (POST r' req' g)))
       = outcome (POST RenderUI req g)) ∧
  (∀ g, (∀ k, Generate k ∉ trace (POST PremiumUI req g)) →
        final (POST PremiumUI req g) = g ∧
        ∀ g', POST PremiumUI req g'
              = (outcome (POST PremiumUI req g), g', trace (POST PremiumUI req g))).
Proof.
  pose proof (POST_RenderUI_stateless req) as Hrender.
  split; [done|]. split; [|split].
  - intros g. by apply stateless_final.
  - intros r' req' g.
    by rewrite (stateless_run (POST RenderUI req) g (final (POST r' req' g))).
  - intros g. apply POST_without_generation.
Qed.

End Facts.
End RoutesFacts.

(** ** The template generators *)

Module GeneratorFacts.

Lemma uiTemplates_other cfg grid_items ct :
  ct ∉ ["grid"; "card"; "dashboard"] → uiTemplates cfg grid_items !! ct = None.
Proof.
  intros Hct. unfold uiTemplates.
  rewrite !lookup_insert_ne, lookup_empty; [done|..];
    intros <-; apply Hct; repeat constructor.
Qed.

Lemma premiumTemplates_other cfg grid_items table ct :
  ct ∉ ["advanced-grid"; "data-table"; "analytics"] →
  premiumTemplates cfg grid_items table !! ct = None.
Proof.
  intros Hct. unfold premiumTemplates.
  rewrite !lookup_insert_ne, lookup_empty; [done|..];
    intros <-; apply Hct; repeat constructor.
Qed.

(** Where the default does apply: a component type that names neither
    a template nor a member of [Object.prototype] gets the grid
    template (provided the item count is one an array can have). *)
Lemma generateUI_default ct cfg :
  ct ∉ ["grid"; "card"; "dashboard"] →
  ct ∉ Object_prototype_keys →
  (or_number (cfg ≫= itemCount) 6 ≤ max_array_length)%Z →
  ∃ grid_items,
    generateUI ct cfg = Ok (Obj (grid_template cfg grid_items)) ∧
    type_of (grid_template cfg grid_items) = "grid".
Proof.
  intros Hct Hproto Hlen. unfold generateUI, Array_from.
  rewrite bool_decide_eq_true_2 by done.
  eexists. split; [|done].
  by rewrite get_or_fallback by by try apply uiTemplates_other.
Qed.

(** The item count is part of the input too: a count above 2^32 - 1
    makes the generator throw, whatever the component type. *)
Lemma generateUI_too_long ct cfg :
  (max_array_length < or_number (cfg ≫= itemCount) 6)%Z →
  generateUI ct cfg = Throw (Thrown "Invalid array length").
Proof.
  intros Hlen. unfold generateUI, Array_from.
  by rewrite bool_decide_eq_false_2 by lia.
Qed.

Lemma generatePremiumUI_default math ct cfg g :
  ct ∉ ["advanced-grid"; "data-table"; "analytics"] →
  ct ∉ Object_prototype_keys →
  (or_number (cfg ≫= itemCount) 12 ≤ max_array_length)%Z →
  ∃ grid_items,
    outcome (generatePremiumUI math ct cfg g)
      = Ok (Obj (advanced_grid_template cfg grid_items)) ∧
    type_of (advanced_grid_template cfg grid_items) = "advanced-grid".
Proof.
  intros Hct Hproto Hlen. unfold generatePremiumUI, Array_from_M.
  rewrite bool_decide_eq_true_2 by done. unfold bind at 1.
  destruct (RoutesFacts.for_each_premium_item math
              (seq 0 (Z.to_nat (or_number (cfg ≫= itemCount) 12))) g)
    as (grid_items & g1 & ->).
  rewrite bool_decide_eq_true_2 by (unfold max_array_length; lia).
  unfold bind at 1.
  destruct (RoutesFacts.for_each_table_row math (seq 0 (Z.to_nat 20)) g1)
    as (table & g2 & ->).
  exists grid_items. split; [|done]. unfold ret, outcome. simpl.
  by rewrite get_or_fallback by by try apply premiumTemplates_other.
Qed.

(** C9 (the code departs from it).  Asked for the component type
    ["constructor"], a string outside both template sets, neither
    generator returns its default template: [generateUI] and
    [generatePremiumUI] return what the template object inherits from
    [Object.prototype] under that name. *)
Theorem generators_return_inherited_member :
  generateUI "constructor" None = Ok (Builtin "constructor") ∧
  generateUI "constructor" None
    ≠ Ok (Obj (grid_template None (grid_item <$> seq 0 6))) ∧
  outcome (generatePremiumUI Scenario.counter_random "constructor" None 0%nat)
    = Ok (Builtin "constructor") ∧
  outcome (generatePremiumUI Scenario.counter_random "__proto__" None 0%nat)
    = Ok (Builtin "__proto__").
Proof. by vm_compute. Qed.

End GeneratorFacts.

(** ** The verification endpoint *)

Module VerifyPaymentFacts.

Import VerifyPayment.

Section Facts.
Context {S : Type} (env : ProcessEnv) (web3 : Web3) (now : Z).

Local Abbreviation POST := (VerifyPayment.POST (S := S) env web3 now).

(** [verifyPaymentTransaction] makes one lookup, never throws, and says
    yes exactly when the transaction is found with metadata and without
    an error: neither expectation takes part. *)
Lemma verifyPaymentTransaction_run sig amount recipient (s : S) :
  verifyPaymentTransaction web3 sig amount recipient s =
    (Ok (match getTransaction web3 sig with
         | Ok (Some tx) =>
             match meta tx with
             | Some m => bool_decide (err m = None)
             | None => false
             end
         | _ => false
         end), s, [GetTransaction sig]).
Proof.
  unfold verifyPaymentTransaction, try_catch, bind, emit, await, ret. simpl.
  destruct (getTransaction web3 sig) as [[tx|]|e]; simpl; [|done..].
  destruct (meta tx) as [m|]; simpl; [|done].
  by destruct (err m).
Qed.

(** A body that parsed but lacks one of the three fields. *)
Lemma POST_missing_fields request b s :
  json_body request = Ok (Some b) →
  truthy_string (signature b) = false ∨ truthy_string (publicKey b) = false
    ∨ truthy_string (endpoint b) = false →
  POST request s = (Ok (bad_request "Missing required fields"), s, [ReqJson]).
Proof.
  intros Hbody Hmissing.
  unfold VerifyPayment.POST, try_catch, bind, emit, await, ret. simpl.
  rewrite Hbody. simpl.
  by destruct Hmissing as [-> | [-> | ->]];
    repeat (destruct (truthy_string _); simpl).
Qed.

(** An endpoint that is neither a price key nor a name inherited from
    [Object.prototype]. *)
Lemma POST_invalid_endpoint request b s :
  json_body request = Ok (Some b) →
  truthy_string (signature b) = true →
  truthy_string (publicKey b) = true →
  truthy_string (endpoint b) = true →
  prices (x402Config env) !! non_null (endpoint b) = None →
  non_null (endpoint b) ∉ Object_prototype_keys →
  POST request s = (Ok (bad_request "Invalid endpoint"), s, [ReqJson]).
Proof.
  intros Hbody Hsig Hpk Hendpoint Hprice Hproto.
  unfold VerifyPayment.POST, try_catch, bind, emit, await, ret. simpl.
  rewrite Hbody. simpl. rewrite Hsig, Hpk, Hendpoint. simpl.
  unfold get_property. simpl in Hprice. rewrite Hprice.
  by rewrite bool_decide_eq_false_2.
Qed.

End Facts.

(** C2 (the code departs from it).  The transaction ["sig-elsewhere"]
    succeeded on chain but paid a bystander: the treasury is not among
    its accounts.  [verifyPaymentTransaction], asked whether it pays
    500000 lamports to the treasury, says yes, and the endpoint answers
    [verified: true]. *)
Theorem verifyPaymentTransaction_ignores_expectations :
  let tx := Scenario.transfer Scenario.bystander 500000 in
  getTransaction Scenario.ledger "sig-elsewhere" = Ok (Some tx) ∧
  (∀ amount, ¬ transfers tx Scenario.treasury amount) ∧
  outcome (verifyPaymentTransaction (S := unit) Scenario.ledger "sig-elsewhere"
             (Own 500000%Z) "8MeWTYDip5SWVJf3wkvDKZw9BjSAWMXm5oAeELJ6HFM9" tt)
    = Ok true ∧
  (∃ resp,
     outcome (VerifyPayment.POST (S := unit) Scenario.no_env Scenario.ledger 0
                (Scenario.verify_request "sig-elsewhere" "/api/render-ui") tt) = Ok resp ∧
     status resp = 200%Z ∧
     body resp !! "verified" = Some (VBool true)).
Proof.
  split; [done|]. split; [|split; [by vm_compute|]].
  - intros amount (keys & i & Hkeys & Hi & Hchange).
    simpl in Hkeys. simplify_eq.
    destruct i as [|[|[|i]]]; simpl in Hi; simplify_eq.
  - eexists. split; [by vm_compute|]. split; [done|]. by vm_compute.
Qed.

(** C10 (the code departs from it).  The endpoint ["constructor"] is
    not one of the configured price keys, yet the request is not
    refused with 400 'Invalid endpoint': the price lookup finds the
    member every object inherits under that name, the handler goes on
    to look the transaction up on chain and answers 200. *)
Theorem inherited_endpoint_is_accepted :
  prices (x402Config Scenario.no_env) !! "constructor" = None ∧
  ∃ resp,
    VerifyPayment.POST (S := unit) Scenario.no_env Scenario.ledger 0
      (Scenario.verify_request "sig-full" "constructor") tt
      = (Ok resp, tt, [ReqJson; GetTransaction "sig-full"]) ∧
    status resp = 200%Z ∧
    body resp !! "verified" = Some (VBool true) ∧
    body resp !! "error" = None.
Proof.
  split; [done|]. eexists. split; [by vm_compute|].
  split; [done|]. split; by vm_compute.
Qed.

End VerifyPaymentFacts.

(** ** The client *)

Module ClientFacts.

Import Client.

Section Facts.
Context {W : Type}
        (fetch : string → option RequestInit → W → result Response * W).

Local Abbreviation fetchWithPayment := (Client.fetchWithPayment fetch).

(** The three headers of the retry are the proof's three fields; every
    other header of the original request is kept. *)
Lemma with_payment_headers_get options proof :
  ∃ h, init_headers (with_payment_headers options proof) = Some h ∧
       h !! "X-Payment-Signature" = Some (Types.signature proof) ∧
       h !! "X-Payment-PublicKey" = Some (Types.publicKey proof) ∧
       h !! "X-Payment-Timestamp" = Some (pretty (timestamp proof)) ∧
       (∀ k, k ∉ ["X-Payment-Signature"; "X-Payment-PublicKey"; "X-Payment-Timestamp"] →
             h !! k = default ∅ (options ≫= init_headers) !! k) ∧
       method (with_payment_headers options proof) = options ≫= method ∧
       init_body (with_payment_headers options proof) = options ≫= init_body.
Proof.
  eexists. split; [done|]. repeat split; try by simplify_map_eq.
  intros k Hk.
  rewrite !lookup_insert_ne; [done|..]; intros <-; apply Hk; repeat constructor.
Qed.


End Facts.

End ClientFacts.

(** ** The renderer *)

Module RendererFacts.

Import Renderer.

Lemma renderer_for_shape u : renderer_for (Some (type_of u)) = Some (renderer_of_shape u).
Proof. by destruct u. Qed.

Lemma renderer_for_handled t :
  t ∈ UIData_types → ∃ c, renderer_for (Some t) = Some c.
Proof.
  unfold UIData_types. intros Ht.
  repeat (apply elem_of_cons in Ht as [->|Ht]; [by eexists|]).
  by apply elem_of_nil in Ht.
Qed.

Lemma renderer_for_unhandled t : t ∉ UIData_types → renderer_for (Some t) = None.
Proof.
  unfold UIData_types, renderer_for. intros Ht.
  repeat (case_bool_decide as Heq;
          [ subst; exfalso; apply Ht; repeat constructor | clear Heq ]).
  done.
Qed.

(** C8.  [UIData] has seven shapes, told apart by seven distinct [type]
    literals, and [ComponentType] has seven members.  For a payload
    whose type is one of the seven, [UIRenderer] returns the fragment of
    that type's renderer, applied to the payload, and the signature
    link; for a payload of one of the seven shapes this is the renderer
    written for the shape.  No other type is handled (it gets the
    'Unsupported UI type' element), the seven types get seven different
    renderers, and the seven services the home page offers deliver
    exactly the seven shapes. *)
Theorem seven_shapes_rendered :
  length UIData_types = 7%nat ∧ NoDup UIData_types ∧
  length ComponentType = 7%nat ∧ NoDup ComponentType ∧
  (∀ u, type_of u ∈ UIData_types) ∧
  (∀ uiData signature p t,
     ui uiData = Some p → payload_type p = Some t → t ∈ UIData_types →
     ∃ c, renderer_for (Some t) = Some c ∧
          UIRenderer (Some uiData) signature
            = Fragment [Render c p; SignatureLink signature]) ∧
  (∀ uiData signature u,
     ui uiData = Some (Shaped u) →
     UIRenderer (Some uiData) signature
       = Fragment [Render (renderer_of_shape u) (Shaped u); SignatureLink signature]) ∧
  (∀ uiData signature p t,
     ui uiData = Some p → payload_type p = Some t → t ∉ UIData_types →
     UIRenderer (Some uiData) signature = Div "Unsupported UI type") ∧
  NoDup (renderer_for <$> (Some <$> UIData_types)) ∧
  offered_type <$> services = Some <$> UIData_types ∧
  services.*2 = ComponentType.
Proof.
  split; [done|]. split; [by apply (bool_decide_unpack _); vm_compute|].
  split; [done|]. split; [by apply (bool_decide_unpack _); vm_compute|].
  split; [intros []; unfold UIData_types; simpl; set_solver|].
  split; [|split; [|split; [|split; [|split]]]].
  - intros uiData signature p t Hui Hp Ht.
    destruct (renderer_for_handled t Ht) as [c Hc]. exists c. split; [done|].
    unfold UIRenderer. by rewrite Hui, Hp, Hc.
  - intros uiData signature u Hui. unfold UIRenderer. rewrite Hui.
    unfold payload_type. by rewrite renderer_for_shape.
  - intros uiData signature p t Hui Hp Ht. unfold UIRenderer.
    by rewrite Hui, Hp, renderer_for_unhandled.
  - by apply (bool_decide_unpack _); vm_compute.
  - by vm_compute.
  - done.
Qed.

End RendererFacts.

(** ** The properties on concrete worlds *)

Module Checks.

Import Scenario RoutesFacts.

Local Abbreviation POST := (Routes.POST counter_random no_env answering_x402 ledger).

(** The unpaid request is answered with the payment terms. *)
Lemma unpaid_request_gets_payment_terms_witness :
  truthy_string (extractPayment answering_x402 (headers unpaid_request)) = false ∧
  hasCustomPayment unpaid_request = false ∧
  Routes.json_body unpaid_request = Ok (Some grid_body) ∧
  createPaymentRequirements answering_x402
    (routeConfig no_env RenderUI (componentType grid_body)) = Ok grid_requirements ∧
  status402 (create402Response answering_x402 grid_requirements) = 402%Z ∧
  ∃ resp,
    POST RenderUI unpaid_request 0%nat
      = (Ok resp, 0%nat,
         preamble no_env RenderUI grid_body ++ [Create402Response]) ∧
    status resp = 402%Z ∧
    body resp !! "paymentRequired" = Some (VBool true) ∧
    body resp !! "price" = Some (VNum 500000).
Proof.
  split; [reflexivity|]. split; [reflexivity|]. split; [reflexivity|].
  split; [reflexivity|]. split; [reflexivity|].
  destruct (unpaid_request_gets_payment_terms counter_random no_env answering_x402
              ledger RenderUI unpaid_request 0%nat grid_body grid_requirements)
    as (resp & Hrun & Hstatus & Hrequired & _ & Hprice & _);
    [reflexivity..|].
  exists resp. repeat split; assumption.
Defined.

(** C1, as stated, fails: the handler reads the body and builds the
    payment requirements before it looks at the payment.  A request
    without any payment header whose body is not JSON is answered with
    500, not with the payment terms. *)
Lemma unpaid_garbled_request_gets_500 :
  truthy_string (extractPayment answering_x402 (headers unpaid_garbled_request)) = false ∧
  hasCustomPayment unpaid_garbled_request = false ∧
  ∃ resp,
    POST RenderUI unpaid_garbled_request 0%nat
      = (Ok resp, 0%nat, [ExtractPayment; ReqJson]) ∧
    status resp = 500%Z ∧
    body resp !! "error" = Some (VStr "Internal server error") ∧
    body resp !! "paymentRequired" = None.
Proof.
  split; [reflexivity|]. split; [reflexivity|].
  eexists. split; [reflexivity|]. split; [reflexivity|]. split; by vm_compute.
Qed.

(** So is an unpaid request with a sound body while the facilitator is
    out of reach: the requirements cannot be built. *)
Lemma unpaid_request_without_facilitator_gets_500 :
  ∃ resp,
    outcome (Routes.POST counter_random no_env unreachable_x402 ledger
               PremiumUI unpaid_request 0%nat) = Ok resp ∧
    status resp = 500%Z.
Proof. eexists. split; reflexivity. Qed.



(** Two of the three custom headers: the request is unpaid.  Both forms
    at once: the standard path runs and the triple is not looked at. *)
Lemma payment_proof_forms_witness :
  (truthy_string (extractPayment answering_x402 (headers partial_request)) = false ∧
   hasCustomPayment partial_request = false ∧
   Routes.json_body partial_request = Ok (Some grid_body) ∧
   createPaymentRequirements answering_x402
     (routeConfig no_env RenderUI (componentType grid_body)) = Ok grid_requirements ∧
   POST RenderUI partial_request 0%nat
     = (Ok (payment_required no_env answering_x402 RenderUI grid_requirements), 0%nat,
        preamble no_env RenderUI grid_body ++ [Create402Response])) ∧
  (truthy_string (extractPayment answering_x402 (headers (both_request "paid" "sig-short")))
     = true ∧
   extractPayment answering_x402 (headers (standard_request "paid"))
     = extractPayment answering_x402 (headers (both_request "paid" "sig-short")) ∧
   Routes.json_body (standard_request "paid")
     = Routes.json_body (both_request "paid" "sig-short") ∧
   POST RenderUI (standard_request "paid") 0%nat
     = POST RenderUI (both_request "paid" "sig-short") 0%nat ∧
   GetTransaction "sig-short" ∉ trace (POST RenderUI (both_request "paid" "sig-short") 0%nat)).
Proof.
  split.
  - split; [reflexivity|]. split; [reflexivity|]. split; [reflexivity|].
    split; [reflexivity|].
    destruct (payment_proof_forms counter_random no_env answering_x402 ledger
                RenderUI partial_request 0%nat) as (_ & _ & Hpartial & _).
    destruct (Hpartial grid_body grid_requirements) as [Hrun _]; [reflexivity..|].
    exact Hrun.
  - split; [reflexivity|]. split; [reflexivity|]. split; [reflexivity|].
    destruct (payment_proof_forms counter_random no_env answering_x402 ledger
                RenderUI (both_request "paid" "sig-short") 0%nat)
      as (_ & _ & _ & Hboth).
    destruct Hboth as (_ & Hlookup & Hignored); [reflexivity|].
    split; [apply Hignored; reflexivity | apply Hlookup].
Defined.

(** C4, as stated, fails in one respect: a request with two of the
    three custom headers and no standard header does not get status 402
    when its body is the JSON text [null]; it gets 500, before the
    payment is looked at. *)
Lemma partial_triple_null_body_gets_500 :
  headers_get (headers partial_null_request) "X-Payment-Signature" = Some "sig-full" ∧
  headers_get (headers partial_null_request) "X-Payment-PublicKey" = Some payer_address ∧
  headers_get (headers partial_null_request) "X-Payment-Timestamp" = None ∧
  extractPayment answering_x402 (headers partial_null_request) = None ∧
  ∃ resp,
    POST RenderUI partial_null_request 0%nat
      = (Ok resp, 0%nat, [ExtractPayment; ReqJson]) ∧
    status resp = 500%Z.
Proof.
  split; [reflexivity|]. split; [reflexivity|]. split; [reflexivity|].
  split; [reflexivity|]. eexists. split; reflexivity.
Qed.



(** The render handler after a premium request, and the premium handler
    on an unpaid request. *)
Lemma state_between_requests_witness :
  let paid := custom_request "sig-full" payer_address "data-table" in
  outcome (POST RenderUI unpaid_request (final (POST PremiumUI paid 0%nat)))
    = outcome (POST RenderUI unpaid_request 0%nat) ∧
  (∀ k, Generate k ∉ trace (POST PremiumUI unpaid_request 0%nat)) ∧
  POST PremiumUI unpaid_request 52%nat
    = (outcome (POST PremiumUI unpaid_request 0%nat), 52%nat,
       trace (POST PremiumUI unpaid_request 0%nat)).
Proof.
  intros paid.
  destruct (state_between_requests counter_random no_env answering_x402 ledger
              unpaid_request) as (_ & _ & Hrender & Hpremium).
  assert (∀ k, Generate k ∉ trace (POST PremiumUI unpaid_request 0%nat)) as Hnone.
  { intros k.
    assert (trace (POST PremiumUI unpaid_request 0%nat)
              = [ ExtractPayment; ReqJson;
                  CreatePaymentRequirements "Premium UI Component Render - grid";
                  Create402Response ]) as -> by reflexivity.
    absent. }
  split; [apply (Hrender PremiumUI paid 0%nat)|]. split; [exact Hnone|].
  apply (Hpremium 0%nat Hnone).
Defined.

(** C7, as stated, fails for the premium route: the response to a
    verified request for the data table differs according to whether
    another verified request was processed before it, although the
    request and the answers of RPC node and facilitator are the same.
    The first request moved the generator on by 52 draws. *)
Lemma premium_response_depends_on_history :
  let req := custom_request "sig-full" payer_address "data-table" in
  let before := POST PremiumUI req 0%nat in
  final before = 52%nat ∧
  first_row_value (outcome (POST PremiumUI req 0%nat)) = Some 2000%Z ∧
  first_row_value (outcome (POST PremiumUI req (final before))) = Some 4000%Z ∧
  outcome (POST PremiumUI req (final before)) ≠ outcome (POST PremiumUI req 0%nat).
Proof.
  intros req before.
  split; [by vm_compute|]. split; [by vm_compute|]. split; [by vm_compute|].
  intros Hsame. apply (f_equal first_row_value) in Hsame.
  vm_compute in Hsame. discriminate Hsame.
Qed.


(** A grid payload is rendered by the grid renderer; a payload of an
    unknown type is not rendered. *)
Lemma seven_shapes_rendered_witness :
  let grid := GridUI {| layout_columns := 3; layout_gap := 4; items := [] |} in
  let uiData := {| Renderer.success := true; Renderer.ui := Some (Renderer.Shaped grid);
                   Renderer.tier := None; Renderer.message := "UI rendered successfully" |} in
  let odd := {| Renderer.success := true;
                Renderer.ui := Some (Renderer.Other (Some "analytics"));
                Renderer.tier := None; Renderer.message := "" |} in
  Renderer.ui uiData = Some (Renderer.Shaped grid) ∧
  Renderer.UIRenderer (Some uiData) (Some "sig-full")
    = Renderer.Fragment [ Renderer.Render Renderer.GridRenderer (Renderer.Shaped grid);
                          Renderer.SignatureLink (Some "sig-full") ] ∧
  ("analytics" ∉ UIData_types) ∧
  Renderer.UIRenderer (Some odd) None = Renderer.Div "Unsupported UI type".
Proof.
  intros grid uiData odd.
  destruct RendererFacts.seven_shapes_rendered
    as (_ & _ & _ & _ & _ & _ & Hshape & Hother & _).
  assert ("analytics" ∉ UIData_types) as Hodd.
  { unfold UIData_types. absent. }
  split; [reflexivity|].
  split; [apply (Hshape uiData (Some "sig-full") grid); reflexivity|].
  split; [exact Hodd|].
  apply (Hother odd None (Renderer.Other (Some "analytics")) "analytics");
    [reflexivity | reflexivity | exact Hodd].
Defined.

End Checks.

(** ** More about the two routes *)

Module RoutesMore.

Import RoutesFacts.

Section Facts.
Context (math : MathRandom) (env : ProcessEnv)
        (x402 : X402PaymentHandler) (web3 : Web3).

Local Abbreviation POST := (Routes.POST math env x402 web3).
Local Abbreviation verify := (Routes.verify math env x402 web3).
Local Abbreviation generate := (Routes.generate math).
Local Abbreviation unpaid := (RoutesSpec.unpaid x402).
Local Abbreviation preamble := (RoutesSpec.preamble env).
Local Abbreviation Verified := (RoutesSpec.Verified math env x402 web3).
Local Abbreviation CustomPaymentAccepted := (RoutesSpec.CustomPaymentAccepted env web3).

Ltac executions r req g :=
  destruct (POST_execution math env x402 web3 r req g) as
    [ e Hbody | Hbody | b e Hbody Hreqs | b reqs Hbody Hreqs Hunpaid
    | b reqs e g1 l1 Hbody Hreqs Hunpaid Hv
    | b reqs g1 l1 Hbody Hreqs Hunpaid Hv
    | b reqs g1 l1 e g2 l2 Hbody Hreqs Hunpaid Hv Hg
    | b reqs g1 l1 ui g2 l2 e Hbody Hreqs Hunpaid Hv Hg Hh Hs
    | b reqs g1 l1 ui g2 l2 Hbody Hreqs Hunpaid Hv Hg Hs ].

Ltac known_verify :=
  match goal with
  | Hu : RoutesSpec.unpaid _ ?req = false,
    Hv : Routes.verify _ _ _ _ ?r ?req ?reqs ?g0 = _ |- _ =>
      let Hpath := fresh "Hpath" in
      let Hcall := fresh "Hcall" in
      let c := fresh "c" in
      destruct (verify_one_path math env x402 web3 r req reqs g0 Hu)
        as (? & c & Hpath & Hcall);
      rewrite Hpath in Hv; simplify_eq
  end.

Ltac known_generate :=
  match goal with
  | Hg : Routes.generate _ ?r ?ct ?cfg ?g0 = _ |- _ =>
      let n := fresh "n" in
      let Hgen := fresh "Hgen" in
      let Hrender := fresh "Hrender" in
      destruct (generate_run math r ct cfg g0) as (? & ? & n & Hgen & Hrender);
      rewrite Hgen in Hg; simplify_eq
  end.

(** *** Settlement *)

(** X1.  A settlement call is made only for the standard payment header,
    with that header, on a request that was verified and whose template
    was generated: it is the last call of the execution, made once the
    generator has returned the template, and its outcome decides the
    answer, the template with status 200 if it returns and 500 if it
    throws.  A request verified through the custom triple is never
    settled.  A response with a UI payload to a request with a standard
    header is sent only after the settlement call returned. *)
Theorem settlement_discipline r req g :
  (∀ h, SettlePayment h ∈ trace (POST r req g) →
        truthy_string (extractPayment x402 (headers req)) = true ∧
        h = non_null (extractPayment x402 (headers req)) ∧
        ∃ b reqs g1 l1 ui g2 l2,
          Routes.json_body req = Ok (Some b) ∧
          createPaymentRequirements x402 (routeConfig env r (componentType b))
            = Ok reqs ∧
          verify r req reqs g = (Ok true, g1, l1) ∧
          generate r (componentType b) (config b) g1 = (Ok ui, g2, l2) ∧
          trace (POST r req g) = preamble r b ++ l1 ++ l2 ++ [SettlePayment h] ∧
          (∀ h', SettlePayment h' ∉ preamble r b ++ l1 ++ l2) ∧
          final (POST r req g) = g2 ∧
          outcome (POST r req g)
            = match settlePayment x402 h reqs with
              | Ok _ => Ok (rendered r ui)
              | Throw _ => Ok internal_error
              end) ∧
  (truthy_string (extractPayment x402 (headers req)) = false →
   ∀ h, SettlePayment h ∉ trace (POST r req g)) ∧
  (∀ resp k u,
     outcome (POST r req g) = Ok resp → body resp !! k = Some (VUI u) →
     truthy_string (extractPayment x402 (headers req)) = true →
     ∃ b reqs l,
       Routes.json_body req = Ok (Some b) ∧
       createPaymentRequirements x402 (routeConfig env r (componentType b))
         = Ok reqs ∧
       settlePayment x402 (non_null (extractPayment x402 (headers req))) reqs
         = Ok tt ∧
       trace (POST r req g)
         = l ++ [SettlePayment (non_null (extractPayment x402 (headers req)))] ∧
       ∀ h, SettlePayment h ∉ l).
Proof.
  assert (∀ b l1 l2 c n,
            l1 = [c] → RoutesSpec.is_verification c = true →
            l2 = Generate (to_string (componentType b)) :: replicate n Random →
            ∀ h', SettlePayment h' ∉ preamble r b ++ l1 ++ l2) as Hquiet.
  { intros b l1 l2 c n -> Hc -> h'. unfold RoutesSpec.preamble. simpl.
    destruct c; try done; absent. }
  assert (∀ h, SettlePayment h ∈ trace (POST r req g) →
               truthy_string (extractPayment x402 (headers req)) = true ∧
               h = non_null (extractPayment x402 (headers req)) ∧
               ∃ b reqs g1 l1 ui g2 l2,
                 Routes.json_body req = Ok (Some b) ∧
                 createPaymentRequirements x402 (routeConfig env r (componentType b))
                   = Ok reqs ∧
                 verify r req reqs g = (Ok true, g1, l1) ∧
                 generate r (componentType b) (config b) g1 = (Ok ui, g2, l2) ∧
                 trace (POST r req g) = preamble r b ++ l1 ++ l2 ++ [SettlePayment h] ∧
                 (∀ h', SettlePayment h' ∉ preamble r b ++ l1 ++ l2) ∧
                 final (POST r req g) = g2 ∧
                 outcome (POST r req g)
                   = match settlePayment x402 h reqs with
                     | Ok _ => Ok (rendered r ui)
                     | Throw _ => Ok internal_error
                     end) as Hfirst.
  { intros h.
    executions r req g; unfold trace, final, outcome, RoutesSpec.preamble; simpl;
      try (intros Hin; exfalso; revert Hin; absent).
    - known_verify. intros Hin; exfalso; revert Hin.
      destruct (truthy_string _); absent.
    - known_verify. intros Hin; exfalso; revert Hin.
      destruct (truthy_string _); absent.
    - known_verify. known_generate. intros Hin; exfalso; revert Hin.
      destruct (truthy_string _); absent.
    - known_verify. known_generate. rewrite Hh. intros Hin.
      assert (h = non_null (extractPayment x402 (headers req))) as ->.
      { revert Hin.
        repeat first [ rewrite elem_of_app | rewrite elem_of_cons
                     | rewrite elem_of_replicate | rewrite elem_of_nil ].
        intuition congruence. }
      split; [done|]. split; [done|].
      eexists b, reqs, _, _, ui, _, _.
      split; [done|]. split; [done|]. split; [eassumption|]. split; [eassumption|].
      split; [by rewrite Hh|].
      split; [eapply (Hquiet b); [done| |done]; by rewrite Hh|].
      split; [done|]. by rewrite Hs.
    - known_verify. known_generate.
      destruct (truthy_string (extractPayment x402 (headers req))) eqn:Hheader.
      + intros Hin.
        assert (h = non_null (extractPayment x402 (headers req))) as ->.
        { revert Hin.
          repeat first [ rewrite elem_of_app | rewrite elem_of_cons
                       | rewrite elem_of_replicate | rewrite elem_of_nil ].
          intuition congruence. }
        split; [done|]. split; [done|].
        eexists b, reqs, _, _, ui, _, _.
        split; [done|]. split; [done|]. split; [eassumption|]. split; [eassumption|].
        split; [by rewrite ?Hheader|].
        split; [eapply (Hquiet b); [done| |done]; by rewrite ?Hheader|].
        split; [done|]. by rewrite Hs.
      + intros Hin; exfalso; revert Hin. absent. }
  split; [exact Hfirst|]. split.
  - intros Hheader h Hin. apply Hfirst in Hin as [Htrue _]. congruence.
  - intros resp k u.
    executions r req g; unfold outcome, trace; simpl; intros ? Hui Hheader;
      simplify_eq.
    1-3,5,7-8: by apply error_body_no_ui in Hui.
    + by apply clientResponse_no_ui in Hui.
    + by apply error_body_no_ui in Hui.
    + known_verify. known_generate. rewrite Hheader.
      eexists b, reqs, (RoutesSpec.preamble env r b ++ _ :: _ :: replicate _ Random).
      split; [done|]. split; [done|]. split; [by apply Hs|].
      split.
      * rewrite <- !app_assoc. simpl. reflexivity.
      * intros h. unfold RoutesSpec.preamble. simpl. absent.
Qed.

(** *** A custom proof is not bound to its request *)

(** X2.  Whether a custom triple verifies depends on the transaction it
    names and on nothing else in the request: not on the route (both
    cost the same), not on the timestamp, not on the body, and on the
    public key only in that it must parse.  So a transaction that paid
    for one request verifies for any other request, to either route,
    from any state. *)
Theorem custom_proof_is_not_bound r r' req req' reqs reqs' g g' :
  truthy_string (extractPayment x402 (headers req)) = false →
  truthy_string (extractPayment x402 (headers req')) = false →
  hasCustomPayment req = true →
  hasCustomPayment req' = true →
  headers_get (headers req) "X-Payment-Signature"
    = headers_get (headers req') "X-Payment-Signature" →
  is_ok (new_PublicKey web3 (non_null (headers_get (headers req) "X-Payment-PublicKey")))
    = true →
  is_ok (new_PublicKey web3 (non_null (headers_get (headers req') "X-Payment-PublicKey")))
    = true →
  outcome (verify r req reqs g) = outcome (verify r' req' reqs' g').
Proof.
  intros Hheader Hheader' Hcustom Hcustom' Hsig Hpk Hpk'.
  rewrite !verify_custom by done. rewrite <- Hsig.
  destruct (verifyCustomPayment_run math env web3 r
              (headers_get (headers req) "X-Payment-Signature")
              (headers_get (headers req) "X-Payment-PublicKey") g)
    as (ok & -> & Hok).
  destruct (verifyCustomPayment_run math env web3 r'
              (headers_get (headers req) "X-Payment-Signature")
              (headers_get (headers req') "X-Payment-PublicKey") g')
    as (ok' & -> & Hok').
  unfold outcome. simpl. f_equal.
  assert (∀ ra rb pa pb,
            is_ok (new_PublicKey web3 (non_null pb)) = true →
            CustomPaymentAccepted ra (headers_get (headers req) "X-Payment-Signature") pa →
            CustomPaymentAccepted rb (headers_get (headers req) "X-Payment-Signature") pb)
    as Hmove.
  { intros ra rb pa pb Hparse
      (tx & m & sender & recipient & keys & i & post & pre & H).
    destruct H as (? & ? & ? & ? & ? & ? & ? & ? & ? & ? & Hamount).
    destruct (new_PublicKey web3 (non_null pb)) as [sender'|] eqn:Hsender'; [|done].
    exists tx, m, sender', recipient, keys, i, post, pre.
    rewrite expectedPrice_value in *. by repeat split. }
  destruct ok, ok'; try done.
  - assert (false = true) as Hno; [|done].
    apply Hok', (Hmove r r' (headers_get (headers req) "X-Payment-PublicKey")); [done|].
    by apply Hok.
  - assert (false = true) as Hno; [|done].
    apply Hok, (Hmove r' r (headers_get (headers req') "X-Payment-PublicKey")); [done|].
    by apply Hok'.
Qed.

(** *** The item count *)

(** X3.  Both generators build all their templates on every call, the grid
    first.  So an item count above 2^32 - 1 in the config makes a
    verified request fail with 500 whatever component it asks for, be
    it one whose template has no items; nothing is drawn and nothing is
    settled. *)
Theorem oversized_item_count_fails_every_component r req g b reqs cfg n :
  Routes.json_body req = Ok (Some b) →
  createPaymentRequirements x402 (routeConfig env r (componentType b)) = Ok reqs →
  unpaid req = false →
  outcome (verify r req reqs g) = Ok true →
  config b = Some cfg →
  itemCount cfg = Some n →
  (max_array_length < n)%Z →
  POST r req g
    = (Ok internal_error, g,
       preamble r b ++ [verification_call x402 req;
                        Generate (to_string (componentType b))]).
Proof.
  intros Hbody Hreqs Hunpaid Hverify Hcfg Hcount Hn.
  destruct (verify_one_path math env x402 web3 r req reqs g Hunpaid)
    as (ρ & c & Hpath & Hcall).
  rewrite Hpath in Hverify. unfold outcome in Hverify. simpl in Hverify. subst ρ.
  assert (generate r (componentType b) (config b) g
            = (Throw (Thrown "Invalid array length"), g,
               [Generate (to_string (componentType b))])) as Hgen.
  { unfold Routes.generate, bind, emit. simpl. rewrite Hcfg. destruct r.
    - unfold await, generateUI, Array_from. simpl. rewrite Hcount. simpl.
      rewrite (bool_decide_eq_true_2 (n ≠ 0%Z)) by (unfold max_array_length in *; lia).
      by rewrite bool_decide_eq_false_2 by lia.
    - unfold generatePremiumUI, Array_from_M, bind, throw. simpl.
      rewrite Hcount. simpl.
      rewrite (bool_decide_eq_true_2 (n ≠ 0%Z)) by (unfold max_array_length in *; lia).
      by rewrite bool_decide_eq_false_2 by lia. }
  unfold Routes.POST, POST_try, try_catch, bind, emit, await, ret, throw. simpl.
  rewrite Hbody. simpl. rewrite Hreqs. simpl.
  fold (unpaid req). rewrite Hunpaid. simpl. rewrite Hpath. simpl.
  rewrite Hgen. simpl. unfold verification_call. by rewrite <- Hcall.
Qed.

End Facts.

(** X4.  The grid template has as many items as the config asks for, six
    when it asks for none or for zero, and none when it asks for a
    negative number; the items are numbered 1, 2, ... and their colours
    repeat with period six. *)
Theorem grid_items_follow_item_count cfg :
  let n := or_number (cfg ≫= itemCount) 6 in
  (n ≤ max_array_length)%Z →
  ∃ layout,
    generateUI "grid" cfg = Ok (Obj (GridUI layout)) ∧
    length (items layout) = Z.to_nat n ∧
    id <$> items layout = (λ k, Z.of_nat k + 1)%Z <$> seq 0 (Z.to_nat n) ∧
    NoDup (id <$> items layout) ∧
    (∀ k x y, items layout !! k = Some x → items layout !! (k + 6)%nat = Some y →
              color x = color y) ∧
    ((cfg ≫= itemCount = None ∨ cfg ≫= itemCount = Some 0%Z) →
     length (items layout) = 6%nat) ∧
    ((n < 0)%Z → items layout = []).
Proof.
  intros n Hn. unfold generateUI, Array_from. fold n.
  rewrite bool_decide_eq_true_2 by done.
  eexists. split.
  { unfold get_or, get_property, uiTemplates.
    rewrite lookup_insert_ne, lookup_insert_ne, lookup_insert_eq by done.
    reflexivity. }
  simpl.
  assert (id <$> (grid_item <$> seq 0 (Z.to_nat n))
            = (λ k, Z.of_nat k + 1)%Z <$> seq 0 (Z.to_nat n)) as Hids.
  { by rewrite <- list_fmap_compose. }
  split; [by rewrite length_fmap, length_seq|]. split; [done|]. split.
  { rewrite Hids. apply NoDup_fmap_2; [|apply NoDup_seq].
    intros x y Hxy. lia. }
  split; [|split].
  - intros k x y. rewrite !list_lookup_fmap.
    intros Hx Hy.
    destruct (seq 0 (Z.to_nat n) !! k) as [i|] eqn:Hi; [|done].
    destruct (seq 0 (Z.to_nat n) !! (k + 6)%nat) as [j|] eqn:Hj; [|done].
    apply lookup_seq in Hi as [-> _]. apply lookup_seq in Hj as [-> _].
    simpl in *. simplify_eq. unfold grid_item. simpl. do 3 f_equal.
    replace (Z.of_nat (k + 6) * 60)%Z with (Z.of_nat k * 60 + 1 * 360)%Z by lia.
    by rewrite Z_mod_plus_full.
  - intros Hnone. rewrite length_fmap, length_seq. subst n.
    by destruct Hnone as [-> | ->].
  - intros Hneg. by replace (Z.to_nat n) with 0%nat by lia.
Qed.

(** *** The draws of the premium generator *)

Section Draws.
Context (math : MathRandom).

#[local] Arguments advance : simpl never.

Lemma advance_succ n g :
  advance math (S n) g = advance math n (random math g).2.
Proof. unfold advance. by rewrite Nat.iter_succ_r. Qed.

Lemma advance_add n m g :
  advance math m (advance math n g) = advance math (n + m) g.
Proof. unfold advance. by rewrite Nat.add_comm, Nat.iter_add. Qed.

Lemma for_each_premium_item_state idx g :
  ∃ grid_items,
    for_each math (premium_item math) idx g
      = (Ok grid_items, advance math (length idx) g, replicate (length idx) Random)
    ∧ length grid_items = length idx.
Proof.
  revert g. induction idx as [|i idx IH]; intros g; simpl.
  - by exists [].
  - unfold bind at 1. unfold premium_item at 1, Math_random.
    unfold bind, emit, step, ret. simpl.
    rewrite advance_succ.
    destruct (random math g) as [r g1]. simpl.
    destruct (IH g1) as (grid_items & -> & Hlen). simpl.
    rewrite app_nil_r. eexists. split; [done|]. simpl. by rewrite Hlen.
Qed.

Lemma for_each_table_row_state idx g :
  ∃ table,
    for_each math (table_row math) idx g
      = (Ok table, advance math (length idx + length idx) g,
         replicate (length idx + length idx) Random)
    ∧ row_id <$> table = (λ i, Z.of_nat i + 1)%Z <$> idx
    ∧ Forall (drawn_row math) table.
Proof.
  revert g. induction idx as [|i idx IH]; intros g; simpl.
  - exists []. by repeat split.
  - unfold bind at 1. unfold table_row at 1, Math_random.
    unfold bind, emit, step, ret. simpl.
    rewrite Nat.add_succ_r. simpl. rewrite !advance_succ.
    destruct (random math g) as [r1 g1] eqn:Hfirst. simpl.
    destruct (random math g1) as [r2 g2] eqn:Hsecond. simpl.
    destruct (IH g2) as (table & -> & Hids & Hrows). simpl.
    rewrite app_nil_r. eexists. split; [done|].
    split; [by rewrite fmap_cons, Hids|]. constructor; [|done].
    exists g, g1. by rewrite Hfirst, Hsecond.
Qed.

(** X5.  Whatever component is asked for, a call of [generatePremiumUI] that
    returns has drawn from [Math.random] once per grid item and twice
    for each of the twenty table rows: an analytics request, whose
    template holds nothing random, moves the generator on as far as a
    data table request does. *)
Theorem premium_generation_draws ct cfg g :
  let n := Z.to_nat (or_number (cfg ≫= itemCount) 12) in
  (or_number (cfg ≫= itemCount) 12 ≤ max_array_length)%Z →
  ∃ ui,
    generatePremiumUI math ct cfg g
      = (Ok ui, advance math (n + 40) g, replicate (n + 40) Random).
Proof.
  intros n Hlen. unfold generatePremiumUI, Array_from_M.
  rewrite bool_decide_eq_true_2 by done. unfold bind at 1.
  destruct (for_each_premium_item_state
              (seq 0 (Z.to_nat (or_number (cfg ≫= itemCount) 12))) g)
    as (grid_items & -> & _).
  rewrite bool_decide_eq_true_2 by (unfold max_array_length; lia).
  unfold bind at 1.
  destruct (for_each_table_row_state (seq 0 (Z.to_nat 20))
              (advance math (length (seq 0 (Z.to_nat (or_number (cfg ≫= itemCount) 12)))) g))
    as (table & -> & _).
  unfold ret. rewrite !length_seq, app_nil_r, <- replicate_add, advance_add.
  fold n. by eexists.
Qed.

(** The data table that is generated. *)
Lemma premium_data_table cfg g :
  (or_number (cfg ≫= itemCount) 12 ≤ max_array_length)%Z →
  ∃ table,
    outcome (generatePremiumUI math "data-table" cfg g)
      = Ok (Obj (DataTableUI table_columns table
                   ["sorting"; "filtering"; "pagination"; "export"])) ∧
    row_id <$> table = (λ i, Z.of_nat i + 1)%Z <$> seq 0 20 ∧
    Forall (drawn_row math) table.
Proof.
  intros Hlen. unfold generatePremiumUI, Array_from_M.
  rewrite bool_decide_eq_true_2 by done. unfold bind at 1.
  destruct (for_each_premium_item_state
              (seq 0 (Z.to_nat (or_number (cfg ≫= itemCount) 12))) g)
    as (grid_items & -> & _).
  rewrite bool_decide_eq_true_2 by (unfold max_array_length; lia).
  unfold bind at 1.
  destruct (for_each_table_row_state (seq 0 (Z.to_nat 20))
              (advance math (length (seq 0 (Z.to_nat (or_number (cfg ≫= itemCount) 12)))) g))
    as (table & -> & Hids & Hrows).
  unfold ret, outcome. simpl.
  exists table. split; [|done].
  unfold get_or, get_property, premiumTemplates.
  rewrite lookup_insert_ne, lookup_insert_eq by done. reflexivity.
Qed.

(** X6.  The data table always has twenty rows, numbered 1 to 20.  If the
    engine's [Math.floor(r * k)] of a draw [r] stays within [0, k) for
    the two factors used, as it does for a draw in [0, 1), every row has
    a value in [0, 10000) and one of the three status labels. *)
Theorem data_table_rows cfg g :
  (or_number (cfg ≫= itemCount) 12 ≤ max_array_length)%Z →
  ∃ columns table features,
    outcome (generatePremiumUI math "data-table" cfg g)
      = Ok (Obj (DataTableUI columns table features)) ∧
    row_id <$> table = (λ i, Z.of_nat i + 1)%Z <$> seq 0 20 ∧
    length table = 20%nat ∧
    ((∀ g0, 0 ≤ floor_mul math (random math g0).1 10000 < 10000)%Z →
     Forall (λ row, 0 ≤ row_value row < 10000)%Z table) ∧
    ((∀ g0, 0 ≤ floor_mul math (random math g0).1 3 < 3)%Z →
     Forall (λ row, ∃ label, row_status row = Some label ∧ label ∈ status_labels) table).
Proof.
  intros Hlen.
  destruct (premium_data_table cfg g Hlen) as (table & Hrun & Hids & Hrows).
  eexists _, table, _. split; [exact Hrun|]. split; [done|]. split.
  { apply (f_equal length) in Hids. by rewrite !length_fmap, length_seq in Hids. }
  split.
  - intros Hrange. eapply Forall_impl; [exact Hrows|].
    intros row (g1 & g2 & -> & _). apply Hrange.
  - intros Hrange. eapply Forall_impl; [exact Hrows|].
    intros row (g1 & g2 & _ & ->).
    specialize (Hrange g2). unfold index, status_labels.
    rewrite bool_decide_eq_true_2 by lia.
    destruct (Z.to_nat (floor_mul math (random math g2).1 3)) as [|[|[|k]]] eqn:Hk; simpl;
      [eexists; split; [done|]; set_solver.. | lia].
Qed.

(** X7.  Of the twenty rows of a generated data table, [DataTableRenderer]
    shows the first ten, under the four column labels and with four
    cells each; rows 11 to 20 are generated, sent and not shown, though
    the table's features name pagination. *)
Theorem data_table_shows_ten_rows cfg g :
  (or_number (cfg ≫= itemCount) 12 ≤ max_array_length)%Z →
  ∃ columns table features,
    outcome (generatePremiumUI math "data-table" cfg g)
      = Ok (Obj (DataTableUI columns table features)) ∧
    length table = 20%nat ∧ "pagination" ∈ features ∧
    let '(header, body) := Table.DataTableRenderer columns table in
    header = ["ID"; "Name"; "Value"; "Status"] ∧
    length body = 10%nat ∧
    Forall (λ cells, length cells = 4%nat) body ∧
    (∀ k cells, body !! k = Some cells →
                cells !! 0%nat = Some (Table.Number (Z.of_nat k + 1))) ∧
    (∀ row, row ∈ table → (10 < row_id row)%Z →
            ∀ cells, cells ∈ body → cells !! 0%nat ≠ Some (Table.Number (row_id row))).
Proof.
  intros Hlen.
  destruct (premium_data_table cfg g Hlen) as (table & Hrun & Hids & _).
  assert (length table = 20%nat) as Htable.
  { apply (f_equal length) in Hids. by rewrite !length_fmap, length_seq in Hids. }
  assert (∀ k row, table !! k = Some row → row_id row = (Z.of_nat k + 1)%Z) as Hid.
  { intros k row Hrow.
    assert ((row_id <$> table) !! k = Some (row_id row)) as Hk
      by by rewrite list_lookup_fmap, Hrow.
    rewrite Hids, list_lookup_fmap in Hk.
    destruct (seq 0 20 !! k) as [i|] eqn:Hi; [|done].
    apply lookup_seq in Hi as [-> _]. simpl in Hk. by simplify_eq. }
  eexists _, table, _. split; [exact Hrun|]. split; [done|].
  split; [set_solver|]. unfold Table.DataTableRenderer. simpl.
  split; [done|].
  split; [by rewrite length_fmap, length_take, Htable|].
  split; [apply Forall_fmap, Forall_true; by intros row|].
  assert (∀ k cells,
            ((λ row, (λ col, Table.cell row (key col)) <$> table_columns)
               <$> take 10 table) !! k = Some cells →
            (k < 10)%nat ∧ cells !! 0%nat = Some (Table.Number (Z.of_nat k + 1)))
    as Hbody.
  { intros k cells. rewrite list_lookup_fmap.
    destruct (take 10 table !! k) as [row|] eqn:Hrow; [|done].
    intros [= <-]. apply lookup_take_Some in Hrow as [Hrow Hk].
    split; [done|]. simpl. unfold Table.cell. simpl. by rewrite (Hid k row Hrow). }
  split; [intros k cells Hk; by apply Hbody|].
  intros row Hrow Hlate cells Hcells Hfirst.
  apply list_elem_of_lookup in Hcells as [k Hk].
  apply Hbody in Hk as [Hk Hshown]. rewrite Hshown in Hfirst.
  simplify_eq. lia.
Qed.

End Draws.

(** *** The resource of the payment requirements *)

Lemma startsWith_app p s t : startsWith s p = true → startsWith (s +:+ t) p = true.
Proof.
  unfold startsWith. revert s. induction p as [|c p IH]; intros s; simpl.
  - intros _. by destruct (s +:+ t).
  - destruct s as [|c' s]; simpl; [done|].
    destruct (Ascii.ascii_dec c c'); [apply IH | done].
Qed.

(** X8.  The resource the routes name in their payment requirements is
    made of the base URL and the route's path: a base URL that starts
    with "http" is used as it is, one that does not is given the prefix
    "https://", so that the resource always starts with "http".  The
    base URL is the environment variable when that is set and not
    empty, and https://grid.wtf otherwise.  The amount is always the
    string "500000". *)
Theorem payment_requirements_resource env r componentType :
  let rc := routeConfig env r componentType in
  let base := baseUrl (x402Config env) in
  startsWith (config_resource rc) "http" = true ∧
  (startsWith base "http" = true → config_resource rc = base +:+ path r) ∧
  (startsWith base "http" = false →
   config_resource rc = ("https://" +:+ base) +:+ path r) ∧
  (∀ s, NEXT_PUBLIC_BASE_URL env = Some s → s ≠ "" → base = s) ∧
  (truthy_string (NEXT_PUBLIC_BASE_URL env) = false →
   base = "https://grid.wtf" ∧
   config_resource rc = "https://grid.wtf" +:+ path r) ∧
  price_amount rc = "500000" ∧
  config_description rc = description_prefix r +:+ to_string componentType.
Proof.
  intros rc base. subst rc base. unfold routeConfig. simpl.
  split; [|split; [|split; [|split; [|split]]]].
  - destruct (startsWith (or_string _ _) "http") eqn:Hhttp.
    + by apply startsWith_app.
    + done.
  - by intros ->.
  - by intros ->.
  - intros s Hs Hne. rewrite Hs. simpl. by destruct s.
  - intros Hunset.
    destruct (NEXT_PUBLIC_BASE_URL env) as [s|]; simpl in *; [|done].
    by rewrite Hunset.
  - split; [|done]. by destruct r.
Qed.

End RoutesMore.

(** ** The verify-payment route, on every request *)

Module VerifyPaymentMore.

Import VerifyPayment VerifyPaymentFacts.

Section Facts.
Context {S : Type} (env : ProcessEnv) (web3 : Web3) (now : Z).

Local Abbreviation POST := (VerifyPayment.POST (S := S) env web3 now).

(** X9.  Whatever the request, the verify-payment handler returns a response
    and leaves the state alone.  Its status is 200, 400, 402 or 500.  It
    is 500 in two cases and no other: the body cannot be read or is
    null, or the body has its three fields and an endpoint with a price
    but no connection can be made of the configured RPC endpoint.  The
    chain is consulted at most once, for the signature of the body,
    only after the connection was made, and exactly when the answer is
    200 or 402; the answer is 200 exactly when that transaction is
    found, with metadata and without an error, and only then does the
    body say [verified: true]. *)
Theorem verify_payment_answers request s :
  ∃ resp lookups,
    POST request s = (Ok resp, s, ReqJson :: lookups) ∧
    status resp ∈ [200; 400; 402; 500]%Z ∧
    (status resp = 500%Z ↔
     (∀ b, json_body request ≠ Ok (Some b)) ∨
     ∃ b, json_body request = Ok (Some b) ∧
          truthy_string (signature b) = true ∧
          truthy_string (publicKey b) = true ∧
          truthy_string (endpoint b) = true ∧
          truthy_price (get_property (prices (x402Config env))
                          (non_null (endpoint b))) = true ∧
          is_ok (new_Connection web3 (rpcEndpoint (x402Config env))) = false) ∧
    (lookups = [] ∨
     ∃ b, json_body request = Ok (Some b) ∧
          lookups = [GetTransaction (non_null (signature b))]) ∧
    (lookups ≠ [] →
     is_ok (new_Connection web3 (rpcEndpoint (x402Config env))) = true) ∧
    (lookups ≠ [] ↔ status resp = 200%Z ∨ status resp = 402%Z) ∧
    (status resp = 200%Z ↔
     ∃ b tx m, json_body request = Ok (Some b) ∧ lookups ≠ [] ∧
               getTransaction web3 (non_null (signature b)) = Ok (Some tx) ∧
               meta tx = Some m ∧ err m = None) ∧
    (status resp = 200%Z ↔ body resp !! "verified" = Some (VBool true)).
Proof.
  unfold VerifyPayment.POST, try_catch, bind, emit, await, ret, throw. simpl.
  destruct (json_body request) as [[b|]|e] eqn:Hbody; simpl.
  2,3: eexists _, []; split; [done|]; simpl;
    split; [set_solver|];
    split; [split; [by intros _; left; intros b'|done]|];
    split; [by left|];
    split; [done|];
    split; [split; [done|by intros [|]]|];
    split; [split; [done|by intros (?&?&?&?&?)]|];
    split; done.
  destruct (truthy_string (signature b)) eqn:Hsignature,
           (truthy_string (publicKey b)) eqn:Hkey,
           (truthy_string (endpoint b)) eqn:Hendpoint; simpl.
  2-8: eexists _, []; (split; [done|]); simpl;
    (split; [set_solver|]);
    (split; [split; [done|
       intros [H|(b' & ? & ? & ? & ? & _)]; [by destruct (H b)|simplify_eq; congruence]]|]);
    (split; [by left|]);
    (split; [done|]);
    (split; [split; [done|by intros [|]]|]);
    (split; [split; [done|by intros (?&?&?&?&?&?)]|]);
    split; done.
  destruct (truthy_price _) eqn:Hprice; simpl.
  2: { eexists _, []. split; [done|]. simpl.
    split; [set_solver|].
    split; [split; [done|
       intros [H|(b' & ? & _ & _ & _ & ? & _)]; [by destruct (H b)|simplify_eq; congruence]]|].
    split; [by left|].
    split; [done|].
    split; [split; [done|by intros [|]]|].
    split; [split; [done|by intros (?&?&?&?&?&?)]|].
    split; done. }
  destruct (new_Connection web3 _) as [[]|refusal] eqn:Hconnection; simpl.
  2: { eexists _, []. split; [done|]. simpl.
    split; [set_solver|].
    split; [split; [intros _; right; by exists b|done]|].
    split; [by left|].
    split; [done|].
    split; [split; [done|by intros [|]]|].
    split; [split; [done|by intros (?&?&?&?&?&?)]|].
    split; done. }
  rewrite verifyPaymentTransaction_run. simpl.
  destruct (getTransaction web3 (non_null (signature b))) as [[tx|]|e] eqn:Htx; simpl.
  1: destruct (meta tx) as [m|] eqn:Hmeta; simpl.
  1: destruct (err m) as [failure|] eqn:Herr; simpl.
  all: eexists _, [_]; (split; [done|]); simpl;
    (split; [set_solver|]);
    (split; [split; [done|
       intros [H|(b' & ? & _ & _ & _ & _ & ?)]; [by destruct (H b)|done]]|]);
    (split; [right; by exists b|]);
    (split; [done|]);
    (split; [split; [auto|done]|]).
  all: split; [|split; done].
  all: split; [|intros (b' & tx' & m' & ? & _ & ? & ? & ?); simplify_eq; congruence].
  all: try done.
  intros _. by exists b, tx, m.
Qed.

(** X10.  The handler looks at the body's public key and endpoint only to see
    that there is one: two requests with the same signature, each with
    some public key and some endpoint that has a price, are answered
    alike. *)
Theorem verify_payment_reads_the_signature_only request request' b b' s :
  json_body request = Ok (Some b) →
  json_body request' = Ok (Some b') →
  signature b = signature b' →
  truthy_string (publicKey b) = true → truthy_string (publicKey b') = true →
  truthy_string (endpoint b) = true → truthy_string (endpoint b') = true →
  truthy_price (get_property (prices (x402Config env)) (non_null (endpoint b))) = true →
  truthy_price (get_property (prices (x402Config env)) (non_null (endpoint b'))) = true →
  POST request s = POST request' s.
Proof.
  intros Hbody Hbody' Hsig Hpk Hpk' Hep Hep' Hprice Hprice'.
  unfold VerifyPayment.POST, try_catch, bind, emit, await, ret, throw.
  rewrite Hbody, Hbody'. simpl.
  rewrite Hpk, Hpk', Hep, Hep', <- Hsig. simpl in *.
  rewrite Hprice, Hprice'.
  destruct (truthy_string (signature b)); simpl; [|done].
  destruct (new_Connection web3 _); simpl; [|done].
  by rewrite !verifyPaymentTransaction_run.
Qed.

End Facts.

End VerifyPaymentMore.

(** ** The client helper when something fails *)

Module ClientMore.

Import Client.

Section Facts.
Context {W : Type}
        (fetch : string → option RequestInit → W → result Response * W).

Local Abbreviation fetchWithPayment := (Client.fetchWithPayment fetch).

(** X11.  Nothing is caught in [fetchWithPayment].  If the first fetch
    rejects, that is the end, and if the body of the 402 answer cannot
    be parsed the payment handler is not called, supplied or not.  If
    the handler rejects, no retry is made.  In each case the rejection
    is passed on as it is.  However the call ends, there are at most
    two fetches and at most one call of the handler, and a second fetch
    comes only after the handler was called. *)
Theorem fetchWithPayment_failures url options onPaymentRequired w :
  (∀ e w1, fetch url options w = (Throw e, w1) →
     fetchWithPayment url options onPaymentRequired w
       = (Throw e, w1, [Fetch url options])) ∧
  (∀ response w1 e,
     fetch url options w = (Ok response, w1) →
     status response = 402%Z → json response = Throw e →
     fetchWithPayment url options onPaymentRequired w
       = (Throw e, w1, [Fetch url options; ResponseJson])) ∧
  (∀ response w1 paymentDetails handler e w2,
     fetch url options w = (Ok response, w1) →
     status response = 402%Z → json response = Ok paymentDetails →
     onPaymentRequired = Some handler →
     handler paymentDetails w1 = (Throw e, w2) →
     fetchWithPayment url options onPaymentRequired w
       = (Throw e, w2,
          [Fetch url options; ResponseJson; OnPaymentRequired paymentDetails])) ∧
  (∃ calls, trace (fetchWithPayment url options onPaymentRequired w)
              = Fetch url options :: calls ∧
     (calls = [] ∨ calls = [ResponseJson] ∨
      ∃ paymentDetails, calls = [ResponseJson; OnPaymentRequired paymentDetails] ∨
        ∃ proof, calls = [ResponseJson; OnPaymentRequired paymentDetails;
                          Fetch url (Some (with_payment_headers options proof))])).
Proof.
  unfold Client.fetchWithPayment, call_fetch, call_handler, bind, emit, await,
    ret, throw, trace.
  split; [|split; [|split]].
  - intros e w1 ->. done.
  - intros response w1 e -> H402 Hjson. simpl.
    rewrite bool_decide_eq_true_2 by done. simpl. by rewrite Hjson.
  - intros response w1 paymentDetails handler e w2 -> H402 Hjson -> Hhandler. simpl.
    rewrite bool_decide_eq_true_2 by done. simpl. by rewrite Hjson, Hhandler.
  - destruct (fetch url options w) as [[response|e] w1]; simpl;
      [|eexists; split; [done|by left]].
    case_bool_decide; simpl; [|eexists; split; [done|by left]].
    destruct (json response) as [paymentDetails|e]; simpl;
      [|eexists; split; [done|by right; left]].
    destruct onPaymentRequired as [handler|]; simpl;
      [|eexists; split; [done|by right; left]].
    destruct (handler paymentDetails w1) as [[[proof|]|e] w2]; simpl.
    + destruct (fetch url _ w2) as [ρ w3]. simpl.
      eexists. split; [done|]. right; right. exists paymentDetails. right.
      by exists proof.
    + eexists. split; [done|]. right; right. exists paymentDetails. by left.
    + eexists. split; [done|]. right; right. exists paymentDetails. by left.
Qed.

End Facts.

End ClientMore.

(** ** The retry of the client helper *)

Module RetryFacts.

Import ClientInit.

(** What the spread of an array holds. *)
Lemma indexed_lookup i items k v :
  indexed i items !! k = Some v
  ↔ ∃ j item, items !! j = Some item ∧ k = pretty (i + j)%nat ∧ v = FArray item.
Proof.
  revert i. induction items as [|item items IH]; intros i; simpl.
  - rewrite lookup_empty. split; [done|]. by intros (j & it & Hj & _).
  - destruct (decide (k = pretty i)) as [->|Hk].
    + rewrite lookup_insert_eq. split.
      * intros [= <-]. exists 0%nat, item. by rewrite Nat.add_0_r.
      * intros (j & it & Hj & Hi & ->). apply (inj pretty) in Hi.
        assert (j = 0)%nat as -> by lia. simpl in Hj. by simplify_eq.
    + rewrite lookup_insert_ne by done. rewrite IH. split.
      * intros (j & it & Hj & -> & ->). exists (S j), it.
        split; [done|]. split; [|done]. f_equal. lia.
      * intros (j & it & Hj & -> & ->). destruct j as [|j].
        { by rewrite Nat.add_0_r in Hk. }
        exists j, it. split; [done|]. split; [|done]. f_equal. lia.
Qed.

(** X12.  The retry has the method and the body of the first request, and
    its headers are a plain object made of the own enumerable
    properties of [options.headers] and the three payment headers,
    which replace properties of the same name; names are compared as
    written, so a property [x-payment-signature] stays beside the new
    [X-Payment-Signature].  Headers given as a plain object are all
    sent again.  Headers given as a [Headers] instance are not: it has
    no such properties, and the retry carries the three payment headers
    only.  Of headers given as an array of pairs the retry holds each
    pair under its index, not under the header's name.  For a plain
    object and a timestamp the engine prints in decimal digits, this is
    the retry of [Client.with_payment_headers]. *)
Theorem retry_keeps_the_request toString options proof :
  let retry := retry_init toString options proof in
  let sent := retry_headers retry in
  let given := spread (options ≫= headers) in
  retry_method retry = options ≫= method ∧
  retry_body retry = options ≫= body ∧
  dom sent = dom given ∪ list_to_set payment_names ∧
  (∀ k, k ∉ payment_names → sent !! k = given !! k) ∧
  sent !! "X-Payment-Signature" = Some (FString (Types.signature proof)) ∧
  sent !! "X-Payment-PublicKey" = Some (FString (Types.publicKey proof)) ∧
  sent !! "X-Payment-Timestamp" = Some (FString (toString (timestamp proof))) ∧
  sent !! "x-payment-signature" = given !! "x-payment-signature" ∧
  (options ≫= headers = None → given = ∅) ∧
  (∀ fields, options ≫= headers = Some (PlainObject fields) →
     ∀ k, given !! k = FString <$> fields !! k) ∧
  (∀ entries, options ≫= headers = Some (HeadersInstance entries) →
     given = ∅ ∧ ∀ k, k ∉ payment_names → sent !! k = None) ∧
  (∀ pairs, options ≫= headers = Some (PairArray pairs) →
     ∀ k v, given !! k = Some v
            ↔ ∃ (j : nat) item, pairs !! j = Some item ∧ k = pretty j ∧ v = FArray item) ∧
  (∀ plain : option Client.RequestInit,
     options = of_plain <$> plain →
     toString (timestamp proof) = pretty (timestamp proof) →
     let r := Client.with_payment_headers plain proof in
     retry_method retry = Client.method r ∧
     retry_body retry = Client.init_body r ∧
     sent = FString <$> default ∅ (Client.init_headers r)).
Proof.
  intros retry sent given. subst retry sent given. simpl.
  assert (∀ k, k ∉ payment_names →
    (<["X-Payment-Timestamp" := FString (toString (timestamp proof))]>
     (<["X-Payment-PublicKey" := FString (Types.publicKey proof)]>
      (<["X-Payment-Signature" := FString (Types.signature proof)]>
       (spread (options ≫= headers))))) !! k = spread (options ≫= headers) !! k)
    as Hother.
  { intros k Hk. rewrite !lookup_insert_ne; [done|..]; intros <-; apply Hk;
      unfold payment_names; repeat constructor. }
  split; [done|]. split; [done|]. split.
  { rewrite !dom_insert_L. unfold payment_names. simpl. set_solver. }
  split; [exact Hother|].
  split; [by simplify_map_eq|]. split; [by simplify_map_eq|].
  split; [by simplify_map_eq|]. split; [by rewrite !lookup_insert_ne|].
  split; [by intros ->|]. split.
  { intros fields ->. intros k. simpl. by rewrite lookup_fmap. }
  split.
  { intros entries Hentries. rewrite Hentries in *. simpl in *. split; [done|].
    intros k Hk. by rewrite Hother. }
  split.
  { intros pairs ->. intros k v. simpl. apply (indexed_lookup 0). }
  intros plain -> Htime. simpl. rewrite Htime.
  split; [by destruct plain|]. split; [by destruct plain|].
  rewrite !fmap_insert. do 3 f_equal.
  destruct plain as [plain|]; simpl; [|by rewrite fmap_empty].
  destruct (Client.init_headers plain); simpl; [done|by rewrite fmap_empty].
Qed.
End RetryFacts.

(** ** Shortened public keys *)

Module FormatFacts.

Import Format.

Lemma substring_all n s : (String.length s ≤ n)%nat → String.substring 0 n s = s.
Proof.
  revert n. induction s as [|c s IH]; intros [|n] Hn; simpl in *; try done; try lia.
  f_equal. apply IH. lia.
Qed.

Lemma length_substring n m s :
  (n + m ≤ String.length s)%nat → String.length (String.substring n m s) = m.
Proof.
  revert n m. induction s as [|c s IH]; intros [|n] [|m] Hn; simpl in *;
    try done; try lia.
  - f_equal. apply (IH 0%nat). lia.
  - apply IH. lia.
  - apply IH. lia.
Qed.

Lemma length_append s t :
  String.length (s +:+ t) = (String.length s + String.length t)%nat.
Proof. induction s as [|c s IH]; simpl; [done|]. by rewrite IH. Qed.

Lemma substring_none n s : String.substring n 0 s = "".
Proof. revert n. induction s as [|c s IH]; intros [|n]; simpl; try done. Qed.

Lemma slice_head s c :
  (0 ≤ c)%Z →
  slice s 0 (Some c) = String.substring 0 (Z.to_nat c `min` String.length s) s.
Proof.
  intros Hc. unfold slice, clamp.
  rewrite (bool_decide_eq_false_2 (0 < 0)%Z), (bool_decide_eq_false_2 (c < 0)%Z) by lia.
  f_equal; lia.
Qed.

Lemma slice_tail s c :
  (0 < c)%Z →
  slice s (- c) None
    = String.substring (String.length s - Z.to_nat c)
        (Z.to_nat c `min` String.length s) s.
Proof.
  intros Hc. unfold slice, clamp.
  rewrite (bool_decide_eq_true_2 (- c < 0)%Z) by lia.
  f_equal; lia.
Qed.

Lemma slice_from_start s : slice s 0 None = s.
Proof.
  unfold slice, clamp. rewrite (bool_decide_eq_false_2 (0 < 0)%Z) by lia.
  replace (Z.to_nat (Z.min 0 (Z.of_nat (String.length s)))) with 0%nat by lia.
  apply substring_all. lia.
Qed.

(** X13.  [formatPublicKey] keeps the first and the last [chars] characters
    of a key that has at least that many, so that the result has
    [2 * chars + 3] characters.  It shortens nothing else: a key of
    fewer characters is written out twice, once on each side of the
    dots, and with [chars = 0] the whole key follows the dots.  The
    result is shorter than the key only for keys longer than
    [2 * chars + 3]. *)
Theorem formatPublicKey_shape publicKey chars :
  let c := default 4%Z chars in
  let len := String.length publicKey in
  ((0 < c)%Z → (Z.to_nat c ≤ len)%nat →
     formatPublicKey publicKey chars
       = String.substring 0 (Z.to_nat c) publicKey +:+ "..."
           +:+ String.substring (len - Z.to_nat c) (Z.to_nat c) publicKey ∧
     String.length (formatPublicKey publicKey chars) = (2 * Z.to_nat c + 3)%nat) ∧
  ((0 < c)%Z → (len ≤ Z.to_nat c)%nat →
     formatPublicKey publicKey chars = publicKey +:+ "..." +:+ publicKey) ∧
  (c = 0%Z → formatPublicKey publicKey chars = "..." +:+ publicKey) ∧
  ((0 < c)%Z →
     (String.length (formatPublicKey publicKey chars) < len)%nat
     ↔ (2 * Z.to_nat c + 3 < len)%nat).
Proof.
  intros c len. unfold formatPublicKey. fold c.
  assert (Hlong : (0 < c)%Z → (Z.to_nat c ≤ len)%nat →
    slice publicKey 0 (Some c) +:+ "..." +:+ slice publicKey (- c) None
    = String.substring 0 (Z.to_nat c) publicKey +:+ "..."
        +:+ String.substring (len - Z.to_nat c) (Z.to_nat c) publicKey).
  { intros Hc Hlen. rewrite slice_head, slice_tail by lia. fold len.
    by rewrite Nat.min_l by done. }
  assert (Hshort : (0 < c)%Z → (len ≤ Z.to_nat c)%nat →
    slice publicKey 0 (Some c) +:+ "..." +:+ slice publicKey (- c) None
    = publicKey +:+ "..." +:+ publicKey).
  { intros Hc Hlen. rewrite slice_head, slice_tail by lia. fold len.
    rewrite Nat.min_r by done.
    replace (len - Z.to_nat c)%nat with 0%nat by lia.
    by rewrite !substring_all by done. }
  split; [|split; [|split]].
  - intros Hc Hlen. rewrite Hlong by done. split; [done|].
    rewrite !length_append, !length_substring by (fold len; lia). simpl. lia.
  - done.
  - intros ->. simpl. rewrite slice_from_start, slice_head by done. simpl.
    by rewrite substring_none.
  - intros Hc. destruct (decide (Z.to_nat c ≤ len)%nat) as [Hlen|Hlen].
    + rewrite Hlong by done.
      rewrite !length_append, !length_substring by (fold len; lia). simpl. lia.
    + rewrite Hshort by lia. rewrite !length_append. simpl. fold len. lia.
Qed.

End FormatFacts.

(** ** The payment button *)

Module ButtonFacts.

Import Button ButtonHandlers ButtonSpec.

(** Symbolic execution of a handler: split on whatever the next step
    depends on. *)
Ltac branch :=
  match goal with
  | H : ?x = _ |- context [match ?x with _ => _ end] => rewrite H
  | |- context [match ?x with _ => _ end] =>
      lazymatch x with
      | context [match _ with _ => _ end] => fail
      | _ => destruct x eqn:?
      end
  end.

Ltac known :=
  repeat match goal with
  | H : ?x = _ |- context [?x] => progress rewrite H
  end.

Ltac run :=
  match goal with
  | |- context [handleRequest ?env ?w] =>
      let H := fresh in
      destruct (handleRequest env w) as [[? ?] ?] eqn:H; revert H
  end;
  unfold handleRequest, processPayment, deliver, try_finally, try_catch, bind,
    emit, eval, call, read, ret, throw;
  known; simpl; repeat (branch; simpl); intros [= <- <- <-].

(** Membership in a trace that is written out. *)
Ltac member H :=
  repeat match type of H with
  | _ ∈ [] => by apply elem_of_nil in H
  | _ ∈ _ :: _ => apply elem_of_cons in H as [H|H]; [try discriminate H|]
  end.

Ltac tests :=
  repeat match goal with
  | H : bool_decide _ = true |- _ => apply bool_decide_eq_true in H
  | H : bool_decide _ = false |- _ => apply bool_decide_eq_false in H
  | H : negb _ = true |- _ => apply negb_true_iff in H
  | H : negb _ = false |- _ => apply negb_false_iff in H
  | H : _ || _ = false |- _ => apply orb_false_iff in H as [? ?]
  end.

(** Equations on the same call are merged until they clash. *)
Ltac clashes :=
  repeat match goal with
  | H : ?x = ?a, H' : ?x = ?b |- _ =>
      lazymatch a with b => fail | _ => idtac end;
      rewrite H in H'; simplify_eq
  | H : ?a = ?x, H' : ?x = ?b |- _ =>
      lazymatch a with b => fail | _ => idtac end;
      rewrite H' in H; simplify_eq
  | H : ?x = true, H' : context [if ?x && _ then _ else _] |- _ =>
      rewrite H in H'; simpl in H'
  | H : ?x = false, H' : context [if ?x && _ then _ else _] |- _ =>
      rewrite H in H'; simpl in H'
  | H : ?x = true, H' : context [if ?x then _ else _] |- _ =>
      rewrite H in H'; simpl in H'
  | H : ?x = false, H' : context [if ?x then _ else _] |- _ =>
      rewrite H in H'; simpl in H'
  end; simpl in *; try congruence.

Lemma get_done v k o : get v k = Done o → o = prop v k.
Proof. destruct v; simpl; congruence. Qed.

Ltac reads :=
  repeat match goal with
  | H : get _ _ = Done _ |- _ => apply get_done in H; try subst
  end.

Ltac here :=
  solve [repeat first [apply list_elem_of_here | apply list_elem_of_further]].

Section Facts.
Context {W : Type} (env : Env W).


(** X16.  With a wallet connected, a click ends with [loading] false again,
    and each of the two callbacks is called at most once.  Neither is
    called only if no [onError] was given; both are called only if
    [onSuccess] threw, and then [onError] gets what it threw or, after a
    payment, possibly the cancellation error.  [handleRequest] itself
    rejects only with what [onError] threw. *)
Theorem request_ends_with_one_report w ui :
  connected env = true → is_Some (publicKey env) →
  let run := handleRequest env w in
  loading (state_after ui (events_of run)) = false ∧
  (count is_success (events_of run) ≤ 1)%nat ∧
  (count is_error (events_of run) ≤ 1)%nat ∧
  (count is_success (events_of run) + count is_error (events_of run) = 0%nat →
     onError env = None) ∧
  (∀ data signature e,
     OnSuccess data signature ∈ events_of run → OnError e ∈ events_of run →
     ∃ w0 e0, (onSuccess env data signature w0).1 = Raised e0 ∧
              (e = e0 ∨ e = cancelled)) ∧
  (∀ e, result_of run = Raised e →
     ∃ handler e0 w0, onError env = Some handler ∧ OnError e0 ∈ events_of run ∧
                      (handler e0 w0).1 = Raised e).
Proof.
  intros Hconnected [payer Hpayer]. run.
  all: unfold events_of, result_of, count, state_after; simpl.
  all: split; [done|]; split; [lia|]; split; [lia|].
  all: split; [intros ?; first [done | lia]|].
  all: split; [intros data signature e' Hs He; member Hs; member He; simplify_eq
              | intros e' Hr; simplify_eq ].
  all: try (eexists _, _; split;
            [ match goal with H : onSuccess _ _ _ _ = _ |- _ => by rewrite H end
            | tests; auto ]).
  all: try (eexists _, _, _; split; [done|]; split; [here|];
            match goal with H : _ = (Raised _, _) |- _ => by rewrite H end).
Qed.


(** *** The 'Payment Required' note *)

Lemma render_note is_connected ui :
  existsb is_payment_required_note (render is_connected ui)
    = is_connected && note_due ui.
Proof.
  unfold render, note_due. destruct is_connected; [|reflexivity].
  destruct (bool_decide (ui_status ui ≠ "")), (loading ui),
    (truthy (Some (paymentRequired ui))),
    (bool_decide (lastSignature ui ≠ "")); reflexivity.
Qed.

Lemma never_due_prefix ui events shown :
  never_due ui events = true → shown `prefix_of` events →
  note_due (state_after ui shown) = false.
Proof.
  revert ui shown. induction events as [|e events IH]; intros ui shown Hnever Hshown.
  - apply prefix_nil_inv in Hshown as ->. simpl in *.
    rewrite andb_true_r in Hnever. by apply negb_true_iff in Hnever.
  - simpl in Hnever. apply andb_true_iff in Hnever as [Hnow Hlater].
    apply negb_true_iff in Hnow.
    destruct shown as [|e' shown]; [done|].
    apply prefix_cons_inv_1 in Hshown as He. subst e'.
    apply prefix_cons_inv_2 in Hshown. simpl. by apply IH.
Qed.

(** X17.  The note of lines 253 to 263 is shown when payment details are
    stored and nothing is loading.  From a state without stored details
    a click leads through no state in which it is shown: the details
    are stored only while [loading] is set, and cleared before it is
    reset, after a success and after a failure alike. *)
Theorem payment_required_note_is_never_shown w ui shown :
  truthy (Some (paymentRequired ui)) = false →
  shown `prefix_of` events_of (handleRequest env w) →
  existsb is_payment_required_note (render (connected env) (state_after ui shown))
    = false.
Proof.
  intros Hnone Hshown. rewrite render_note.
  rewrite (never_due_prefix ui (events_of (handleRequest env w))), andb_false_r;
    [done| |done].
  clear Hshown. run.
  all: unfold events_of, never_due, note_due; cbn -[truthy]; rewrite Hnone.
  all: rewrite ?andb_false_r; reflexivity.
Qed.

Lemma undelivered_payment_is_not_kept w ui
    first w1 details payTo payer recipient signature w3 confirmation w4 response w5 :
  connected env = true → publicKey env = Some payer →
  fetch env (endpoint env) (first_request env) w = (Done first, w1) →
  status first = 402%Z → json first = Done details →
  prop details "payTo" = Some (JStr payTo) →
  new_PublicKey env payTo = Done recipient →
  sendTransaction env {| fromPubkey := payer; toPubkey := recipient;
                         lamports := prop details "price" |} w1
    = (Done signature, w3) →
  confirmTransaction env signature w3 = (Done confirmation, w4) →
  fetch env (endpoint env) (paid_request env signature payer (Date_now env w4)) w4
    = (Done response, w5) →
  ok response = false
  ∨ (∃ e, json response = Raised e)
  ∨ (∃ data e w6,
       json response = Done data ∧
       onSuccess env
         (if isExternalEndpoint env && truthy (prop data "markets")
          then MarketsResponse (prop data "markets") (prop data "meta")
          else AsReceived data) (Some signature) w5 = (Raised e, w6)) →
  (∀ s, SetLastSignature s ∉ events_of (handleRequest env w)) ∧
  lastSignature (state_after ui (events_of (handleRequest env w))) = lastSignature ui.
Proof.
  intros Hconnected Hpayer Hfirst Hstatus Hdetails HpayTo Hrecipient Hsend Hconfirm
    Hpaid Hfails.
  destruct Hfails as [Hok | [[e He] | (data & e & w6 & Hdata & Hraise)]].
  all: run.
  all: unfold events_of, state_after; simpl.
  all: tests; reads.
  all: try (split; [intros ? Hin; member Hin|done]).
  all: exfalso; clashes.
Qed.

(** X18.  [lastSignature], the link 'Transaction Confirmed' shows, is set only
    at the end of a click that went well all the way: the first request
    was answered 402, the transaction was sent and its confirmation
    awaited, the paid request was answered ok with a body that parses,
    and [onSuccess], called with that body and this signature,
    returned; the click then ends without an error and [onError] is not
    called (the events of the run are exactly those listed).  Otherwise
    it keeps its value: after a payment whose paid request is not
    answered ok, whose answer does not parse, or whose [onSuccess]
    throws, the signature of the payment is not kept. *)
Theorem last_signature_is_a_delivered_payment w ui :
  let run := handleRequest env w in
  (∀ signature, SetLastSignature signature ∈ events_of run →
     ∃ first w1 details payTo payer recipient w3 confirmation w4 response w5 data,
       let tx := {| fromPubkey := payer; toPubkey := recipient;
                    lamports := prop details "price" |} in
       let paid := paid_request env signature payer (Date_now env w4) in
       let answer :=
         if isExternalEndpoint env && truthy (prop data "markets")
         then MarketsResponse (prop data "markets") (prop data "meta")
         else AsReceived data in
       connected env = true ∧ publicKey env = Some payer ∧
       fetch env (endpoint env) (first_request env) w = (Done first, w1) ∧
       status first = 402%Z ∧ json first = Done details ∧
       prop details "payTo" = Some (JStr payTo) ∧ blank payTo = false ∧
       new_PublicKey env payTo = Done recipient ∧
       transfer_refused env tx = None ∧
       sendTransaction env tx w1 = (Done signature, w3) ∧
       confirmTransaction env signature w3 = (Done confirmation, w4) ∧
       fetch env (endpoint env) paid w4 = (Done response, w5) ∧
       ok response = true ∧ json response = Done data ∧
       onSuccess env answer (Some signature) w5 = (Done tt, world_of run) ∧
       result_of run = Done tt ∧
       events_of run
         = [ SetLoading true; SetStatus "Requesting service...";
             Fetch (endpoint env) (first_request env); ResponseJson;
             SetPaymentRequired details;
             SetStatus "Waiting for wallet approval..."; SendTransaction tx;
             SetStatus "Confirming transaction..."; ConfirmTransaction signature;
             Fetch (endpoint env) paid; ResponseJson;
             OnSuccess answer (Some signature); SetPaymentRequired JNull;
             SetLastSignature signature; SetLoading false ] ∧
       lastSignature (state_after ui (events_of run)) = signature) ∧
  ((∀ signature, SetLastSignature signature ∉ events_of run) →
     lastSignature (state_after ui (events_of run)) = lastSignature ui) ∧
  (∀ first w1 details payTo payer recipient signature w3 confirmation w4 response w5,
     connected env = true → publicKey env = Some payer →
     fetch env (endpoint env) (first_request env) w = (Done first, w1) →
     status first = 402%Z → json first = Done details →
     prop details "payTo" = Some (JStr payTo) →
     new_PublicKey env payTo = Done recipient →
     sendTransaction env {| fromPubkey := payer; toPubkey := recipient;
                            lamports := prop details "price" |} w1
       = (Done signature, w3) →
     confirmTransaction env signature w3 = (Done confirmation, w4) →
     fetch env (endpoint env) (paid_request env signature payer (Date_now env w4)) w4
       = (Done response, w5) →
     ok response = false
     ∨ (∃ e, json response = Raised e)
     ∨ (∃ data e w6,
          json response = Done data ∧
          onSuccess env
            (if isExternalEndpoint env && truthy (prop data "markets")
             then MarketsResponse (prop data "markets") (prop data "meta")
             else AsReceived data) (Some signature) w5 = (Raised e, w6)) →
     (∀ s, SetLastSignature s ∉ events_of run) ∧
     lastSignature (state_after ui (events_of run)) = lastSignature ui).
Proof.
  intros run0. subst run0.
  apply and_assoc. split; [|apply undelivered_payment_is_not_kept].
  run.
  all: unfold events_of, result_of, world_of, state_after; simpl.
  all: split; [intros signature Hin; member Hin; simplify_eq|].
  all: try (intros Hnot; first [done | exfalso; eapply Hnot; here]).
  all: try done.
  all: tests; reads.
  all: repeat match goal with u : unit |- _ => destruct u end.
  all: eexists _, _, _, _, _, _, _, _, _, _, _, _; split_and!;
       first [ done | eassumption | known; simpl; first [done | eassumption] ].
Qed.

(** X19.  The button awaits the confirmation of its transaction and does not
    read what it resolves to: a click goes exactly as it would if every
    confirmation that resolves reported no error.  A transaction that
    failed on chain is followed by the paid request all the same. *)
Theorem confirmation_result_is_not_read w :
  handleRequest (confirming_without_error env) w = handleRequest env w.
Proof.
  unfold handleRequest, processPayment, deliver, try_finally, try_catch, bind,
    emit, eval, call, read, ret, throw, paid_request, first_request, request_body,
    request_method, isExternalEndpoint;
  simpl; repeat (branch; simpl); simplify_eq; done.
Qed.

End Facts.

(** *** The button on the home page *)

Section OnThePage.
Context {W : Type} (base : Env W) (endpoint componentType : string).

Local Abbreviation mounted := (Home.button endpoint componentType base).

(** X20.  On the home page a click with a wallet connected ends in one of
    three ways.  Either [onSuccess] was called, once and alone, and the
    page holds what it was given, with no error; or [onError] was
    called, alone, with an error that has a message, and the page holds
    no rendered UI and the friendly form of that message; or the error
    had no message, [handleError] threw on it, and the page is as
    before while [handleRequest] rejects. *)
Theorem page_shows_the_result_or_the_error h w :
  connected base = true → is_Some (publicKey base) →
  let run := handleRequest mounted (h, w) in
  let page := (world_of run).1 in
  (∃ data signature,
     OnSuccess data signature ∈ events_of run ∧
     (∀ e, OnError e ∉ events_of run) ∧
     result_of run = Done tt ∧
     page = Home.handleSuccess data signature h) ∨
  (∃ e errorMessage,
     OnError e ∈ events_of run ∧
     (∀ data signature, OnSuccess data signature ∉ events_of run) ∧
     message e = Some errorMessage ∧
     result_of run = Done tt ∧
     Home.renderedUI page = None ∧
     Home.error page = Some (Home.friendly errorMessage) ∧
     Home.transactionSignature page = Home.transactionSignature h) ∨
  (∃ e e',
     OnError e ∈ events_of run ∧
     (∀ data signature, OnSuccess data signature ∉ events_of run) ∧
     message e = None ∧
     result_of run = Raised e' ∧
     page = h).
Proof.
  intros Hconnected [payer Hpayer].
  match goal with
  | |- context [handleRequest ?env ?w] =>
      let H := fresh in
      destruct (handleRequest env w) as [[? ?] ?] eqn:H; revert H
  end.
  unfold handleRequest, processPayment, deliver, try_finally, try_catch, bind,
    emit, eval, call, read, ret, throw.
  simpl. rewrite Hconnected, Hpayer. unfold Home.beside, Home.handleError. simpl.
  repeat (branch; simpl). all: intros [= <- <- <-].
  all: unfold events_of, result_of, world_of; simpl.
  all: simplify_eq.
  all: first
    [ left; eexists _, _; split; [here|]; split; [intros e' He'; member He'|];
      split; reflexivity
    | right; left; eexists _, _; split; [here|];
      split; [intros data' signature' Hs; member Hs|];
      split; [first [reflexivity | eassumption]|]; split_and!; reflexivity
    | right; right; eexists _, _; split; [here|];
      split; [intros data' signature' Hs; member Hs|];
      split; [eassumption|]; split; reflexivity ].
Qed.

(** X21.  When the wallet refuses the transaction (the error is named
    [WalletSendTransactionError], or its message mentions 'User
    rejected', 'Plugin Closed' or 'User cancelled'), the button reports
    its cancellation error instead, which the page shows as its
    cancellation text, whatever the wallet's own message was; nothing
    is confirmed and no second request is sent. *)
Theorem wallet_refusal_reads_as_cancelled
    h w payer response w1 details payTo recipient refusal w2 :
  let transaction :=
    {| fromPubkey := payer; toPubkey := recipient;
       lamports := prop details "price" |} in
  connected base = true → publicKey base = Some payer →
  fetch base endpoint (first_request mounted) w = (Done response, w1) →
  status response = 402%Z → json response = Done details →
  prop details "payTo" = Some (JStr payTo) → blank payTo = false →
  new_PublicKey base payTo = Done recipient →
  transfer_refused base transaction = None →
  sendTransaction base transaction w1 = (Raised refusal, w2) →
  wallet_refused refusal = true →
  let run := handleRequest mounted (h, w) in
  let page := (world_of run).1 in
  result_of run = Done tt ∧
  events_of run
    = [ SetLoading true; SetStatus "Requesting service...";
        Fetch endpoint (first_request mounted); ResponseJson;
        SetPaymentRequired details;
        SetStatus "Waiting for wallet approval..."; SendTransaction transaction;
        SetPaymentRequired JNull; SetStatus ""; OnError cancelled;
        SetLoading false ] ∧
  Home.error page = Some Home.cancelled_text ∧
  Home.renderedUI page = None ∧
  Home.shows_error page = true ∧ Home.shows_ui page = false.
Proof.
  intros transaction Hconnected Hpayer Hfetch H402 Hjson HpayTo Hblank Hkey
    Hbuilt Hsend Hrefused.
  assert (Hget : get details "payTo" = Done (Some (JStr payTo))).
  { destruct details; try done. simpl in *. by rewrite HpayTo. }
  assert (Hnonempty : truthy (Some (JStr payTo)) = true).
  { destruct payTo; [done|]. by apply bool_decide_eq_true_2. }
  unfold handleRequest, processPayment, deliver, try_finally, try_catch, bind,
    emit, eval, call, read, ret, throw.
  simpl. rewrite Hconnected, Hpayer. unfold Home.beside, Home.handleError. simpl.
  rewrite Hfetch. simpl. rewrite bool_decide_eq_true_2 by done. simpl.
  rewrite Hjson. simpl. rewrite Hget. simpl in *. rewrite Hnonempty. simpl.
  rewrite Hblank, Hkey. simpl. fold transaction. rewrite Hbuilt. simpl.
  rewrite Hsend. simpl. rewrite Hrefused. simpl.
  unfold events_of, result_of, world_of. simpl. by vm_compute.
Qed.

End OnThePage.
End ButtonFacts.

(** ** Prices on display *)

Module PriceFacts.

Import Price.

Lemma zero_is_no_dot c : is_zero c = true → is_dot c = false.
Proof.
  unfold is_zero, is_dot. intros Hc%bool_decide_eq_true.
  apply bool_decide_eq_false. congruence.
Qed.

Lemma zeros_no_dot s : zeros s = true → no_dot s = true.
Proof.
  induction s as [|c s IH]; [done|]. simpl.
  destruct s as [|c' s].
  - intros Hc%zero_is_no_dot. by rewrite Hc.
  - intros [Hc%zero_is_no_dot Hs]%andb_true_iff. rewrite Hc.
    by rewrite IH.
Qed.

Lemma zeros_app_zero s : zeros s = true → zeros (s +:+ "0") = true.
Proof.
  induction s as [|c s IH]; [done|]. simpl.
  destruct s as [|c' s]; simpl in *.
  - intros ->. done.
  - intros [-> Hs]%andb_true_iff. by rewrite IH.
Qed.

Lemma zeros_app_zero_inv s : s ≠ "" → zeros (s +:+ "0") = true → zeros s = true.
Proof.
  induction s as [|c s IH]; [done|]. intros _. simpl.
  destruct s as [|c' s]; simpl in *.
  - by intros [-> _]%andb_true_iff.
  - intros [-> Hs]%andb_true_iff. by rewrite IH.
Qed.

Lemma cut_zeros_cons c s :
  cut_zeros (String c s)
    = if dot_zeros (String c s) then "" else String c (cut_zeros s).
Proof. reflexivity. Qed.

Lemma dot_zeros_no_dot c s :
  is_dot c = false → dot_zeros (String c s) = zeros (String c s).
Proof. intros Hc. unfold dot_zeros. rewrite Hc. simpl. apply orb_false_r. Qed.

Lemma cut_dot_free_app_zero s :
  no_dot s = true → cut_zeros (s +:+ "0") = cut_zeros s.
Proof.
  induction s as [|c s IH]; [done|].
  intros [Hc%negb_true_iff Hs]%andb_true_iff.
  change (String c s +:+ "0") with (String c (s +:+ "0")).
  rewrite !cut_zeros_cons, !dot_zeros_no_dot by done.
  change (String c (s +:+ "0")) with (String c s +:+ "0").
  destruct (zeros (String c s)) eqn:Hz.
  - by rewrite (zeros_app_zero (String c s)).
  - destruct (zeros (String c s +:+ "0")) eqn:Hz'.
    + by rewrite (zeros_app_zero_inv (String c s)) in Hz.
    + by rewrite IH.
Qed.

Lemma cut_is_prefix s :
  ∃ tail, s = cut_zeros s +:+ tail ∧ (tail = "" ∨ dot_zeros tail = true).
Proof.
  induction s as [|c s (tail & IH & Htail)]; [by exists ""; auto|].
  rewrite cut_zeros_cons.
  destruct (dot_zeros (String c s)) eqn:Hhere.
  - exists (String c s). auto.
  - exists tail. split; [|done].
    change (String c s = String c (cut_zeros s +:+ tail)). by f_equal.
Qed.

Lemma no_dot_before_dot ip fp : no_dot (ip +:+ "." +:+ fp) = false.
Proof.
  induction ip as [|c ip IH]; [done|]. simpl. rewrite IH. apply andb_false_r.
Qed.

Lemma cut_keeps_integer_part ip fp :
  no_dot ip = true → ∃ rest, cut_zeros (ip +:+ "." +:+ fp) = ip +:+ rest.
Proof.
  induction ip as [|c ip IH]; [by eexists|].
  intros [Hc%negb_true_iff Hip]%andb_true_iff.
  destruct (IH Hip) as [rest Hrest].
  change (String c ip +:+ "." +:+ fp) with (String c (ip +:+ "." +:+ fp)).
  rewrite cut_zeros_cons, dot_zeros_no_dot by done.
  destruct (zeros (String c (ip +:+ "." +:+ fp))) eqn:Hhere.
  - apply zeros_no_dot in Hhere. simpl in Hhere.
    apply andb_true_iff in Hhere as [_ Hhere].
    by rewrite no_dot_before_dot in Hhere.
  - exists rest. by rewrite Hrest.
Qed.

Lemma cut_is_leftmost s pre suf :
  s = pre +:+ suf → dot_zeros suf = true →
  String.length (cut_zeros s) ≤ String.length pre.
Proof.
  revert pre. induction s as [|c s IH]; intros pre Hs Hsuf; [simpl; lia|].
  rewrite cut_zeros_cons. destruct (dot_zeros (String c s)) eqn:Hhere.
  - simpl. lia.
  - destruct pre as [|c' pre]; simpl in Hs.
    + change (String c s = suf) in Hs. rewrite <- Hs in Hsuf. congruence.
    + change (String c s = String c' (pre +:+ suf)) in Hs.
      injection Hs as <- Hs. simpl. specialize (IH pre Hs Hsuf). lia.
Qed.

Lemma cut_after_integer_part ip rest :
  no_dot ip = true →
  cut_zeros (ip +:+ "." +:+ rest) = ip +:+ cut_zeros ("." +:+ rest).
Proof.
  induction ip as [|c ip IH]; [done|].
  intros [Hc%negb_true_iff Hip]%andb_true_iff.
  change (String c ip +:+ "." +:+ rest) with (String c (ip +:+ "." +:+ rest)).
  rewrite cut_zeros_cons, dot_zeros_no_dot by done.
  destruct (zeros (String c (ip +:+ "." +:+ rest))) eqn:Hhere.
  - apply zeros_no_dot in Hhere. simpl in Hhere.
    apply andb_true_iff in Hhere as [_ Hhere].
    by rewrite no_dot_before_dot in Hhere.
  - rewrite IH by done. done.
Qed.

Lemma cut_at_dot_char c rest :
  is_dot c = true →
  cut_zeros (String c rest)
    = if zeros rest then "" else String c (cut_zeros rest).
Proof.
  unfold is_dot. intros Hc%bool_decide_eq_true. injection Hc as ->.
  rewrite cut_zeros_cons. unfold dot_zeros.
  match goal with |- context [zeros (String ?d rest)] =>
    assert (zeros (String d rest) = false) as -> by (simpl; by destruct rest)
  end.
  simpl. by destruct (zeros rest).
Qed.

Lemma cut_at_dot rest :
  cut_zeros ("." +:+ rest) = if zeros rest then "" else "." +:+ cut_zeros rest.
Proof. by apply cut_at_dot_char. Qed.

Lemma app_empty s : s +:+ "" = s.
Proof.
  induction s as [|a s IHs]; [done|].
  change (String a (s +:+ "") = String a s). by f_equal.
Qed.

Lemma zeros_end s : zeros s = true → ∃ k, s = k +:+ "0".
Proof.
  induction s as [|c s IH]; [done|]. simpl. destruct s as [|c' s].
  - unfold is_zero. intros Hc%bool_decide_eq_true. by exists "".
  - intros [_ Hs]%andb_true_iff. destruct (IH Hs) as [k Hk].
    exists (String c k). change (String c (String c' s) = String c (k +:+ "0")).
    by f_equal.
Qed.

Lemma zeros_app_inv k zs :
  zeros (k +:+ zs) = true → zs ≠ "" → k = "" ∨ zeros k = true.
Proof.
  induction k as [|c k IH]; [by left|]. intros Hz Hzs. right. simpl in Hz.
  destruct (k +:+ zs) as [|c' s] eqn:Hk.
  - by destruct k, zs.
  - apply andb_true_iff in Hz as [Hc Hs]. simpl.
    destruct k as [|c'' k]; [done|]. rewrite Hc. simpl.
    destruct (IH Hs Hzs) as [?|Hk']; [done|exact Hk'].
Qed.

Lemma cut_trailing_zeros kept zs :
  no_dot kept = true → (∀ k, kept ≠ k +:+ "0") →
  zs = "" ∨ zeros zs = true →
  cut_zeros (kept +:+ zs) = kept.
Proof.
  intros Hdot Hend Hzs. induction kept as [|c kept IH].
  - change (cut_zeros zs = "").
    destruct zs as [|c zs]; [done|]. destruct Hzs as [|Hzs]; [done|].
    rewrite cut_zeros_cons. unfold dot_zeros. by rewrite Hzs.
  - apply andb_true_iff in Hdot as [Hc%negb_true_iff Hdot].
    change (String c kept +:+ zs) with (String c (kept +:+ zs)).
    rewrite cut_zeros_cons, dot_zeros_no_dot by done.
    change (String c (kept +:+ zs)) with (String c kept +:+ zs).
    destruct (zeros (String c kept +:+ zs)) eqn:Hz.
    + exfalso. destruct zs as [|c' zs].
      * rewrite app_empty in Hz. destruct (zeros_end _ Hz) as [k Hk].
        by apply (Hend k).
      * apply zeros_app_inv in Hz as [?|Hz]; [done| |done].
        destruct (zeros_end _ Hz) as [k Hk]. by apply (Hend k).
    + f_equal. apply IH; [done|]. intros k ->. by apply (Hend (String c k)).
Qed.

(** X14.  What [formatPrice] shows is the engine's fixed-point text cut
    at the leftmost position from which only zeros follow, after a dot
    or without one; where no such position exists the text is shown
    whole.  For a text with a decimal point: the digits before the
    point are kept; if all digits after it are zeros the point goes
    with them, otherwise the digits up to the last one that is not a
    zero stay.  For a text without a decimal point, as with
    [decimals = 0], the trailing zeros of the integer itself are cut:
    a price and ten times the price are shown alike. *)
Theorem formatPrice_cuts_zeros toFixed price decimals :
  let text := toFixed price (default 9%Z decimals) in
  let shown := formatPrice toFixed price decimals in
  (∃ tail, text = shown +:+ tail ∧ (tail = "" ∨ dot_zeros tail = true)) ∧
  (∀ pre suf, text = pre +:+ suf → dot_zeros suf = true →
              String.length shown ≤ String.length pre) ∧
  (∀ ip fp, text = ip +:+ "." +:+ fp → no_dot ip = true →
            ∃ rest, shown = ip +:+ rest) ∧
  (∀ ip zs, text = ip +:+ "." +:+ zs → no_dot ip = true → zeros zs = true →
            shown = ip) ∧
  (∀ ip kept zs, text = ip +:+ "." +:+ kept +:+ zs →
                 no_dot ip = true → no_dot kept = true →
                 kept ≠ "" → (∀ k, kept ≠ k +:+ "0") →
                 zs = "" ∨ zeros zs = true →
                 shown = ip +:+ "." +:+ kept) ∧
  (∀ kept zs, text = kept +:+ zs →
              no_dot kept = true → (∀ k, kept ≠ k +:+ "0") →
              zs = "" ∨ zeros zs = true →
              shown = kept) ∧
  (∀ price', no_dot text = true →
             toFixed price' (default 9%Z decimals) = text +:+ "0" →
             formatPrice toFixed price' decimals = shown).
Proof.
  intros text shown. subst shown. unfold formatPrice. fold text.
  split; [apply cut_is_prefix|].
  split; [intros pre suf; apply cut_is_leftmost|]. split; [|split; [|split; [|split]]].
  - intros ip fp -> Hip. by apply cut_keeps_integer_part.
  - intros ip zs -> Hip Hzs.
    rewrite cut_after_integer_part, cut_at_dot, Hzs by done.
    apply app_empty.
  - intros ip kept zs -> Hip Hkept Hne Hend Hzs.
    rewrite cut_after_integer_part, cut_at_dot by done.
    destruct (zeros (kept +:+ zs)) eqn:Hz.
    + exfalso. destruct zs as [|c' zs].
      * rewrite app_empty in Hz. destruct (zeros_end _ Hz) as [k Hk].
        by apply (Hend k).
      * apply zeros_app_inv in Hz as [?|Hz]; [done| |done].
        destruct (zeros_end _ Hz) as [k Hk]. by apply (Hend k).
    + by rewrite cut_trailing_zeros.
  - intros kept zs -> Hkept Hend Hzs. by apply cut_trailing_zeros.
  - intros price' Htext ->. by apply cut_dot_free_app_zero.
Qed.

End PriceFacts.

(** ** The further properties at concrete inputs *)

Module FurtherChecks.

Import Scenario ScenarioMore.

Local Abbreviation POST := (Routes.POST counter_random no_env answering_x402 ledger).
Local Abbreviation verify := (Routes.verify counter_random no_env answering_x402 ledger).

(** A request with the standard header ["paid"] is settled, with that
    header, after the generator returned its template, and is answered
    with that template. *)
Lemma settlement_discipline_witness :
  let req := standard_request "paid" in
  SettlePayment "paid" ∈ trace (POST RenderUI req 0%nat) ∧
  truthy_string (extractPayment answering_x402 (headers req)) = true ∧
  ∃ b ui g1 g2 l2,
    Routes.json_body req = Ok (Some b) ∧
    Routes.generate counter_random RenderUI (Routes.componentType b)
      (Routes.config b) g1 = (Ok ui, g2, l2) ∧
    final (POST RenderUI req 0%nat) = g2.
Proof.
  intros req.
  destruct (RoutesMore.settlement_discipline counter_random no_env answering_x402
              ledger RenderUI req 0%nat) as (Honly & _ & _).
  assert (SettlePayment "paid" ∈ trace (POST RenderUI req 0%nat)) as Hin.
  { assert (trace (POST RenderUI req 0%nat)
            = [ ExtractPayment; ReqJson;
                CreatePaymentRequirements "Basic UI Component Render - card";
                VerifyPayment "paid"; Generate "card"; SettlePayment "paid" ])
      as -> by reflexivity.
    repeat first [apply list_elem_of_here | apply list_elem_of_further]. }
  destruct (Honly "paid" Hin)
    as (Hheader & _ & b & reqs & g1 & l1 & ui & g2 & l2
        & Hbody & _ & _ & Hgenerated & _ & _ & Hfinal & _).
  split; [exact Hin|]. split; [exact Hheader|].
  exists b, ui, g1, g2, l2. split; [exact Hbody|]. split; [exact Hgenerated | exact Hfinal].
Defined.

(** The transaction that paid for a grid from the basic route verifies
    for an analytics dashboard from the premium route, under another
    public key and from another state. *)
Lemma custom_proof_is_not_bound_witness :
  let req := custom_request "sig-full" payer_address "grid" in
  let req' := custom_request "sig-full" "8MeWTYDip5SWVJf3wkvDKZw9BjSAWMXm5oAeELJ6HFM9"
                "analytics" in
  truthy_string (extractPayment answering_x402 (headers req)) = false ∧
  hasCustomPayment req = true ∧ hasCustomPayment req' = true ∧
  outcome (verify RenderUI req grid_requirements 0%nat)
    = outcome (verify PremiumUI req' JNull 7%nat) ∧
  outcome (verify RenderUI req grid_requirements 0%nat) = Ok true.
Proof.
  intros req req'.
  split; [reflexivity|]. split; [reflexivity|]. split; [reflexivity|].
  split; [|by vm_compute].
  apply (RoutesMore.custom_proof_is_not_bound counter_random no_env answering_x402
           ledger RenderUI PremiumUI req req' grid_requirements JNull 0%nat 7%nat);
    reflexivity.
Defined.

(** A paid request for a card whose config asks for 2^32 grid items. *)
Lemma oversized_item_count_fails_every_component_witness :
  Routes.json_body oversized_request = Ok (Some oversized_body) ∧
  unpaid answering_x402 oversized_request = false ∧
  outcome (verify RenderUI oversized_request card_requirements 0%nat) = Ok true ∧
  (max_array_length < 4294967296)%Z ∧
  POST RenderUI oversized_request 0%nat
    = (Ok internal_error, 0%nat,
       preamble no_env RenderUI oversized_body
         ++ [verification_call answering_x402 oversized_request; Generate "card"]).
Proof.
  split; [reflexivity|]. split; [reflexivity|]. split; [by vm_compute|].
  split; [reflexivity|].
  apply (RoutesMore.oversized_item_count_fails_every_component counter_random no_env
           answering_x402 ledger RenderUI oversized_request 0%nat oversized_body
           card_requirements oversized_config 4294967296%Z);
    first [reflexivity | by vm_compute].
Defined.

Lemma grid_items_follow_item_count_witness :
  (or_number (Some eight_items ≫= itemCount) 6 ≤ max_array_length)%Z ∧
  ∃ layout,
    generateUI "grid" (Some eight_items) = Ok (Obj (GridUI layout)) ∧
    length (items layout) = 8%nat ∧
    NoDup (id <$> items layout).
Proof.
  assert (or_number (Some eight_items ≫= itemCount) 6 ≤ max_array_length)%Z as Hn
    by (by vm_compute).
  split; [exact Hn|].
  destruct (RoutesMore.grid_items_follow_item_count (Some eight_items) Hn)
    as (layout & Hgrid & Hlength & _ & Hdistinct & _).
  exists layout. split; [exact Hgrid|]. split; [exact Hlength | exact Hdistinct].
Defined.

(** An analytics dashboard, which shows nothing random, moves the
    counter on by 12 + 40 draws. *)
Lemma premium_generation_draws_witness :
  (or_number (None ≫= itemCount) 12 ≤ max_array_length)%Z ∧
  ∃ ui, generatePremiumUI counter_random "analytics" None 3%nat
          = (Ok ui, 55%nat, replicate 52 Random).
Proof.
  assert (or_number (None ≫= itemCount) 12 ≤ max_array_length)%Z as Hn
    by (by vm_compute).
  split; [exact Hn|].
  destruct (RoutesMore.premium_generation_draws counter_random "analytics" None 3%nat Hn)
    as (ui & Hrun).
  exists ui. exact Hrun.
Defined.

Lemma counter_random_floor k (g : nat) :
  (0 < k)%Z →
  (0 ≤ floor_mul counter_random (random counter_random g).1 k < k)%Z.
Proof.
  intros Hk. change (0 ≤ Z.of_nat (g `mod` 10) * k / 10 < k)%Z.
  assert (g `mod` 10 < 10)%nat as Hdraw by (apply Nat.mod_upper_bound; lia).
  split.
  - apply Z.div_pos; lia.
  - apply Z.div_lt_upper_bound; [lia|]. nia.
Qed.

Lemma data_table_rows_witness :
  (or_number (None ≫= itemCount) 12 ≤ max_array_length)%Z ∧
  ∃ columns table features,
    outcome (generatePremiumUI counter_random "data-table" None 0%nat)
      = Ok (Obj (DataTableUI columns table features)) ∧
    length table = 20%nat ∧
    Forall (λ row, 0 ≤ row_value row < 10000)%Z table ∧
    Forall (λ row, ∃ label, row_status row = Some label ∧ label ∈ status_labels) table.
Proof.
  assert (or_number (None ≫= itemCount) 12 ≤ max_array_length)%Z as Hn
    by (by vm_compute).
  split; [exact Hn|].
  destruct (RoutesMore.data_table_rows counter_random None 0%nat Hn)
    as (columns & table & features & Hrun & _ & Hlength & Hvalues & Hstatuses).
  exists columns, table, features.
  split; [exact Hrun|]. split; [exact Hlength|].
  split; [apply Hvalues | apply Hstatuses];
    intros g0; apply counter_random_floor; lia.
Defined.

Lemma data_table_shows_ten_rows_witness :
  (or_number (None ≫= itemCount) 12 ≤ max_array_length)%Z ∧
  ∃ columns table features,
    outcome (generatePremiumUI counter_random "data-table" None 0%nat)
      = Ok (Obj (DataTableUI columns table features)) ∧
    length table = 20%nat ∧
    length (Table.DataTableRenderer columns table).2 = 10%nat.
Proof.
  assert (or_number (None ≫= itemCount) 12 ≤ max_array_length)%Z as Hn
    by (by vm_compute).
  split; [exact Hn|].
  destruct (RoutesMore.data_table_shows_ten_rows counter_random None 0%nat Hn)
    as (columns & table & features & Hrun & Hlength & _ & Hshown).
  exists columns, table, features.
  split; [exact Hrun|]. split; [exact Hlength|].
  destruct (Table.DataTableRenderer columns table) as [header body].
  destruct Hshown as (_ & Hbody & _). exact Hbody.
Defined.

(** The same signature, offered for two endpoints under two public keys. *)
Lemma verify_payment_reads_the_signature_only_witness :
  let request := verify_request_from "sig-full" payer_address "/api/render-ui" in
  let request' := verify_request_from "sig-full"
                    "8MeWTYDip5SWVJf3wkvDKZw9BjSAWMXm5oAeELJ6HFM9" "/api/premium-ui" in
  VerifyPayment.POST (S := unit) no_env ledger 0 request tt
    = VerifyPayment.POST (S := unit) no_env ledger 0 request' tt.
Proof.
  intros request request'.
  eapply (VerifyPaymentMore.verify_payment_reads_the_signature_only (S := unit)
            no_env ledger 0 request request'); reflexivity.
Defined.

(** A wallet that gives up: the error is passed on and nothing is
    fetched again. *)
Lemma fetchWithPayment_failures_witness :
  Client.fetchWithPayment gated_server "/api/render-ui" (Some post_grid)
    (Some closing_wallet) 0%nat
  = (Throw (Thrown "wallet closed"), 1%nat,
     [ Client.Fetch "/api/render-ui" (Some post_grid); Client.ResponseJson;
       Client.OnPaymentRequired payment_terms ]).
Proof.
  destruct (ClientMore.fetchWithPayment_failures gated_server "/api/render-ui"
              (Some post_grid) (Some closing_wallet) 0%nat) as (_ & _ & Hhandler & _).
  apply (Hhandler {| Client.status := 402; Client.json := Ok payment_terms |} 1%nat
           payment_terms closing_wallet (Thrown "wallet closed") 1%nat);
    reflexivity.
Defined.

(** With an RPC endpoint that is no URL, a well-formed request for a
    payment that is on the chain is answered 500. *)
Lemma verify_payment_answers_witness :
  let env := {| NEXT_PUBLIC_SOLANA_NETWORK := None;
                NEXT_PUBLIC_SOLANA_RPC := Some "localhost:8899";
                NEXT_PUBLIC_X402_FACILITATOR_URL := None;
                NEXT_PUBLIC_BASE_URL := None |} in
  let request := verify_request_from "sig-full" payer_address "/api/render-ui" in
  ∃ resp, outcome (VerifyPayment.POST (S := unit) env ledger 0 request tt) = Ok resp ∧
          status resp = 500%Z ∧
          trace (VerifyPayment.POST (S := unit) env ledger 0 request tt) = [ReqJson].
Proof.
  intros env request.
  destruct (VerifyPaymentMore.verify_payment_answers (S := unit) env ledger 0 request tt)
    as (resp & lookups & Hrun & _ & H500 & _ & _).
  exists resp. rewrite Hrun. split; [reflexivity|]. split.
  - apply H500. right. eexists. split; [reflexivity|].
    repeat split; reflexivity.
  - revert Hrun. vm_compute. by intros [= _ <-].
Defined.

(** A caller's [Authorization] header, given in a [Headers] instance or
    as an array of pairs, is not among the headers of the retry. *)
Lemma retry_keeps_the_request_witness :
  let proof := {| Types.signature := "sig-full"; Types.publicKey := payer_address;
                  timestamp := 1730000000000 |} in
  let instance := Some {| ClientInit.method := Some "POST";
                          ClientInit.headers := Some (ClientInit.HeadersInstance
                                                        [("Authorization", "Bearer t")]);
                          ClientInit.body := None |} in
  let pairs := Some {| ClientInit.method := Some "POST";
                       ClientInit.headers := Some (ClientInit.PairArray
                                                     [["Authorization"; "Bearer t"]]);
                       ClientInit.body := None |} in
  ClientInit.retry_headers (ClientInit.retry_init pretty instance proof)
    !! "Authorization" = None ∧
  ClientInit.retry_headers (ClientInit.retry_init pretty pairs proof)
    !! "Authorization" = None ∧
  ClientInit.retry_headers (ClientInit.retry_init pretty pairs proof)
    !! "0" = Some (ClientInit.FArray ["Authorization"; "Bearer t"]).
Proof.
  intros proof instance pairs.
  destruct (RetryFacts.retry_keeps_the_request pretty instance proof)
    as (_ & _ & _ & _ & _ & _ & _ & _ & _ & _ & Hinstance & _).
  destruct (RetryFacts.retry_keeps_the_request pretty pairs proof)
    as (_ & _ & _ & Hother & _ & _ & _ & _ & _ & _ & _ & Hpairs & _).
  split; [|split].
  - apply (Hinstance [("Authorization", "Bearer t")]); [reflexivity|].
    unfold ClientInit.payment_names. set_solver.
  - rewrite Hother; [reflexivity|]. unfold ClientInit.payment_names. set_solver.
  - rewrite Hother; [|unfold ClientInit.payment_names; set_solver].
    apply (Hpairs [["Authorization"; "Bearer t"]] eq_refl).
    exists 0%nat, ["Authorization"; "Bearer t"]. done.
Defined.

(** The treasury's address, shortened. *)
Lemma formatPublicKey_shape_witness :
  Format.formatPublicKey "8MeWTYDip5SWVJf3wkvDKZw9BjSAWMXm5oAeELJ6HFM9" None
    = "8MeW...HFM9" ∧
  Format.formatPublicKey "abc" None = "abc...abc" ∧
  Format.formatPublicKey "abc" (Some 0%Z) = "...abc".
Proof.
  destruct (FormatFacts.formatPublicKey_shape
              "8MeWTYDip5SWVJf3wkvDKZw9BjSAWMXm5oAeELJ6HFM9" None)
    as (Hlong & _).
  destruct (FormatFacts.formatPublicKey_shape "abc" None) as (_ & Hshort & _).
  destruct (FormatFacts.formatPublicKey_shape "abc" (Some 0%Z)) as (_ & _ & Hnone & _).
  simpl in Hlong, Hshort, Hnone.
  split; [|split].
  - assert (0 < 4)%Z as Hchars by lia.
    assert (Z.to_nat 4 ≤ 44)%nat as Hlength by lia.
    destruct (Hlong Hchars Hlength) as [-> _]. reflexivity.
  - assert (0 < 4)%Z as Hchars by lia.
    assert (3 ≤ Z.to_nat 4)%nat as Hlength by lia.
    rewrite (Hshort Hchars Hlength). reflexivity.
  - rewrite Hnone; reflexivity.
Defined.

(** The price of the services, 500000 lamports, with nine decimals and
    with none. *)
Lemma formatPrice_cuts_zeros_witness :
  exact_fixed 500000 9 = "0.000500000" ∧
  Price.formatPrice exact_fixed 500000 None = "0.0005" ∧
  exact_fixed 50000 0 = "50000" ∧
  exact_fixed 500000 0 = "500000" ∧
  Price.formatPrice exact_fixed 500000 (Some 0%Z) = "5" ∧
  Price.formatPrice exact_fixed 50000 (Some 0%Z) = "5".
Proof.
  destruct (PriceFacts.formatPrice_cuts_zeros exact_fixed 50000 (Some 0%Z))
    as (_ & _ & _ & _ & _ & _ & Hten).
  destruct (PriceFacts.formatPrice_cuts_zeros exact_fixed 500000 None)
    as (_ & _ & _ & _ & Hfraction & _).
  split; [by vm_compute|]. split.
  { apply (Hfraction "0" "0005" "00000");
      [by vm_compute | reflexivity | reflexivity | discriminate | | by right].
    intros k Hk.
    destruct k as [|? [|? [|? [|? [|? ?]]]]]; discriminate Hk. }
  split; [by vm_compute|]. split; [by vm_compute|].
  assert (Price.formatPrice exact_fixed 50000 (Some 0%Z) = "5") as Hshown
    by (by vm_compute).
  split; [|exact Hshown].
  rewrite <- Hshown. apply Hten; by vm_compute.
Defined.

(** *** The button in a shop whose wallet approves, or refuses *)

Import Button ButtonHandlers ButtonSpec.


Lemma request_ends_with_one_report_witness :
  connected (shop false) = true ∧ is_Some (publicKey (shop false)) ∧
  loading (state_after initial (events_of (handleRequest (shop false) 0%nat))) = false ∧
  (count is_error (events_of (handleRequest (shop false) 0%nat)) ≤ 1)%nat ∧
  OnError cancelled ∈ events_of (handleRequest (shop false) 0%nat).
Proof.
  assert (is_Some (publicKey (shop false))) as Hkey by (by eexists).
  destruct (ButtonFacts.request_ends_with_one_report (shop false) 0%nat initial
              eq_refl Hkey) as (Hloading & _ & Herrors & _).
  split; [reflexivity|]. split; [exact Hkey|]. split; [exact Hloading|].
  split; [exact Herrors|].
  assert (events_of (handleRequest (shop false) 0%nat)
          = [ SetLoading true; SetStatus "Requesting service...";
              Fetch "/api/render-ui" (first_request (shop false)); ResponseJson;
              SetPaymentRequired payment_terms;
              SetStatus "Waiting for wallet approval..."; SendTransaction payment;
              SetPaymentRequired JNull; SetStatus ""; OnError cancelled;
              SetLoading false ]) as -> by reflexivity.
  repeat first [apply list_elem_of_here | apply list_elem_of_further].
Defined.

(** Half way through a paid click the details are stored, and the note
    is not shown. *)
Lemma payment_required_note_is_never_shown_witness :
  let shown := [ SetLoading true; SetStatus "Requesting service...";
                 Fetch "/api/render-ui" (first_request (shop true)); ResponseJson;
                 SetPaymentRequired payment_terms ] in
  truthy (Some (paymentRequired initial)) = false ∧
  shown `prefix_of` events_of (handleRequest (shop true) 0%nat) ∧
  paymentRequired (state_after initial shown) = payment_terms ∧
  existsb is_payment_required_note
    (render (connected (shop true)) (state_after initial shown)) = false.
Proof.
  intros shown.
  assert (shown `prefix_of` events_of (handleRequest (shop true) 0%nat)) as Hshown.
  { eexists. reflexivity. }
  split; [reflexivity|]. split; [exact Hshown|]. split; [reflexivity|].
  apply (ButtonFacts.payment_required_note_is_never_shown (shop true) 0%nat initial
           shown); [reflexivity | exact Hshown].
Defined.

Lemma last_signature_is_a_delivered_payment_witness :
  SetLastSignature "sig-full" ∈ events_of (handleRequest (shop true) 0%nat) ∧
  result_of (handleRequest (shop true) 0%nat) = Done tt ∧
  lastSignature (state_after initial (events_of (handleRequest (shop true) 0%nat)))
    = "sig-full" ∧
  lastSignature (state_after initial (events_of (handleRequest (shop false) 0%nat)))
    = "".
Proof.
  destruct (ButtonFacts.last_signature_is_a_delivered_payment (shop true) 0%nat initial)
    as (Hset & _ & _).
  destruct (ButtonFacts.last_signature_is_a_delivered_payment (shop false) 0%nat initial)
    as (_ & Hkept & _).
  assert (SetLastSignature "sig-full" ∈ events_of (handleRequest (shop true) 0%nat))
    as Hin.
  { assert (events_of (handleRequest (shop true) 0%nat)
            = [ SetLoading true; SetStatus "Requesting service...";
                Fetch "/api/render-ui" (first_request (shop true)); ResponseJson;
                SetPaymentRequired payment_terms;
                SetStatus "Waiting for wallet approval..."; SendTransaction payment;
                SetStatus "Confirming transaction..."; ConfirmTransaction "sig-full";
                Fetch "/api/render-ui"
                  (paid_request (shop true) "sig-full" payer 1730000000000);
                ResponseJson; OnSuccess (AsReceived rendered_grid) (Some "sig-full");
                SetPaymentRequired JNull; SetLastSignature "sig-full";
                SetLoading false ]) as -> by reflexivity.
    repeat first [apply list_elem_of_here | apply list_elem_of_further]. }
  destruct (Hset "sig-full" Hin)
    as (first & w1 & details & payTo & payer' & recipient & w3 & confirmation & w4
        & response & w5 & data & Hchain).
  cbv zeta in Hchain.
  destruct Hchain
    as (_ & _ & _ & _ & _ & _ & _ & _ & _ & _ & _ & _ & _ & _ & _ & Hdone & _ & Hlast).
  split; [exact Hin|]. split; [exact Hdone|]. split; [exact Hlast|].
  apply Hkept. intros signature Hno.
  assert (events_of (handleRequest (shop false) 0%nat)
          = [ SetLoading true; SetStatus "Requesting service...";
              Fetch "/api/render-ui" (first_request (shop false)); ResponseJson;
              SetPaymentRequired payment_terms;
              SetStatus "Waiting for wallet approval..."; SendTransaction payment;
              SetPaymentRequired JNull; SetStatus ""; OnError cancelled;
              SetLoading false ]) as Hevents by reflexivity.
  rewrite Hevents in Hno.
  repeat (apply elem_of_cons in Hno as [Hno|Hno]; [discriminate Hno|]).
  by apply elem_of_nil in Hno.
Defined.

Lemma page_shows_the_result_or_the_error_witness :
  let run := handleRequest (Home.button "/api/render-ui" "grid" (shop true))
               (Home.initial, 0%nat) in
  connected (shop true) = true ∧ is_Some (publicKey (shop true)) ∧
  result_of run = Done tt ∧
  (world_of run).1
    = Home.handleSuccess (AsReceived rendered_grid) (Some "sig-full") Home.initial ∧
  Home.shows_ui (world_of run).1 = true ∧ Home.shows_error (world_of run).1 = false.
Proof.
  intros run.
  assert (is_Some (publicKey (shop true))) as Hkey by (by eexists).
  destruct (ButtonFacts.page_shows_the_result_or_the_error (shop true) "/api/render-ui"
              "grid" Home.initial 0%nat eq_refl Hkey)
    as [(data & signature & _ & _ & Hdone & _)
       |[(e & m & _ & _ & _ & Hdone & _)|(e & e' & _ & _ & _ & Hraised & _)]].
  1,2: split; [reflexivity|]; split; [exact Hkey|]; split; [exact Hdone|];
       split; [reflexivity|]; split; reflexivity.
  exfalso. change (result_of run = Raised e') in Hraised.
  assert (result_of run = Done tt) as Hdone by reflexivity.
  rewrite Hdone in Hraised. discriminate Hraised.
Defined.

Lemma wallet_refusal_reads_as_cancelled_witness :
  let mounted := Home.button "/api/render-ui" "grid" (shop false) in
  let run := handleRequest mounted (Home.initial, 0%nat) in
  fetch (shop false) "/api/render-ui" (first_request mounted) 0%nat
    = (Done {| status := 402; json := Done payment_terms |}, 1%nat) ∧
  sendTransaction (shop false) payment 1%nat = (Raised user_rejected, 1%nat) ∧
  wallet_refused user_rejected = true ∧
  Home.friendly "User rejected the request." = Home.cancelled_text ∧
  Home.error (world_of run).1 = Some Home.cancelled_text ∧
  Home.shows_error (world_of run).1 = true.
Proof.
  intros mounted run.
  destruct (ButtonFacts.wallet_refusal_reads_as_cancelled (shop false) "/api/render-ui"
              "grid" Home.initial 0%nat payer
              {| status := 402; json := Done payment_terms |} 1%nat payment_terms
              "8MeWTYDip5SWVJf3wkvDKZw9BjSAWMXm5oAeELJ6HFM9" treasury user_rejected
              1%nat)
    as (_ & _ & Herror & _ & Hshown & _);
    try reflexivity.
  split; [reflexivity|]. split; [reflexivity|]. split; [reflexivity|].
  split; [reflexivity|]. split; [exact Herror | exact Hshown].
Defined.

End FurtherChecks.
